(** * pdf_lib: a shallow embedding of the ingestion and categorization core

    The development follows the Python package [pdf_lib] module by module:
    [util] (file-name sanitizing), [library] (content-addressed store
    layout), [categorizer] (the rule scorer), [llm] (reply extraction and
    classification), [catalog] (the categorization engine),
    [scanner]/[db] (the scan pass over the manifest) and [organize] (the
    names of the links of the categorized view).

    Conventions.
    - A Python [str] is a list of Unicode code points ([N]); literals are
      written [py "..."].
    - A Python [float] is a binary64 value of the kernel ([PrimFloat.float]),
      so arithmetic and comparisons round exactly as the interpreter does.
    - [None] is [option]; an exception is an explicit result constructor.
    - Dictionaries used as tables are [gmap]s; ordered collections are lists. *)

From Stdlib Require Import ZArith Strings.String Strings.Ascii DecimalString Floats Lia Bool.
From Stdlib Require Import DecimalPos DecimalN.
From stdpp Require Import gmap list.

Set Default Proof Using "Type".
Set Warnings "-register-all".

(* ===================================================================== *)
(** * Python strings                                                      *)
(* ===================================================================== *)

Module Py.

Abbreviation str := (list N).

(** A literal: the code points of an ASCII string. *)
Definition py (s : string) : str :=
  map N_of_ascii (list_ascii_of_string s).
Arguments py s%_string.

(** [str.isspace] for one code point: the characters [str.strip()] removes
    and the class [\s] of a [str] pattern. *)
Definition is_space (c : N) : bool :=
  ((9 <=? c) && (c <=? 13) || (28 <=? c) && (c <=? 32)
   || (c =? 133) || (c =? 160) || (c =? 5760)
   || (8192 <=? c) && (c <=? 8202)
   || (c =? 8232) || (c =? 8233) || (c =? 8239) || (c =? 8287)
   || (c =? 12288))%N.

Definition is_digit (c : N) : bool := ((48 <=? c) && (c <=? 57))%N.
Definition is_upper (c : N) : bool := ((65 <=? c) && (c <=? 90))%N.
Definition is_lower (c : N) : bool := ((97 <=? c) && (c <=? 122))%N.

Fixpoint lstrip (s : str) : str :=
  match s with
  | [] => []
  | c :: s' => if is_space c then lstrip s' else s
  end.

Fixpoint rstrip (s : str) : str :=
  match s with
  | [] => []
  | c :: s' =>
      match rstrip s' with
      | [] => if is_space c then [] else [c]
      | r => c :: r
      end
  end.

(** [s.strip()] *)
Definition strip (s : str) : str := rstrip (lstrip s).

Definition str_eqb (a b : str) : bool := bool_decide (a = b).

(** [s.startswith(p)] *)
Fixpoint startswith (p s : str) : bool :=
  match p, s with
  | [], _ => true
  | _ :: _, [] => false
  | a :: p', b :: s' => (a =? b)%N && startswith p' s'
  end.

(** [s.endswith(p)] *)
Definition endswith (p s : str) : bool :=
  startswith (reverse p) (reverse s).

(** [p in s] for strings (substring test). *)
Fixpoint contains (p s : str) : bool :=
  startswith p s ||
  match s with
  | [] => false
  | _ :: s' => contains p s'
  end.

(** [sep.join(xs)] *)
Fixpoint join (sep : str) (xs : list str) : str :=
  match xs with
  | [] => []
  | [x] => x
  | x :: xs' => x ++ sep ++ join sep xs'
  end.

(** [re.sub(r"[C]+", rep, s)] for a character class [C]: every maximal run
    of class characters is replaced by one [rep]. [in_run] says that the
    previous character belonged to the run being replaced. *)
Fixpoint sub_runs_from (cls : N -> bool) (rep : str) (in_run : bool) (s : str) : str :=
  match s with
  | [] => []
  | c :: s' =>
      if cls c then
        (if in_run then [] else rep) ++ sub_runs_from cls rep true s'
      else c :: sub_runs_from cls rep false s'
  end.

Definition sub_runs (cls : N -> bool) (rep : str) (s : str) : str :=
  sub_runs_from cls rep false s.

(** [s.replace(old, "")] for a one-character [old]. *)
Definition remove_char (old : N) (s : str) : str :=
  filter (fun c => c ≠ old) s.

(** [s.replace(old, new)] for one-character [old]. *)
Definition replace_char (old : N) (new : str) (s : str) : str :=
  concat (map (fun c => if (c =? old)%N then new else [c]) s).

(** Values of the dynamically typed parts of the program: what
    [json.loads] and [ast.literal_eval] build and what a reply dictionary
    holds. A [dict] keeps its items in insertion order. *)
Inductive pyvalue :=
| PNone
| PBool (b : bool)
| PInt (z : Z)
| PFloat (f : float)
| PStr (s : str)
| PList (l : list pyvalue)
| PDict (items : list (pyvalue * pyvalue)).

Abbreviation pydict := (list (pyvalue * pyvalue)).

(** [d.get(key)] for a string key: only a string key can be equal to it. *)
Fixpoint dict_get (d : pydict) (key : str) : option pyvalue :=
  match d with
  | [] => None
  | (PStr k, v) :: d' => if str_eqb k key then Some v else dict_get d' key
  | _ :: d' => dict_get d' key
  end.

(** [d[key] = v] for a string key: an existing key keeps its position. *)
Fixpoint dict_set (d : pydict) (key : str) (v : pyvalue) : pydict :=
  match d with
  | [] => [(PStr key, v)]
  | (PStr k, w) :: d' =>
      if str_eqb k key then (PStr k, v) :: d' else (PStr k, w) :: dict_set d' key v
  | kv :: d' => kv :: dict_set d' key v
  end.

(** The interpreter and standard-library functions the package calls and
    whose definition lies outside the package. A function that can raise
    returns [None] where the interpreter raises. Every theorem below holds
    for all implementations of this interface. *)
Class Runtime := {
  (** [str.lower] (full Unicode lower-casing) *)
  lower : str -> str;
  (** [str(v)] for a value that is not a [str] *)
  repr : pyvalue -> str;
  (** [float(s)] for a [str] *)
  float_of_str : str -> option float;
  (** [json.loads(s)] *)
  json_loads : str -> option pyvalue;
  (** [json.JSONDecoder().raw_decode(s)]: the value and the end index *)
  raw_decode : str -> option (pyvalue * nat);
  (** [ast.literal_eval(s)] *)
  literal_eval : str -> option pyvalue;
  (** [json.dumps(v, ensure_ascii=b)] *)
  json_dumps : bool -> pyvalue -> str;
  (** [hashlib.sha256(data).hexdigest()] *)
  sha256_hexdigest : list N -> str;
}.

(** [float(n)] for a small non-negative [int] (a length). *)
Definition float_of_nat (n : nat) : float :=
  PrimFloat.of_uint63 (Uint63.of_Z (Z.of_nat n)).

(** [float(z)] for an [int]: rounded to nearest even, [OverflowError]
    beyond the binary64 range. *)
Definition float_of_Z (z : Z) : option float :=
  match binary_normalize prec emax z 0 false with
  | S754_infinity _ => None
  | sf => Some (SF2Prim sf)
  end.

(** Truth value of an object, as [or] and [if] test it. *)
Definition truthy (v : pyvalue) : bool :=
  match v with
  | PNone => false
  | PBool b => b
  | PInt z => negb (z =? 0)%Z
  | PFloat f => negb (PrimFloat.eqb f 0%float)
  | PStr s => negb (str_eqb s [])
  | PList l => match l with [] => false | _ => true end
  | PDict d => match d with [] => false | _ => true end
  end.

(** The characters of [s] after its longest prefix in the class. *)
Fixpoint skip_while (cls : N -> bool) (s : str) : str :=
  match s with
  | [] => []
  | c :: s' => if cls c then skip_while cls s' else s
  end.

(** The longest prefix of [s] in the class. *)
Fixpoint span_while (cls : N -> bool) (s : str) : str :=
  match s with
  | [] => []
  | c :: s' => if cls c then c :: span_while cls s' else []
  end.

(** [s.find(c)] for a character: [None] is [-1]. *)
Fixpoint find_char (c : N) (s : str) : option nat :=
  match s with
  | [] => None
  | d :: s' => if (d =? c)%N then Some 0 else S <$> find_char c s'
  end.

(** [s.rfind(c)] for a character. *)
Fixpoint rfind_char (c : N) (s : str) : option nat :=
  match s with
  | [] => None
  | d :: s' =>
      match rfind_char c s' with
      | Some i => Some (S i)
      | None => if (d =? c)%N then Some 0 else None
      end
  end.

(** A lower-case ASCII letter [p] of a pattern compiled with
    [re.IGNORECASE] matches [c]: the two cases of the letter and the
    characters whose simple case mapping is the letter. *)
Definition ci_char (p c : N) : bool :=
  ((c =? p) || (c =? p - 32)
   || (p =? 115) && (c =? 383)
   || (p =? 105) && ((c =? 304) || (c =? 305))
   || (p =? 107) && (c =? 8490))%N.

Fixpoint ci_startswith (p s : str) : bool :=
  match p, s with
  | [], _ => true
  | _ :: _, [] => false
  | a :: p', b :: s' => ci_char a b && ci_startswith p' s'
  end.

(** Decimal digits of a natural number. *)
Definition decimal (n : N) : str :=
  py (NilZero.string_of_uint (N.to_uint n)).

(** The integer nearest to [m * 2^e], ties to even. *)
Definition round_half_even (m e : Z) : Z :=
  if (0 <=? e)%Z then (m * 2 ^ e)%Z
  else
    let d := (2 ^ (- e))%Z in
    let q := (m / d)%Z in
    let r := (m mod d)%Z in
    match (2 * r ?= d)%Z with
    | Lt => q
    | Gt => (q + 1)%Z
    | Eq => if Z.even q then q else (q + 1)%Z
    end.

(** [f"{x:.2f}"]: two decimals, correctly rounded. *)
Definition format_2f (x : float) : str :=
  match Prim2SF x with
  | S754_nan => py "nan"
  | S754_infinity s => if s then py "-inf" else py "inf"
  | S754_zero s => if s then py "-0.00" else py "0.00"
  | S754_finite s m e =>
      let n := Z.to_N (round_half_even (Z.pos m * 100) e) in
      let frac := (n mod 100)%N in
      (if s then py "-" else [])
        ++ decimal (n / 100) ++ py "."
        ++ (if (frac <? 10)%N then py "0" else []) ++ decimal frac
  end.

(** [min(a, b)] and [max(a, b)] of two floats: the first argument unless
    the second is strictly smaller (larger). *)
Definition py_min (a b : float) : float := if PrimFloat.ltb b a then b else a.
Definition py_max (a b : float) : float := if PrimFloat.ltb a b then b else a.

End Py.
Import Py.

(* ===================================================================== *)
(** * util.py                                                             *)
(* ===================================================================== *)

Module Util.

(** The class [[A-Za-z0-9._ -]] of [_SAFE_FILENAME_RE]. *)
Definition safe_char (c : N) : bool :=
  is_upper c || is_lower c || is_digit c
  || (c =? 46)%N || (c =? 95)%N || (c =? 32)%N || (c =? 45)%N.

(** [_SAFE_FILENAME_RE.sub("_", name)] with
    [_SAFE_FILENAME_RE = re.compile(r"[^A-Za-z0-9._ -]+")]. *)
Definition _SAFE_FILENAME_RE_sub (name : str) : str :=
  sub_runs (fun c => negb (safe_char c)) (py "_") name.

(** The value of [name] in [safe_filename] when the emptiness test is
    reached (the first three assignments). *)
Definition sanitized (name : str) : str :=
  let name := remove_char 0%N (strip name) in
  let name := _SAFE_FILENAME_RE_sub name in
  strip (sub_runs is_space (py " ") name).

Definition default_max_len : nat := 160.

(** [safe_filename(name, *, max_len=160)] *)
Definition safe_filename (name : str) (max_len : nat) : str :=
  let name := sanitized name in
  let name := match name with [] => py "untitled" | _ => name end in
  if Nat.ltb max_len (length name) then rstrip (take max_len name) else name.

(** No two adjacent space characters (U+0020). *)
Fixpoint single_spaces (s : str) : bool :=
  match s with
  | a :: ((b :: _) as s') => negb ((a =? 32)%N && (b =? 32)%N) && single_spaces s'
  | _ => true
  end.

End Util.

(* ===================================================================== *)
(** * library.py                                                          *)
(* ===================================================================== *)

Module Library.

(** A [pathlib] path on a POSIX host: the root ([""], ["/"] or ["//"]) and
    the components. *)
Record Path := { root : str; parts : list str }.

(** [s.split("/")] *)
Fixpoint split_slash (acc : str) (s : str) : list str :=
  match s with
  | [] => [reverse acc]
  | c :: s' =>
      if (c =? 47)%N then reverse acc :: split_slash [] s'
      else split_slash (c :: acc) s'
  end.

(** The components pathlib keeps: empty ones and ["."] are dropped. *)
Definition segments (s : str) : list str :=
  filter (fun seg => seg ≠ [] ∧ seg ≠ py ".") (split_slash [] s).

Definition parse_root (s : str) : str :=
  match s with
  | 47%N :: 47%N :: 47%N :: _ => py "/"
  | 47%N :: 47%N :: _ => py "//"
  | 47%N :: _ => py "/"
  | _ => []
  end.

(** [Path(s)] *)
Definition Path_of (s : str) : Path :=
  {| root := parse_root s; parts := segments s |}.

(** [p / q] for two paths: an anchored right operand replaces the left. *)
Definition joinpath (p q : Path) : Path :=
  match root q with
  | [] => {| root := root p; parts := parts p ++ parts q |}
  | _ => q
  end.

(** [p / s] for a string operand. *)
Definition div (p : Path) (s : str) : Path := joinpath p (Path_of s).

(** [p.name] *)
Definition path_name (p : Path) : str := default [] (last (parts p)).

(** [class Library]: the one field is [root]. *)
Record Library := { lib_root : Path }.

Definition vault_dir (self : Library) : Path := div (lib_root self) (py "vault").
Definition categorized_dir (self : Library) : Path := div (lib_root self) (py "categorized").
Definition tmp_dir (self : Library) : Path := div (lib_root self) (py ".pdf_lib_tmp").
Definition db_path (self : Library) : Path := div (lib_root self) (py "manifest.sqlite3").

(** [Library.vault_path_for_hash] *)
Definition vault_path_for_hash (self : Library) (sha256_hex : str) : Path :=
  let prefix := div (Path_of (take 2 sha256_hex)) (take 2 (drop 2 sha256_hex)) in
  div (joinpath (vault_dir self) prefix) (sha256_hex ++ py ".pdf").

(** [str(p)] *)
Definition path_str (p : Path) : str :=
  match root p, parts p with
  | [], [] => py "."
  | r, ps => r ++ join (py "/") ps
  end.

(** [p.parts] *)
Definition path_parts (p : Path) : list str :=
  match root p with
  | [] => parts p
  | r => r :: parts p
  end.

(** A hexadecimal digit, as [hexdigest()] prints them (either case). *)
Definition is_hex (c : N) : bool :=
  is_digit c || ((97 <=? c) && (c <=? 102))%N || ((65 <=? c) && (c <=? 70))%N.

End Library.

(* ===================================================================== *)
(** * util.py: paths without duplicates                                   *)
(* ===================================================================== *)

Module UtilPaths.
Import Library.

(** [dedupe_keep_order(items)]: [seen] holds the keys [str(p)] met so far. *)
Fixpoint dedupe_keep_order_from (seen : list str) (items : list Path) : list Path :=
  match items with
  | [] => []
  | p :: items' =>
      let key := path_str p in
      if bool_decide (key ∈ seen) then dedupe_keep_order_from seen items'
      else p :: dedupe_keep_order_from (key :: seen) items'
  end.

Definition dedupe_keep_order (items : list Path) : list Path :=
  dedupe_keep_order_from [] items.

End UtilPaths.

(* ===================================================================== *)
(** * categorizer.py                                                      *)
(* ===================================================================== *)

Module Categorizer.

Record Categorization := {
  category : str;
  score : float;
  reason : str;
}.

(** One entry of [cfg["categories"]]. A key that is absent is [None] (or
    the empty list for the keyword lists); [min_pages]/[max_pages] hold a
    value only when the configured one is an [int]. *)
Record CategoryRule := {
  name : option str;
  priority : option float;
  min_pages : option Z;
  max_pages : option Z;
  path_keywords_any : list str;
  filename_keywords_any : list str;
  metadata_keywords_any : list str;
  text_keywords_any : list str;
}.

(** The rule-set document [cfg]. *)
Record Config := {
  default_category : option str;
  min_score : option float;
  categories : list CategoryRule;
}.

(** The keyword arguments of [categorize] other than [cfg]. *)
Record Attributes := {
  source_path : option str;
  source_basename : option str;
  title : option str;
  subject : option str;
  keywords : option str;
  authors : option str;
  text_sample : option str;
  page_count : option Z;
}.

(** [cfg.get("default_category", "Unsorted")] *)
Definition cfg_default_category (cfg : Config) : str :=
  default (py "Unsorted") (default_category cfg).

(** [float(cfg.get("min_score", 4))] *)
Definition cfg_min_score (cfg : Config) : float :=
  default 4%float (min_score cfg).

(** The literal [1e-6]: the binary64 value nearest to one millionth. *)
Definition tie_break : float := 0x1.0c6f7a0b5ed8dp-20%float.

Section WithRuntime.
Context `{RT : Runtime}.

Definition _lower (s : option str) : str := lower (default [] s).

Definition _any_kw (haystack : str) (keywords : list str) : list str :=
  let hs := lower haystack in
  filter (fun kw =>
            let kw_l := strip (lower kw) in
            kw_l ≠ [] ∧ contains kw_l hs = true) keywords.

(** One keyword channel: [if hits: score += base + 0.25 * (len(hits) - 1);
    reasons.append(f"{label}{hits[0]}")]. *)
Definition channel (base : float) (label : str) (hits : list str)
    (acc : float * list str) : float * list str :=
  match hits with
  | [] => acc
  | h :: _ =>
      ((acc.1 + (base + 0.25 * float_of_nat (length hits - 1)))%float,
       acc.2 ++ [label ++ h])
  end.

(** The score and the reasons a rule accumulates from its four channels,
    before the priority term. *)
Definition channels (path_l base_l meta_l text_l : str) (cat : CategoryRule)
    : float * list str :=
  let acc := (0%float, []) in
  let acc := channel 2%float (py "path:") (_any_kw path_l (path_keywords_any cat)) acc in
  let acc := channel 2%float (py "filename:") (_any_kw base_l (filename_keywords_any cat)) acc in
  let acc := channel 3%float (py "meta:") (_any_kw meta_l (metadata_keywords_any cat)) acc in
  channel 4%float (py "text:") (_any_kw text_l (text_keywords_any cat)) acc.

(** The page-count gate: [true] when the rule is skipped. *)
Definition outside_pages (page_count : option Z) (cat : CategoryRule) : bool :=
  match page_count with
  | None => false
  | Some pc =>
      match min_pages cat with Some mn => (pc <? mn)%Z | None => false end
      || match max_pages cat with Some mx => (mx <? pc)%Z | None => false end
  end.

(** [", ".join(reasons) or "matched category"] *)
Definition reason_of (reasons : list str) : str :=
  match join (py ", ") reasons with
  | [] => py "matched category"
  | r => r
  end.

(** One iteration of the loop over [cfg["categories"]]. *)
Definition rule_step (path_l base_l meta_l text_l : str) (page_count : option Z)
    (best : Categorization) (cat : CategoryRule) : Categorization :=
  match strip (default [] (name cat)) with
  | [] => best
  | nm =>
      if outside_pages page_count cat then best
      else
        let '(score0, reasons) := channels path_l base_l meta_l text_l cat in
        let score1 := (score0 + default 0%float (priority cat) * tie_break)%float in
        if PrimFloat.ltb (score best) score1 then
          {| category := nm; score := score1; reason := reason_of reasons |}
        else best
  end.

(** [categorize(cfg=..., source_path=..., ...)] *)
Definition categorize (cfg : Config) (a : Attributes) : Categorization :=
  let default_category := cfg_default_category cfg in
  let min_score := cfg_min_score cfg in
  let path_l := _lower (source_path a) in
  let base_l := _lower (source_basename a) in
  let meta_l := join (py " ") [_lower (title a); _lower (subject a);
                               _lower (keywords a); _lower (authors a)] in
  let text_l := _lower (text_sample a) in
  let best := {| category := default_category; score := 0%float;
                 reason := py "no rules matched" |} in
  let best := foldl (rule_step path_l base_l meta_l text_l (page_count a)) best
                    (categories cfg) in
  if PrimFloat.ltb (score best) min_score then
    {| category := default_category; score := score best;
       reason := py "below min_score; defaulted" |}
  else best.

(** No keyword channel of the rule matches the document. *)
Definition no_channel_matches (a : Attributes) (cat : CategoryRule) : Prop :=
  _any_kw (_lower (source_path a)) (path_keywords_any cat) = [] ∧
  _any_kw (_lower (source_basename a)) (filename_keywords_any cat) = [] ∧
  _any_kw (join (py " ") [_lower (title a); _lower (subject a);
                          _lower (keywords a); _lower (authors a)])
          (metadata_keywords_any cat) = [] ∧
  _any_kw (_lower (text_sample a)) (text_keywords_any cat) = [].

End WithRuntime.

(** [config_uses_text(cfg)] *)
Definition config_uses_text (cfg : Config) : bool :=
  existsb (fun cat => existsb (fun x => negb (str_eqb (strip x) [])) (text_keywords_any cat))
          (categories cfg).

End Categorizer.

(* ===================================================================== *)
(** * llm.py                                                              *)
(* ===================================================================== *)

Module Llm.

Record LLMClassification := {
  category : str;
  confidence : float;
  reason : str;
  raw_text : str;
}.

(** The result of a call that may raise [LLMError]: the value, or the
    message of the exception. *)
Inductive outcome (A : Type) :=
| Return (a : A)
| Raise (message : str).
Arguments Return {A} a.
Arguments Raise {A} message.

(** ** The code-fence pattern

    [_CODE_FENCE_RE = re.compile(r"^```(?:json)?\s*|\s*```$",
    re.IGNORECASE | re.MULTILINE)]. *)

Definition fence : str := py "```".

(** Length of a match of the first alternative at the head of [s] (the
    caller has checked that [s] starts a line). *)
Definition match_fence_open (s : str) : option nat :=
  if startswith fence s then
    let r := drop 3 s in
    let j := if ci_startswith (py "json") r then 4 else 0 in
    Some (3 + j + length (span_while is_space (drop j r)))
  else None.

(** Length of a match of the second alternative at the head of [s]:
    blanks, the fence, then the end of a line. *)
Definition match_fence_close (s : str) : option nat :=
  let ws := length (span_while is_space s) in
  let r := drop ws s in
  if startswith fence r then
    match drop 3 r with
    | [] => Some (ws + 3)
    | c :: _ => if (c =? 10)%N then Some (ws + 3) else None
    end
  else None.

(** [_CODE_FENCE_RE.sub("", s)]: the text is scanned from the left; [skip]
    characters of a match remain to be dropped and [prev] is the character
    before the head of [s]. *)
Fixpoint fence_sub (skip : nat) (prev : option N) (s : str) : str :=
  match s with
  | [] => []
  | c :: s' =>
      match skip with
      | S k => fence_sub k (Some c) s'
      | O =>
          let bol := match prev with None => true | Some p => (p =? 10)%N end in
          let m := match (if bol then match_fence_open s else None) with
                   | Some n => Some n
                   | None => match_fence_close s
                   end in
          match m with
          | Some (S k) => fence_sub k (Some c) s'
          | _ => c :: fence_sub 0 (Some c) s'
          end
      end
  end.

Definition _CODE_FENCE_RE_sub (s : str) : str := fence_sub 0 None s.

(** ** Field extraction by pattern *)

Definition is_quote (c : N) : bool := ((c =? 39) || (c =? 34))%N.
Definition is_colon_or_eq (c : N) : bool := ((c =? 58) || (c =? 61))%N.

(** What follows the key in the three patterns: [\s*[:=]\s*]. *)
Definition after_separator (s : str) : option str :=
  match skip_while is_space s with
  | c :: r => if is_colon_or_eq c then Some (skip_while is_space r) else None
  | [] => None
  end.

(** A match, at the head of [s], of the pattern of the category and reason
    fields: the key, [\s*[:=]\s*], a quote of either kind, one or more
    characters that are not quotes (the group), a quote of either kind. *)
Definition match_quoted_field (key : str) (s : str) : option str :=
  if ci_startswith key s then
    match after_separator (drop (length key) s) with
    | Some (q :: r) =>
        if is_quote q then
          let body := span_while (fun c => negb (is_quote c)) r in
          match body, drop (length body) r with
          | _ :: _, q' :: _ => if is_quote q' then Some body else None
          | _, _ => None
          end
        else None
    | _ => None
    end
  else None.

(** A match of [([0-9]*\.?[0-9]+)] at the head of [s]: the digits before
    an optional point are taken greedily and given back one at a time. *)
Definition match_number (s : str) : option str :=
  let d1 := span_while is_digit s in
  let r := drop (length d1) s in
  let d2 := match r with
            | 46%N :: r' => span_while is_digit r'
            | _ => []
            end in
  match d2, d1 with
  | _ :: _, _ => Some (d1 ++ py "." ++ d2)
  | [], _ :: _ => Some d1
  | [], [] => None
  end.

(** A match of [confidence\s*[:=]\s*([0-9]*\.?[0-9]+)] at the head. *)
Definition match_number_field (key : str) (s : str) : option str :=
  if ci_startswith key s then
    match after_separator (drop (length key) s) with
    | Some r => match_number r
    | None => None
    end
  else None.

(** [re.search]: the match at the leftmost position. *)
Fixpoint search {A : Type} (m : str -> option A) (s : str) : option A :=
  match m s with
  | Some x => Some x
  | None => match s with [] => None | _ :: s' => search m s' end
  end.

(** [_extract_object_by_regex(text)] *)
Definition _extract_object_by_regex (text : str) : pydict :=
  let out := [] in
  let out := match search (match_quoted_field (py "category")) text with
             | Some g => dict_set out (py "category") (PStr (strip g))
             | None => out
             end in
  let out := match search (match_number_field (py "confidence")) text with
             | Some g => dict_set out (py "confidence") (PStr g)
             | None => out
             end in
  match search (match_quoted_field (py "reason")) text with
  | Some g => dict_set out (py "reason") (PStr (strip g))
  | None => out
  end.

(** [_normalize_category_name(name)] *)
Definition _normalize_category_name `{RT : Runtime} (name : str) : str :=
  let s := strip (lower name) in
  let s := sub_runs (fun c => negb (is_lower c || is_digit c)) (py " ") s in
  strip (sub_runs is_space (py " ") s).

Section Extraction.
Context `{RT : Runtime}.

(** The smart quotes are replaced by the plain ones. *)
Definition plain_quotes (t : str) : str :=
  replace_char 8217 (py "'")
    (replace_char 8216 (py "'")
       (replace_char 8221 [34%N] (replace_char 8220 [34%N] t))).

(** The objects [raw_decode] finds at the braces of [t], in order. *)
Fixpoint candidates (t : str) : list pydict :=
  match t with
  | [] => []
  | c :: t' =>
      (if (c =? 123)%N then
         match raw_decode t with
         | Some (PDict obj, _) => [obj]
         | _ => []
         end
       else []) ++ candidates t'
  end.

(** [isinstance(obj.get("category"), str)] *)
Definition has_str_category (obj : pydict) : bool :=
  match dict_get obj (py "category") with
  | Some (PStr _) => true
  | _ => false
  end.

(** [str(k)] of a key. *)
Definition py_str (v : pyvalue) : str :=
  match v with
  | PStr s => s
  | _ => repr v
  end.

(** [{str(k): v for k, v in obj2.items()}] *)
Definition stringify_keys (items : pydict) : pydict :=
  foldl (fun d kv => dict_set d (py_str kv.1) kv.2) [] items.

(** The last part of [_extract_json_object]: the span from the first
    opening to the last closing brace. *)
Definition extract_from_span (t2 : str) : pydict :=
  match find_char 123 t2, rfind_char 125 t2 with
  | Some start, Some end_ =>
      if end_ <=? start then _extract_object_by_regex t2
      else
        let candidate := take (end_ + 1 - start) (drop start t2) in
        match json_loads candidate with
        | Some (PDict obj) => obj
        | _ =>
            match literal_eval candidate with
            | Some (PDict obj2) => stringify_keys obj2
            | _ => _extract_object_by_regex t2
            end
        end
  | _, _ => _extract_object_by_regex t2
  end.

(** The robust mode of [_extract_json_object]: the candidates, then the
    span. *)
Definition extract_robust (t2 : str) : pydict :=
  let cands := candidates t2 in
  match filter (fun obj => has_str_category obj = true) cands with
  | obj :: _ => obj
  | [] =>
      match cands with
      | obj :: _ => obj
      | [] => extract_from_span t2
      end
  end.

(** [_extract_json_object(text)] *)
Definition _extract_json_object (text : str) : outcome pydict :=
  match strip text with
  | [] => Raise (py "Empty model output")
  | t =>
      let t2 := strip (_CODE_FENCE_RE_sub t) in
      let t2 := plain_quotes t2 in
      let direct :=
        if startswith (py "{") t2 && endswith (py "}") t2 then
          match json_loads t2 with
          | Some (PDict obj) => Some obj
          | _ => None
          end
        else None in
      match direct with
      | Some obj => Return obj
      | None => Return (extract_robust t2)
      end
  end.

End Extraction.

(** ** The classifier *)

(** The arguments of one call of the completion provider. *)
Record Request := {
  base_url : str;
  model : option str;
  prompt : str;
  timeout_seconds : float;
  max_output_tokens : Z;
}.

(** What lies outside the program. The completion provider
    ([classify_with_uzu], a request over HTTP) is known by its interface
    only: given the requests served so far and a new one it returns the raw
    text or raises [LLMError]. The process environment and the clock are
    read through the other fields.

    A call that ends in an exception of another class is not described:
    [classify_with_uzu] raises [AttributeError] when the JSON body of the
    response is not an object, and a timeout while the response is read is
    a [TimeoutError]; [except LLMError] does not catch them and the run
    ends there. Every statement about the calls of the provider is a
    statement about the calls that return a text or raise [LLMError]. *)
Class World := {
  uzu_reply : list Request -> Request -> outcome str;
  (** [time.time() - started] around the call that just ended *)
  elapsed : list Request -> float;
  (** [os.environ.get("UZU_BASE_URL")], [os.environ.get("UZU_MODEL")] *)
  UZU_BASE_URL : option str;
  UZU_MODEL : option str;
  (** [str(Path.home())]; [None] when it raises *)
  home : option str;
}.

(** A computation that calls the provider: it may raise [LLMError], and it
    extends the list of requests sent. *)
Definition M (A : Type) : Type := list Request -> outcome A * list Request.

Definition ret {A : Type} (a : A) : M A := fun log => (Return a, log).

#[global] Instance M_ret : MRet M := @ret.
#[global] Instance M_bind : MBind M := fun A B k m log =>
  match m log with
  | (Return a, log') => k a log'
  | (Raise e, log') => (Raise e, log')
  end.

Definition raise {A : Type} (message : str) : M A := fun log => (Raise message, log).

Definition lift {A : Type} (o : outcome A) : M A := fun log => (o, log).

(** [try: ... except LLMError as e: ...] *)
Definition try_except {A : Type} (body : M A) (handler : str -> M A) : M A :=
  fun log =>
    match body log with
    | (Return a, log') => (Return a, log')
    | (Raise e, log') => handler e log'
    end.

Section Classifier.
Context `{RT : Runtime} `{W : World}.

(** [classify_with_uzu(...)]: one call of the provider. *)
Definition classify_with_uzu (req : Request) : M str :=
  fun log => (uzu_reply log req, log ++ [req]).

(** [time.time() - started] *)
Definition time_since_started : M float :=
  fun log => (Return (elapsed log), log).

(** [_format_source_path(path_str, mode=..., tail_parts=...)] *)
Definition _format_source_path (path_str : option str) (mode : str) (tail_parts : Z)
    : option str :=
  match path_str with
  | None | Some [] => None
  | Some ps =>
      let p := Library.Path_of ps in
      if str_eqb mode (py "basename") then Some (Library.path_name p)
      else if str_eqb mode (py "full") then
        match home with
        | Some h =>
            let s := Library.path_str p in
            if startswith (h ++ py "/") s then Some (py "~" ++ drop (length h) s)
            else Some s
        | None => Some (Library.path_str p)
        end
      else
        let parts := Library.path_parts p in
        let k := Z.to_nat (Z.max 1 tail_parts) in
        let tail := drop (length parts - k) parts in
        Some ([8230%N] ++ py "/" ++ join (py "/") tail)
  end.

(** One optional line of the prompt: [if value: lines.append(label + value)]. *)
Definition info_line (label : str) (value : option str) : list str :=
  match value with
  | None | Some [] => []
  | Some v => [label ++ v]
  end.

(** [build_categorization_prompt(...)] *)
Definition build_categorization_prompt (categories : list str) (default_category : str)
    (source_path source_basename title authors subject keywords : option str)
    (page_count : option Z) (text_sample : option str) : str :=
  let cats_json := json_dumps false (PList (PStr <$> categories)) in
  let lines :=
    [ py "You are a precise document librarian.";
      py "Pick the single best category for this PDF from the allowed list.";
      py "Return ONLY valid JSON (no markdown) with keys: category, confidence, reason.";
      py "- category must be exactly one of: " ++ cats_json;
      py "- confidence must be a number between 0 and 1.";
      py "- reason must be short (<= 140 chars).";
      py "If unsure, use category=" ++ json_dumps true (PStr default_category)
        ++ py " with low confidence.";
      [];
      py "PDF info:" ]
    ++ info_line (py "- source_path: ") source_path
    ++ info_line (py "- filename: ") source_basename
    ++ info_line (py "- title: ") title
    ++ info_line (py "- authors: ") authors
    ++ info_line (py "- subject: ") subject
    ++ info_line (py "- keywords: ") keywords
    ++ match page_count with
       | Some n => [py "- pages: " ++ repr (PInt n)]
       | None => []
       end
    ++ match text_sample with
       | None | Some [] => []
       | Some t => [py "- text_sample: " ++ strip (sub_runs is_space (py " ") t)]
       end in
  strip (join [10%N] lines) ++ [10%N].

(** [list(dict.fromkeys(xs))]: the first occurrence of each element. *)
Fixpoint dedupe (seen : list str) (xs : list str) : list str :=
  match xs with
  | [] => []
  | x :: xs' =>
      if bool_decide (x ∈ seen) then dedupe seen xs'
      else x :: dedupe (x :: seen) xs'
  end.

(** [{_normalize_category_name(c): c for c in allowed}] *)
Definition normalized_map (allowed : list str) : gmap str str :=
  foldl (fun m c => <[_normalize_category_name c := c]> m) ∅ allowed.

(** [float(conf_raw)], [None] where it raises. *)
Definition py_float (v : option pyvalue) : option float :=
  match v with
  | Some (PFloat f) => Some f
  | Some (PInt z) => float_of_Z z
  | Some (PBool b) => Some (if b then 1%float else 0%float)
  | Some (PStr s) => float_of_str s
  | _ => None
  end.

(** The part of [llm_classify_category] after the reply is parsed. *)
Definition classify_parsed (normalized : gmap str str) (default_category : str)
    (raw_text : str) (elapsed_s : float) (parsed : pydict) : LLMClassification :=
  let cat_raw := dict_get parsed (py "category") in
  let conf_raw := dict_get parsed (py "confidence") in
  let reason_raw := dict_get parsed (py "reason") in
  match cat_raw with
  | Some (PStr cat_raw) =>
      let cat_norm := _normalize_category_name cat_raw in
      let cat := default default_category (normalized !! cat_norm) in
      let conf := default 0%float (py_float conf_raw) in
      let conf := py_max 0%float (py_min 1%float conf) in
      let reason :=
        strip (match reason_raw with
               | Some v => if truthy v then py_str v else []
               | None => []
               end) in
      let reason := if 200 <? length reason then rstrip (take 200 reason) else reason in
      let reason := match reason with
                    | [] => py "llm classified in " ++ format_2f elapsed_s ++ py "s"
                    | _ => reason
                    end in
      {| category := cat; confidence := conf; reason := reason; raw_text := raw_text |}
  | _ =>
      {| category := default_category; confidence := 0%float;
         reason := py "missing/invalid category; defaulted"; raw_text := raw_text |}
  end.

(** [llm_classify_category(...)] *)
Definition llm_classify_category (provider : str) (model : str)
    (categories : list str) (default_category : str)
    (source_path source_basename title authors subject keywords : option str)
    (page_count : option Z) (text_sample : option str)
    (timeout_seconds : float) (max_output_tokens : Z)
    (path_mode : str) (path_tail_parts : Z) : M LLMClassification :=
  if negb (str_eqb provider (py "uzu")) then
    raise (py "Only the local UZU provider is supported.")
  else
    let allowed := dedupe [] (categories ++ [default_category]) in
    let normalized := normalized_map allowed in
    let prompt :=
      build_categorization_prompt allowed default_category
        (_format_source_path source_path path_mode path_tail_parts)
        source_basename title authors subject keywords page_count text_sample in
    let base_url := strip (default (py "http://localhost:8000") UZU_BASE_URL) in
    raw_text ← classify_with_uzu
      {| base_url := base_url;
         model := match model with [] => None | _ => Some model end;
         prompt := prompt;
         timeout_seconds := timeout_seconds;
         max_output_tokens := max_output_tokens |};
    parsed ← lift (_extract_json_object raw_text);
    elapsed_s ← time_since_started;
    ret (classify_parsed normalized default_category raw_text elapsed_s parsed).

End Classifier.

End Llm.

(* ===================================================================== *)
(** * db.py                                                               *)
(* ===================================================================== *)

Module Db.

(** A row of [source_files]; the key [source_path] is the key of the map. *)
Record SourceRow := {
  source_basename : option str;
  source_size : option Z;
  source_mtime : option float;
  hash : option str;
  first_seen_at : float;
  last_seen_at : float;
  status : str;
  error : option str;
}.

(** A row of [documents]; the key [hash] is the key of the map. *)
Record DocumentRow := {
  vault_relpath : str;
  file_size : Z;
  doc_first_seen_at : float;
  doc_last_seen_at : float;
  page_count : option Z;
  title : option str;
  authors : option str;
  subject : option str;
  keywords : option str;
  text_sample : option str;
  meta_json : option str;
  category : option str;
  category_score : option float;
  category_reason : option str;
  categorized_at : option float;
}.

(** The two tables a connection gives access to. *)
Record Conn := {
  source_files : gmap str SourceRow;
  documents : gmap str DocumentRow;
}.

Definition set_source_files (conn : Conn) (t : gmap str SourceRow) : Conn :=
  {| source_files := t; documents := documents conn |}.

Definition set_documents (conn : Conn) (t : gmap str DocumentRow) : Conn :=
  {| source_files := source_files conn; documents := t |}.

(** [get_source(conn, source_path)] *)
Definition get_source (conn : Conn) (source_path : str) : option SourceRow :=
  source_files conn !! source_path.

(** [UPDATE source_files SET last_seen_at = ? WHERE source_path = ?] *)
Definition touch_source_seen (conn : Conn) (source_path : str) (seen_at : float) : Conn :=
  set_source_files conn
    (alter (fun r =>
              {| source_basename := source_basename r; source_size := source_size r;
                 source_mtime := source_mtime r; hash := hash r;
                 first_seen_at := first_seen_at r; last_seen_at := seen_at;
                 status := status r; error := error r |})
           source_path (source_files conn)).

(** A value that fits an [INTEGER] column (a signed 64-bit integer). *)
Definition int64 (n : Z) : bool := (- 2 ^ 63 <=? n)%Z && (n <? 2 ^ 63)%Z.

(** A string that can be bound to a [TEXT] column: it is encoded as UTF-8,
    which a surrogate code point does not have. *)
Definition utf8_text (s : str) : bool :=
  forallb (fun c => (c <? 55296)%N || ((57343 <? c)%N && (c <? 1114112)%N)) s.

(** A float that a [REAL] column gives back as it was stored: a NaN is
    stored as [NULL], and the negative zero may be read back as [0.0]. *)
Definition stored_exactly (t : float) : bool :=
  match PrimFloat.classify t with
  | NaN | NZero => false
  | _ => true
  end.

(** The rows that the table [source_files] accepts and gives back as they
    were written. [hash] is a foreign key into [documents] and the schema
    sets [PRAGMA foreign_keys = ON]: a digest without a document row raises
    [IntegrityError]. A size beyond 64 bits raises [OverflowError], a
    string that is not Unicode text [UnicodeEncodeError]. A NaN is stored as
    [NULL]: it raises [IntegrityError] in the two [NOT NULL] columns and is
    read back as [None] in [source_mtime]. *)
Definition source_row_accepted (conn : Conn) (source_path : str)
    (source_basename : option str) (source_size : option Z)
    (source_mtime : option float) (hash_hex : option str)
    (status : str) (error : option str) (first_seen_at last_seen_at : float) : bool :=
  match hash_hex with
  | Some h => utf8_text h && bool_decide (is_Some (documents conn !! h))
  | None => true
  end
  && utf8_text source_path
  && utf8_text (default [] source_basename)
  && utf8_text status
  && utf8_text (default [] error)
  && match source_size with
     | Some n => int64 n
     | None => true
     end
  && match source_mtime with
     | Some t => stored_exactly t
     | None => true
     end
  && stored_exactly first_seen_at
  && stored_exactly last_seen_at.

(** [upsert_source], for a row that the table accepts
    ([source_row_accepted]): a new row is inserted; on conflict every column
    but [first_seen_at] is overwritten. *)
Definition upsert_source (conn : Conn) (source_path : str)
    (source_basename : option str) (source_size : option Z)
    (source_mtime : option float) (hash_hex : option str)
    (status : str) (error : option str) (first_seen_at last_seen_at : float) : Conn :=
  set_source_files conn
    (partial_alter
       (fun old =>
          Some {| source_basename := source_basename; source_size := source_size;
                  source_mtime := source_mtime; hash := hash_hex;
                  first_seen_at := match old with
                                   | Some r => Db.first_seen_at r
                                   | None => first_seen_at
                                   end;
                  last_seen_at := last_seen_at;
                  status := status; error := error |})
       source_path (source_files conn)).

(** [get_document(conn, hash_hex)] *)
Definition get_document (conn : Conn) (hash_hex : str) : option DocumentRow :=
  documents conn !! hash_hex.

(** [upsert_document_seen]: on conflict [vault_relpath], [file_size] and
    [last_seen_at] are overwritten. *)
Definition upsert_document_seen (conn : Conn) (hash_hex : str) (vault_relpath : str)
    (file_size : Z) (first_seen_at last_seen_at : float) : Conn :=
  set_documents conn
    (partial_alter
       (fun old =>
          match old with
          | None =>
              Some {| vault_relpath := vault_relpath; file_size := file_size;
                      doc_first_seen_at := first_seen_at;
                      doc_last_seen_at := last_seen_at;
                      page_count := None; title := None; authors := None;
                      subject := None; keywords := None; text_sample := None;
                      meta_json := None; category := None; category_score := None;
                      category_reason := None; categorized_at := None |}
          | Some d =>
              Some {| vault_relpath := vault_relpath; file_size := file_size;
                      doc_first_seen_at := doc_first_seen_at d;
                      doc_last_seen_at := last_seen_at;
                      page_count := page_count d; title := title d;
                      authors := authors d; subject := subject d;
                      keywords := keywords d; text_sample := text_sample d;
                      meta_json := meta_json d; category := category d;
                      category_score := category_score d;
                      category_reason := category_reason d;
                      categorized_at := categorized_at d |}
          end)
       hash_hex (documents conn)).

(** [update_document_category] *)
Definition update_document_category (conn : Conn) (hash_hex : str) (category : str)
    (score : float) (reason : str) (categorized_at : float) : Conn :=
  set_documents conn
    (alter (fun d =>
              {| vault_relpath := vault_relpath d; file_size := file_size d;
                 doc_first_seen_at := doc_first_seen_at d;
                 doc_last_seen_at := doc_last_seen_at d;
                 page_count := page_count d; title := title d;
                 authors := authors d; subject := subject d;
                 keywords := keywords d; text_sample := text_sample d;
                 meta_json := meta_json d; category := Some category;
                 category_score := Some score;
                 category_reason := Some reason;
                 categorized_at := Some categorized_at |})
           hash_hex (documents conn)).

(** [update_document_metadata] *)
Definition update_document_metadata (conn : Conn) (hash_hex : str)
    (page_count : option Z) (title authors subject keywords text_sample meta_json : option str)
    : Conn :=
  set_documents conn
    (alter (fun d =>
              {| vault_relpath := vault_relpath d; file_size := file_size d;
                 doc_first_seen_at := doc_first_seen_at d;
                 doc_last_seen_at := doc_last_seen_at d;
                 page_count := page_count; title := title;
                 authors := authors; subject := subject;
                 keywords := keywords; text_sample := text_sample;
                 meta_json := meta_json; category := category d;
                 category_score := category_score d;
                 category_reason := category_reason d;
                 categorized_at := categorized_at d |})
           hash_hex (documents conn)).

End Db.

(* ===================================================================== *)
(** * catalog.py                                                          *)
(* ===================================================================== *)

Module Catalog.

(** The keyword arguments of [categorize_library] that configure the LLM.
    [None] is an argument that is [None] or left at a falsy value. *)
Record Options := {
  llm_provider : option str;
  llm_model : option str;
  llm_mode : option str;
  llm_min_confidence : float;
  llm_timeout_seconds : float;
  llm_max_output_tokens : Z;
  llm_path_mode : option str;
  llm_path_tail_parts : Z;
}.

(** The local variables of the same names once [categorize_library] has
    normalized and validated them. *)
Record Settings := {
  provider : str;
  model : str;
  mode : str;
  min_confidence : float;
  timeout_seconds : float;
  max_output_tokens : Z;
  path_mode : str;
  path_tail_parts : Z;
}.

(** A value, or the [ValueError] raised before any work begins. *)
Inductive checked (A : Type) :=
| Valid (a : A)
| ValueError (message : str).
Arguments Valid {A} a.
Arguments ValueError {A} message.

(** One document of the batch: its key, the attributes the engine has
    gathered for it (latest source path and basename, extracted metadata
    and text sample) and the JSON text of the extracted metadata
    ([meta_json], [None] when there is none). *)
Record Document := {
  hash_hex : str;
  attributes : Categorizer.Attributes;
  meta_json : option str;
}.

(** The counters of the batch. *)
Record Stats := {
  docs_categorized : nat;
  llm_calls : nat;
  llm_used : nat;
  llm_failed : nat;
}.

Record State := {
  conn : Db.Conn;
  stats : Stats;
}.

(** What the engine decides for one document: the final triple and the
    increments of [llm_calls], [llm_used] and [llm_failed]. *)
Record Decision := {
  final : Categorizer.Categorization;
  called : bool;
  used : bool;
  failed : bool;
}.

Section Engine.
Context `{RT : Runtime} `{W : Llm.World}.

(** [x or dflt] for an optional string. *)
Definition or_else (v : option str) (dflt : str) : str :=
  match v with
  | None | Some [] => dflt
  | Some s => s
  end.

(** The normalization and validation at the head of [categorize_library]. *)
Definition settings_of (o : Options) : checked Settings :=
  let llm_provider := strip (lower (or_else (llm_provider o) (py "off"))) in
  let llm_mode := strip (lower (or_else (llm_mode o) (py "fallback"))) in
  let llm_path_mode := strip (lower (or_else (llm_path_mode o) (py "tail"))) in
  if negb (bool_decide (llm_provider ∈ [py "off"; py "uzu"])) then
    ValueError (py "llm_provider must be one of: off, uzu")
  else if negb (bool_decide (llm_mode ∈ [py "fallback"; py "always"])) then
    ValueError (py "llm_mode must be one of: fallback, always")
  else if negb (bool_decide (llm_path_mode ∈ [py "basename"; py "tail"; py "full"])) then
    ValueError (py "llm_path_mode must be one of: basename, tail, full")
  else
    let llm_model :=
      if str_eqb llm_provider (py "uzu") then
        Some (or_else (llm_model o) (or_else Llm.UZU_MODEL (py "qwen3-4b")))
      else llm_model o in
    Valid {| provider := llm_provider;
             model := default (py "None") llm_model;
             mode := llm_mode;
             min_confidence := llm_min_confidence o;
             timeout_seconds := llm_timeout_seconds o;
             max_output_tokens := llm_max_output_tokens o;
             path_mode := llm_path_mode;
             path_tail_parts := llm_path_tail_parts o |}.

(** The names of the configured categories, for the allow-list. *)
Definition category_names (cfg : Categorizer.Config) : list str :=
  filter (fun n => n ≠ [])
    ((fun c => strip (default [] (Categorizer.name c))) <$> Categorizer.categories cfg).

(** The value of [should_call_llm] when an LLM provider is enabled. *)
Definition should_call_llm (L : Settings) (cfg : Categorizer.Config)
    (rules : Categorizer.Categorization) : bool :=
  if str_eqb (mode L) (py "fallback") then
    str_eqb (Categorizer.category rules) (Categorizer.cfg_default_category cfg)
    || startswith (py "below min_score") (Categorizer.reason rules)
    || PrimFloat.ltb (Categorizer.score rules) (Categorizer.cfg_min_score cfg)
  else str_eqb (mode L) (py "always").

(** The accepted result: the LLM's category, ten times its confidence, and
    a reason that names provider, model and confidence. *)
Definition accepted (L : Settings) (r : Llm.LLMClassification)
    : Categorizer.Categorization :=
  {| Categorizer.category := Llm.category r;
     Categorizer.score := (10 * Llm.confidence r)%float;
     Categorizer.reason :=
       py "llm:" ++ provider L ++ py "/" ++ model L ++ py " conf="
         ++ format_2f (Llm.confidence r) ++ py "; " ++ Llm.reason r |}.

(** The rejected result: the rules result, with the low-confidence hint
    appended to its reason. *)
Definition rejected (L : Settings) (rules : Categorizer.Categorization)
    (r : Llm.LLMClassification) : Categorizer.Categorization :=
  {| Categorizer.category := Categorizer.category rules;
     Categorizer.score := Categorizer.score rules;
     Categorizer.reason :=
       Categorizer.reason rules ++ py " | llm:" ++ provider L ++ py "/" ++ model L
         ++ py " low_conf=" ++ format_2f (Llm.confidence r) |}.

(** The result when the call raised [LLMError]. *)
Definition errored (rules : Categorizer.Categorization) (e : str)
    : Categorizer.Categorization :=
  {| Categorizer.category := Categorizer.category rules;
     Categorizer.score := Categorizer.score rules;
     Categorizer.reason := Categorizer.reason rules ++ py " | llm_error:" ++ take 200 e |}.

(** The call of [llm_classify_category] the engine makes for a document. *)
Definition classify (L : Settings) (cfg : Categorizer.Config) (doc : Document)
    : Llm.M Llm.LLMClassification :=
  let a := attributes doc in
  Llm.llm_classify_category (provider L) (model L) (category_names cfg)
    (Categorizer.cfg_default_category cfg)
    (Categorizer.source_path a) (Categorizer.source_basename a)
    (Categorizer.title a) (Categorizer.authors a) (Categorizer.subject a)
    (Categorizer.keywords a) (Categorizer.page_count a) (Categorizer.text_sample a)
    (timeout_seconds L) (max_output_tokens L) (path_mode L) (path_tail_parts L).

(** The decision for one document: the body of the loop of
    [categorize_library] from the call of [categorize] to the [except]
    clause. *)
Definition categorize_one (L : Settings) (cfg : Categorizer.Config) (doc : Document)
    : Llm.M Decision :=
  let cat_rules := Categorizer.categorize cfg (attributes doc) in
  if negb (str_eqb (provider L) (py "off")) && should_call_llm L cfg cat_rules then
    Llm.try_except
      (llm_result ← classify L cfg doc;
       if PrimFloat.leb (min_confidence L) (Llm.confidence llm_result) then
         Llm.ret {| final := accepted L llm_result;
                 called := true; used := true; failed := false |}
       else
         Llm.ret {| final := rejected L cat_rules llm_result;
                 called := true; used := false; failed := false |})
      (fun e =>
         Llm.ret {| final := errored cat_rules e;
                 called := true; used := false; failed := true |})
  else
    Llm.ret {| final := cat_rules; called := false; used := false; failed := false |}.

Definition count (b : bool) : nat := if b then 1 else 0.

(** The call of [update_document_metadata] at the head of an iteration:
    the extracted metadata are written to the row of the document. *)
Definition store_metadata (conn : Db.Conn) (doc : Document) : Db.Conn :=
  let a := attributes doc in
  Db.update_document_metadata conn (hash_hex doc)
    (Categorizer.page_count a) (Categorizer.title a) (Categorizer.authors a)
    (Categorizer.subject a) (Categorizer.keywords a) (Categorizer.text_sample a)
    (meta_json doc).

(** One iteration of the loop: the metadata are written to the manifest,
    the document is decided, the decision is written to the manifest and
    the counters advance. *)
Definition categorize_document (L : Settings) (cfg : Categorizer.Config) (now : float)
    (st : State) (doc : Document) : Llm.M State :=
  let conn := store_metadata (conn st) doc in
  d ← categorize_one L cfg doc;
  Llm.ret {| conn := Db.update_document_category conn (hash_hex doc)
                    (Categorizer.category (final d)) (Categorizer.score (final d))
                    (Categorizer.reason (final d)) now;
          stats := {| docs_categorized := docs_categorized (stats st) + 1;
                      llm_calls := llm_calls (stats st) + count (called d);
                      llm_used := llm_used (stats st) + count (used d);
                      llm_failed := llm_failed (stats st) + count (failed d) |} |}.

(** The loop over the documents to categorize. *)
Fixpoint categorize_documents (L : Settings) (cfg : Categorizer.Config) (now : float)
    (st : State) (docs : list Document) : Llm.M State :=
  match docs with
  | [] => Llm.ret st
  | doc :: docs' =>
      st' ← categorize_document L cfg now st doc;
      categorize_documents L cfg now st' docs'
  end.

(** [categorize_library]: validation, then the batch over [docs] with all
    counters at zero. *)
Definition categorize_library (o : Options) (cfg : Categorizer.Config) (now : float)
    (db : Db.Conn) (docs : list Document) : checked (Llm.M State) :=
  match settings_of o with
  | ValueError e => ValueError e
  | Valid L =>
      Valid (categorize_documents L cfg now
               {| conn := db;
                  stats := {| docs_categorized := 0; llm_calls := 0;
                              llm_used := 0; llm_failed := 0 |} |} docs)
  end.

End Engine.

End Catalog.

(* ===================================================================== *)
(** * scanner.py                                                          *)
(* ===================================================================== *)

Module Scanner.

(** The result of a file-system call: the value or the message of the
    [OSError]. *)
Inductive io (A : Type) :=
| IoOk (a : A)
| OSError (message : str).
Arguments IoOk {A} a.
Arguments OSError {A} message.

Record Stat := { st_size : Z; st_mtime : float }.

(** One path the finder yields, with what the file system answers for it
    during the pass: [str(src)], [src.name], [src.stat()] and the bytes
    read when the file is copied. *)
Record Found := {
  src_str : str;
  base : str;
  stat : io Stat;
  content : io (list N);
}.

(** The counters [stats] of [scan_and_copy]. *)
Record Stats := {
  discovered : nat;
  skipped_unchanged : nat;
  copied_new : nat;
  deduped_existing : nat;
  errors : nat;
}.

(** The manifest, the content store (the files under [vault/], by digest),
    the source paths that were copied to a temporary file and hashed, and
    the counters. *)
Record State := {
  conn : Db.Conn;
  vault : gmap str (list N);
  hashed : list str;
  stats : Stats;
}.

Definition zero_stats : Stats :=
  {| discovered := 0; skipped_unchanged := 0; copied_new := 0;
     deduped_existing := 0; errors := 0 |}.

Definition add_discovered (s : Stats) : Stats :=
  {| discovered := discovered s + 1; skipped_unchanged := skipped_unchanged s;
     copied_new := copied_new s; deduped_existing := deduped_existing s;
     errors := errors s |}.

Definition add_skipped_unchanged (s : Stats) : Stats :=
  {| discovered := discovered s; skipped_unchanged := skipped_unchanged s + 1;
     copied_new := copied_new s; deduped_existing := deduped_existing s;
     errors := errors s |}.

Definition add_copied_new (s : Stats) : Stats :=
  {| discovered := discovered s; skipped_unchanged := skipped_unchanged s;
     copied_new := copied_new s + 1; deduped_existing := deduped_existing s;
     errors := errors s |}.

Definition add_deduped_existing (s : Stats) : Stats :=
  {| discovered := discovered s; skipped_unchanged := skipped_unchanged s;
     copied_new := copied_new s; deduped_existing := deduped_existing s + 1;
     errors := errors s |}.

Definition add_errors (s : Stats) : Stats :=
  {| discovered := discovered s; skipped_unchanged := skipped_unchanged s;
     copied_new := copied_new s; deduped_existing := deduped_existing s;
     errors := errors s + 1 |}.

Section Scan.
Context `{RT : Runtime}.

(** [_copy_into_vault(library, src)]: the digest, the vault path, the bytes
    written and whether the file is new, with the store after the call. *)
Definition _copy_into_vault (library : Library.Library) (vault : gmap str (list N))
    (f : Found) : io (str * Library.Path * Z * bool) * gmap str (list N) :=
  match content f with
  | OSError e => (OSError e, vault)
  | IoOk data =>
      let sha256_hex := sha256_hexdigest data in
      let vault_path := Library.vault_path_for_hash library sha256_hex in
      let bytes_written := Z.of_nat (length data) in
      match vault !! sha256_hex with
      | Some _ => (IoOk (sha256_hex, vault_path, bytes_written, false), vault)
      | None =>
          (IoOk (sha256_hex, vault_path, bytes_written, true),
           <[sha256_hex := data]> vault)
      end
  end.

(** [rec and rec.get("status") == "ok"] and the comparison of the recorded
    size and modification time with the observed ones. *)
Definition unchanged (rec : option Db.SourceRow) (st : Stat) : bool :=
  match rec with
  | Some r =>
      str_eqb (Db.status r) (py "ok")
      && match Db.source_size r with
         | Some n => (n =? st_size st)%Z
         | None => false
         end
      && match Db.source_mtime r with
         | Some t => PrimFloat.eqb t (st_mtime st)
         | None => false
         end
  | None => false
  end.

(** [str(vault_path.relative_to(library.root))] *)
Definition relative_to_root (library : Library.Library) (p : Library.Path) : str :=
  join (py "/") (drop (length (Library.parts (Library.lib_root library))) (Library.parts p)).

(** One iteration of the loop of a pass that is not a dry run. *)
Definition scan_one (library : Library.Library) (now : float) (s : State) (f : Found)
    : State :=
  let stats1 := add_discovered (stats s) in
  match stat f with
  | OSError e =>
      {| conn := Db.upsert_source (conn s) (src_str f) (Some (base f)) None None None
                   (py "unreadable") (Some e) now now;
         vault := vault s; hashed := hashed s;
         stats := add_errors stats1 |}
  | IoOk st =>
      let rec := Db.get_source (conn s) (src_str f) in
      if unchanged rec st then
        {| conn := Db.touch_source_seen (conn s) (src_str f) now;
           vault := vault s; hashed := hashed s;
           stats := add_skipped_unchanged stats1 |}
      else
        match _copy_into_vault library (vault s) f with
        | (OSError e, vault') =>
            {| conn := Db.upsert_source (conn s) (src_str f) (Some (base f))
                         (Some (st_size st)) (Some (st_mtime st)) None
                         (py "error") (Some e) now now;
               vault := vault'; hashed := hashed s ++ [src_str f];
               stats := add_errors stats1 |}
        | (IoOk (hash_hex, vault_path, bytes_written, was_copied), vault') =>
            let vault_relpath := relative_to_root library vault_path in
            let conn1 := Db.upsert_document_seen (conn s) hash_hex vault_relpath
                           bytes_written now now in
            let conn2 := Db.upsert_source conn1 (src_str f) (Some (base f))
                           (Some (st_size st)) (Some (st_mtime st)) (Some hash_hex)
                           (py "ok") None now now in
            {| conn := conn2; vault := vault'; hashed := hashed s ++ [src_str f];
               stats := if was_copied then add_copied_new stats1
                        else add_deduped_existing stats1 |}
        end
  end.

(** The result of [scan_and_copy]: [ValueError] for an unknown method, the
    counters alone for a dry run, the new state otherwise. [found] is what
    the finder yields. *)
Definition scan_and_copy (library : Library.Library) (method : str) (dry_run : bool)
    (now : float) (s : State) (found : list Found) : Catalog.checked State :=
  let method := strip (lower method) in
  if negb (bool_decide (method ∈ [py "auto"; py "mdfind"; py "walk"])) then
    Catalog.ValueError (py "method must be one of: auto, mdfind, walk")
  else if dry_run then
    Catalog.Valid
      {| conn := conn s; vault := vault s; hashed := hashed s;
         stats := foldl (fun st _ => add_discovered st) zero_stats found |}
  else
    Catalog.Valid
      (foldl (scan_one library now)
         {| conn := conn s; vault := vault s; hashed := hashed s;
            stats := zero_stats |} found).

End Scan.

End Scanner.

(* ===================================================================== *)
(** * organize.py: the names of the categorized view                      *)
(* ===================================================================== *)

Module Organize.
Import Library.

Section View.
Context `{RT : Runtime}.

(** [(doc.get("category") or default_category).strip() or default_category] *)
Definition view_category (category : option str) (default_category : str) : str :=
  match strip (Catalog.or_else category default_category) with
  | [] => default_category
  | c => c
  end.

(** [cat_dir = categorized / safe_filename(category)] *)
Definition cat_dir (library : Library) (category : option str) (default_category : str)
    : Path :=
  div (categorized_dir library)
      (Util.safe_filename (view_category category default_category) Util.default_max_len).

(** [base_name]: the sanitized display name, with the extension. *)
Definition base_name (resolved : str) : str :=
  let b := Util.safe_filename resolved Util.default_max_len in
  if negb (endswith (py ".pdf") (lower b)) then b ++ py ".pdf" else b.

(** [stem = base_name[:-4] if base_name.lower().endswith(".pdf") else base_name] *)
Definition stem (base_name : str) : str :=
  if endswith (py ".pdf") (lower base_name) then take (length base_name - 4) base_name
  else base_name.

(** The names tried for a link: the first one has no counter, the later
    ones carry the counter [n]. *)
Definition candidate_name (stem hash_hex : str) (n : option N) : str :=
  stem ++ py "__" ++ take 8 hash_hex
    ++ match n with
       | None => []
       | Some n => py "__" ++ decimal n
       end
    ++ py ".pdf".

(** The loop [while candidate.exists() or candidate.is_symlink()]: [taken]
    is the answer of the file system for a path, which no iteration
    changes; [fuel] bounds the number of tests. *)
Fixpoint next_free (fuel : nat) (taken : Path -> bool) (cat_dir : Path)
    (stem hash_hex : str) (candidate : Path) (n : N) : option Path :=
  match fuel with
  | O => None
  | S k =>
      if taken candidate then
        next_free k taken cat_dir stem hash_hex
          (div cat_dir (candidate_name stem hash_hex (Some n))) (n + 1)
      else Some candidate
  end.

(** The path of the link of a document: the part of the loop of
    [build_categorized_view] before the link is made. *)
Definition link_path (fuel : nat) (taken : Path -> bool) (library : Library)
    (category : option str) (default_category : str) (resolved hash_hex : str)
    : option Path :=
  let cd := cat_dir library category default_category in
  let st := stem (base_name resolved) in
  next_free fuel taken cd st hash_hex (div cd (candidate_name st hash_hex None)) 2.

End View.
End Organize.


(* ===================================================================== *)
(** * A reference runtime                                                 *)
(* ===================================================================== *)

(** An implementation of [Runtime] for the closed examples and witnesses.
    It follows the interpreter on the fragment the examples use: ASCII
    text for [lower]; JSON documents and Python literals made of
    dictionaries, lists, strings with the common escapes, decimal numbers
    and the constants; [str] of [None], booleans and integers. The
    theorems do not depend on it: they are stated for every runtime. *)
Module Reference.

Definition ascii_lower (s : str) : str :=
  (fun c => if is_upper c then c + 32 else c)%N <$> s.

(** The float nearest to [digits * 10^exp10] (ties to even). For a negative
    exponent the quotient is computed with guard bits and a sticky bit, so
    that the one rounding of [binary_normalize] is the correct one. *)
Definition float_of_decimal (negative : bool) (digits : Z) (exp10 : Z) : float :=
  if (digits =? 0)%Z then (if negative then (-0)%float else 0%float)
  else
    let sign := if negative then (-1)%Z else 1%Z in
    if (0 <=? exp10)%Z then
      SF2Prim (binary_normalize prec emax (sign * digits * 10 ^ exp10) 0 negative)
    else
      let den := (10 ^ (- exp10))%Z in
      let k := Z.max 0 (64 + Z.log2_up den - Z.log2 digits) in
      let num := (digits * 2 ^ k)%Z in
      let q := (num / den)%Z in
      let sticky := if (num mod den =? 0)%Z then 0%Z else 1%Z in
      SF2Prim (binary_normalize prec emax (sign * (2 * q + sticky)) (- (k + 1)) negative).

Definition digit_value (c : N) : Z := Z.of_N (c - 48).

Definition digits_value (ds : str) : Z :=
  foldl (fun acc c => (10 * acc + digit_value c)%Z) 0%Z ds.

(** A number at the head of [s], in the grammar of JSON (an optional sign,
    the integer part, an optional fraction and exponent): the value and
    the rest. A literal may also carry a plus sign. *)
Definition parse_number (allow_plus : bool) (s : str) : option (pyvalue * str) :=
  let '(negative, s1) :=
    match s with
    | 45%N :: r => (true, r)
    | 43%N :: r => if allow_plus then (false, r) else (false, s)
    | _ => (false, s)
    end in
  let int_part :=
    match s1 with
    | 48%N :: _ => py "0"
    | _ => span_while is_digit s1
    end in
  match int_part with
  | [] => None
  | _ =>
      let s2 := drop (length int_part) s1 in
      let frac :=
        match s2 with
        | 46%N :: r => span_while is_digit r
        | _ => []
        end in
      let s3 := match frac with [] => s2 | _ => drop (S (length frac)) s2 end in
      let '(has_exp, exp_negative, exp_digits, s4) :=
        match s3 with
        | e :: r =>
            if ((e =? 101) || (e =? 69))%N then
              let '(eneg, r1) :=
                match r with
                | 45%N :: r' => (true, r')
                | 43%N :: r' => (false, r')
                | _ => (false, r)
                end in
              match span_while is_digit r1 with
              | [] => (false, false, [], s3)
              | ds => (true, eneg, ds, drop (length ds) r1)
              end
            else (false, false, [], s3)
        | [] => (false, false, [], s3)
        end in
      match frac, has_exp with
      | [], false =>
          let z := digits_value int_part in
          Some (PInt (if negative then (- z)%Z else z), s4)
      | _, _ =>
          let e := digits_value exp_digits in
          let e := if exp_negative then (- e)%Z else e in
          Some (PFloat (float_of_decimal negative (digits_value (int_part ++ frac))
                          (e - Z.of_nat (length frac))), s4)
      end
  end.

(** [float(s)] on the decimal fragment: blanks, a number, blanks. *)
Definition float_of_str (s : str) : option float :=
  match parse_number true (strip s) with
  | Some (PFloat f, []) => Some f
  | Some (PInt z, []) => float_of_Z z
  | _ => None
  end.

Definition hex_value (c : N) : option N :=
  if is_digit c then Some (c - 48)%N
  else if ((97 <=? c) && (c <=? 102))%N then Some (c - 87)%N
  else if ((65 <=? c) && (c <=? 70))%N then Some (c - 55)%N
  else None.

(** The value of exactly [n] hexadecimal digits at the head of [s]. *)
Fixpoint parse_hex (n : nat) (acc : N) (s : str) : option (N * str) :=
  match n with
  | O => Some (acc, s)
  | S n' =>
      match s with
      | c :: r =>
          match hex_value c with
          | Some v => parse_hex n' (16 * acc + v)%N r
          | None => None
          end
      | [] => None
      end
  end.

(** Adjacent surrogate halves written as two escapes denote one character. *)
Fixpoint join_surrogates (s : str) : str :=
  match s with
  | hi :: ((lo :: r) as s') =>
      if ((55296 <=? hi) && (hi <=? 56319) && (56320 <=? lo) && (lo <=? 57343))%N
      then (65536 + (hi - 55296) * 1024 + (lo - 56320))%N :: join_surrogates r
      else hi :: join_surrogates s'
  | _ => s
  end.

Inductive dialect := Json | Literal.

(** The character an escape letter denotes. *)
Definition escape_char (dl : dialect) (c : N) : option N :=
  match c with
  | 34%N => Some 34%N
  | 92%N => Some 92%N
  | 98%N => Some 8%N
  | 102%N => Some 12%N
  | 110%N => Some 10%N
  | 114%N => Some 13%N
  | 116%N => Some 9%N
  | 47%N => match dl with Json => Some 47%N | Literal => None end
  | 39%N => match dl with Json => None | Literal => Some 39%N end
  | 97%N => match dl with Json => None | Literal => Some 7%N end
  | 118%N => match dl with Json => None | Literal => Some 11%N end
  | _ => None
  end.

(** The body of a string after its opening quote: the text and the rest
    after the closing quote. [pending] counts characters of an escape that
    were consumed by look-ahead. *)
Fixpoint parse_string (dl : dialect) (quote : N) (pending : nat) (acc : str) (s : str)
    : option (str * str) :=
  match s with
  | [] => None
  | c :: r =>
      match pending with
      | S n => parse_string dl quote n acc r
      | O =>
          if (c =? quote)%N then Some (join_surrogates (reverse acc), r)
          else if (c =? 92)%N then
            match r with
            | 117%N :: r' =>
                match parse_hex 4 0 r' with
                | Some (v, _) => parse_string dl quote 5 (v :: acc) r
                | None => None
                end
            | e :: _ =>
                match escape_char dl e with
                | Some v => parse_string dl quote 1 (v :: acc) r
                | None => None
                end
            | [] => None
            end
          else if (c <? 32)%N then None
          else parse_string dl quote 0 (c :: acc) r
      end
  end.

Definition is_json_space (c : N) : bool :=
  ((c =? 32) || (c =? 9) || (c =? 10) || (c =? 13))%N.

Definition skip_ws (s : str) : str := skip_while is_json_space s.

(** A constant or a number at the head of [s]. *)
Definition parse_scalar (dl : dialect) (s : str) : option (pyvalue * str) :=
  let keyword (k : str) (v : pyvalue) :=
    if startswith k s then Some (v, drop (length k) s) else None in
  let constants :=
    match dl with
    | Json =>
        [keyword (py "null") PNone; keyword (py "true") (PBool true);
         keyword (py "false") (PBool false); keyword (py "NaN") (PFloat nan);
         keyword (py "Infinity") (PFloat infinity);
         keyword (py "-Infinity") (PFloat neg_infinity)]
    | Literal =>
        [keyword (py "None") PNone; keyword (py "True") (PBool true);
         keyword (py "False") (PBool false)]
    end in
  match omap id constants with
  | r :: _ => Some r
  | [] => parse_number (match dl with Json => false | Literal => true end) s
  end.

(** What the parser is reading: a value, the elements of a list after the
    opening bracket, or the items of a dictionary after the opening brace. *)
Inductive goal :=
| GValue
| GItems (acc : list pyvalue)
| GPairs (acc : pydict).

Definition closes (dl : dialect) (close : N) (s : str) : option str :=
  match dl, s with
  | Literal, c :: r => if (c =? close)%N then Some r else None
  | _, _ => None
  end.

(** A dictionary assignment with an arbitrary key. *)
Definition dict_put (d : pydict) (k v : pyvalue) : pydict :=
  match k with
  | PStr key => dict_set d key v
  | _ => d ++ [(k, v)]
  end.

Fixpoint parse (dl : dialect) (fuel : nat) (g : goal) (s : str)
    : option (pyvalue * str) :=
  match fuel with
  | O => None
  | S n =>
      match g with
      | GValue =>
          match s with
          | 123%N :: r =>
              match skip_ws r with
              | 125%N :: r' => Some (PDict [], r')
              | r' => parse dl n (GPairs []) r'
              end
          | 91%N :: r =>
              match skip_ws r with
              | 93%N :: r' => Some (PList [], r')
              | r' => parse dl n (GItems []) r'
              end
          | 34%N :: r =>
              match parse_string dl 34 0 [] r with
              | Some (t, r') => Some (PStr t, r')
              | None => None
              end
          | 39%N :: r =>
              match dl with
              | Json => None
              | Literal =>
                  match parse_string dl 39 0 [] r with
                  | Some (t, r') => Some (PStr t, r')
                  | None => None
                  end
              end
          | _ => parse_scalar dl s
          end
      | GItems acc =>
          match parse dl n GValue s with
          | Some (v, r) =>
              match skip_ws r with
              | 44%N :: r' =>
                  match closes dl 93 (skip_ws r') with
                  | Some r'' => Some (PList (acc ++ [v]), r'')
                  | None => parse dl n (GItems (acc ++ [v])) (skip_ws r')
                  end
              | 93%N :: r' => Some (PList (acc ++ [v]), r')
              | _ => None
              end
          | None => None
          end
      | GPairs acc =>
          let key :=
            match dl, s with
            | Json, 34%N :: _ => parse dl n GValue s
            | Json, _ => None
            | Literal, _ => parse dl n GValue s
            end in
          match key with
          | Some (k, r) =>
              match skip_ws r with
              | 58%N :: r1 =>
                  match parse dl n GValue (skip_ws r1) with
                  | Some (v, r2) =>
                      match skip_ws r2 with
                      | 44%N :: r3 =>
                          match closes dl 125 (skip_ws r3) with
                          | Some r4 => Some (PDict (dict_put acc k v), r4)
                          | None => parse dl n (GPairs (dict_put acc k v)) (skip_ws r3)
                          end
                      | 125%N :: r3 => Some (PDict (dict_put acc k v), r3)
                      | _ => None
                      end
                  | None => None
                  end
              | _ => None
              end
          | None => None
          end
      end
  end.

Definition fuel_for (s : str) : nat := 2 * length s + 2.

(** [raw_decode]: a value at index 0, and the index where it ends. *)
Definition raw_decode (s : str) : option (pyvalue * nat) :=
  match parse Json (fuel_for s) GValue s with
  | Some (v, r) => Some (v, length s - length r)
  | None => None
  end.

(** [json.loads]: blanks, one value, blanks. *)
Definition json_loads (s : str) : option pyvalue :=
  match parse Json (fuel_for s) GValue (skip_ws s) with
  | Some (v, r) => match skip_ws r with [] => Some v | _ => None end
  | None => None
  end.

(** [ast.literal_eval] *)
Definition literal_eval (s : str) : option pyvalue :=
  let s := strip s in
  match parse Literal (fuel_for s) GValue s with
  | Some (v, r) => match skip_ws r with [] => Some v | _ => None end
  | None => None
  end.

(** [str(v)] for the constants and the integers; other values print as a
    placeholder. *)
Definition repr (v : pyvalue) : str :=
  match v with
  | PNone => py "None"
  | PBool true => py "True"
  | PBool false => py "False"
  | PInt z => (if (z <? 0)%Z then py "-" else []) ++ decimal (Z.abs_N z)
  | PStr s => s
  | _ => py "<object>"
  end.

(** The escape [\uXXXX] of a code unit: four lower-case hexadecimal digits. *)
Definition u_escape (n : N) : str :=
  [92%N; 117%N]
    ++ ((fun i =>
           let d := ((n / 16 ^ N.of_nat (3 - i)) mod 16)%N in
           if (d <? 10)%N then (48 + d)%N else (87 + d)%N) <$> seq 0 4).

(** One character of a JSON string: the quote, the backslash and the
    control characters are escaped; with [ensure_ascii] every character
    outside the range from the space to the tilde is, one beyond the basic
    plane as a surrogate pair. *)
Definition dumps_char (ensure_ascii : bool) (c : N) : str :=
  match c with
  | 34%N => [92%N; 34%N]
  | 92%N => [92%N; 92%N]
  | 10%N => [92%N; 110%N]
  | 13%N => [92%N; 114%N]
  | 9%N => [92%N; 116%N]
  | 8%N => [92%N; 98%N]
  | 12%N => [92%N; 102%N]
  | _ =>
      if (c <? 32)%N then u_escape c
      else if ensure_ascii && (126 <? c)%N then
        if (c <? 65536)%N then u_escape c
        else
          let n := (c - 65536)%N in
          u_escape (55296 + (n / 1024) mod 1024)%N ++ u_escape (56320 + n mod 1024)%N
      else [c]
  end.

(** The JSON text of a string. *)
Definition dumps_str (ensure_ascii : bool) (s : str) : str :=
  [34%N] ++ concat (dumps_char ensure_ascii <$> s) ++ [34%N].

(** [json.dumps] for a string and for a list of strings. *)
Definition json_dumps (ensure_ascii : bool) (v : pyvalue) : str :=
  match v with
  | PStr s => dumps_str ensure_ascii s
  | PList l =>
      py "[" ++ join (py ", ")
                  ((fun x => match x with
                             | PStr s => dumps_str ensure_ascii s
                             | _ => repr x
                             end) <$> l)
        ++ py "]"
  | _ => repr v
  end.

(** ** SHA-256 (FIPS 180-4), for [hashlib.sha256(data).hexdigest()] *)
Module Sha256.

Definition w32 (x : Z) : Z := x mod 2 ^ 32.
Definition rotr (n x : Z) : Z := Z.lor (Z.shiftr x n) (w32 (Z.shiftl x (32 - n))).
Definition xor3 (a b c : Z) : Z := Z.lxor a (Z.lxor b c).
Definition big_sigma0 (x : Z) : Z := xor3 (rotr 2 x) (rotr 13 x) (rotr 22 x).
Definition big_sigma1 (x : Z) : Z := xor3 (rotr 6 x) (rotr 11 x) (rotr 25 x).
Definition small_sigma0 (x : Z) : Z := xor3 (rotr 7 x) (rotr 18 x) (Z.shiftr x 3).
Definition small_sigma1 (x : Z) : Z := xor3 (rotr 17 x) (rotr 19 x) (Z.shiftr x 10).
Definition ch (x y z : Z) : Z :=
  Z.lxor (Z.land x y) (Z.land (Z.lxor x (2 ^ 32 - 1)) z).
Definition maj (x y z : Z) : Z :=
  xor3 (Z.land x y) (Z.land x z) (Z.land y z).

Definition K : list Z :=
  [
   1116352408; 1899447441; 3049323471; 3921009573; 961987163; 1508970993;
   2453635748; 2870763221; 3624381080; 310598401; 607225278; 1426881987;
   1925078388; 2162078206; 2614888103; 3248222580; 3835390401; 4022224774;
   264347078; 604807628; 770255983; 1249150122; 1555081692; 1996064986;
   2554220882; 2821834349; 2952996808; 3210313671; 3336571891; 3584528711;
   113926993; 338241895; 666307205; 773529912; 1294757372; 1396182291;
   1695183700; 1986661051; 2177026350; 2456956037; 2730485921; 2820302411;
   3259730800; 3345764771; 3516065817; 3600352804; 4094571909; 275423344;
   430227734; 506948616; 659060556; 883997877; 958139571; 1322822218;
   1537002063; 1747873779; 1955562222; 2024104815; 2227730452; 2361852424;
   2428436474; 2756734187; 3204031479; 3329325298
  ]%Z.

Definition H0 : list Z :=
  [
   1779033703; 3144134277; 1013904242; 2773480762; 1359893119; 2600822924;
   528734635; 1541459225
  ]%Z.

(** The message followed by the bit 1, zeros, and its length in bits on 64
    bits, a multiple of 64 bytes in all. *)
Definition pad (data : list N) : list Z :=
  let len := length data in
  let zeros := (64 - (len + 9) mod 64) mod 64 in
  let bits := (8 * Z.of_nat len)%Z in
  (Z.of_N <$> data) ++ [128%Z] ++ replicate zeros 0%Z
    ++ ((fun i => Z.shiftr bits (8 * Z.of_nat (7 - i)) mod 256)%Z <$> seq 0 8).

(** Big-endian 32-bit words of a byte string. *)
Fixpoint words (fuel : nat) (bytes : list Z) : list Z :=
  match fuel, bytes with
  | S n, a :: b :: c :: d :: rest =>
      (((a * 256 + b) * 256 + c) * 256 + d)%Z :: words n rest
  | _, _ => []
  end.

(** The message schedule, latest word first: [rev] holds W[t-1], W[t-2], ... *)
Fixpoint schedule (n : nat) (rev : list Z) : list Z :=
  match n with
  | O => rev
  | S n' =>
      let w := fun i => nth i rev 0%Z in
      schedule n' (w32 (small_sigma1 (w 1) + w 6 + small_sigma0 (w 14) + w 15) :: rev)
  end.

Definition round (s : list Z) (kw : Z * Z) : list Z :=
  match s with
  | [a; b; c; d; e; f; g; h] =>
      let t1 := (h + big_sigma1 e + ch e f g + kw.1 + kw.2)%Z in
      let t2 := (big_sigma0 a + maj a b c)%Z in
      [w32 (t1 + t2); a; b; c; w32 (d + t1); e; f; g]
  | _ => s
  end.

Definition compress (h : list Z) (block : list Z) : list Z :=
  let w := reverse (schedule 48 (reverse block)) in
  let s := foldl round h (zip K w) in
  zip_with (fun x y => w32 (x + y)) h s.

Fixpoint blocks (fuel : nat) (ws : list Z) : list (list Z) :=
  match fuel, ws with
  | _, [] => []
  | O, _ => []
  | S n, _ => take 16 ws :: blocks n (drop 16 ws)
  end.

Definition hex_digit (v : Z) : N :=
  if (v <? 10)%Z then Z.to_N (48 + v) else Z.to_N (87 + v).

Definition hex_word (w : Z) : list N :=
  (fun i => hex_digit (Z.shiftr w (4 * Z.of_nat (7 - i)) mod 16)) <$> seq 0 8.

Definition hexdigest (data : list N) : list N :=
  let bytes := pad data in
  let ws := words (length bytes) bytes in
  let h := foldl compress H0 (blocks (length ws) ws) in
  concat (hex_word <$> h).

End Sha256.

(** The reference runtime. *)
#[global] Instance runtime : Runtime := {|
  lower := ascii_lower;
  Py.repr := repr;
  Py.float_of_str := float_of_str;
  Py.json_loads := json_loads;
  Py.raw_decode := raw_decode;
  Py.literal_eval := literal_eval;
  Py.json_dumps := json_dumps;
  sha256_hexdigest := Sha256.hexdigest;
|}.

End Reference.

(* ===================================================================== *)
(** * Sample configurations, documents and replies                        *)
(* ===================================================================== *)

Module Examples.
Import Categorizer.

(** A literal in which the apostrophe stands for the double quote. *)
Definition jq (s : string) : str := replace_char 39 [34%N] (py s).
Arguments jq s%_string.

Definition rule_invoices : CategoryRule :=
  {| name := Some (py "Receipts & Invoices"); priority := Some 10%float;
     min_pages := None; max_pages := None;
     path_keywords_any := [py "invoice"];
     filename_keywords_any := [py "invoice"; py "receipt"];
     metadata_keywords_any := [py "invoice"];
     text_keywords_any := [py "total due"] |}.

Definition rule_manuals : CategoryRule :=
  {| name := Some (py "Manuals & Guides"); priority := Some (-5)%float;
     min_pages := None; max_pages := None;
     path_keywords_any := [];
     filename_keywords_any := [py "manual"; py "guide"];
     metadata_keywords_any := [];
     text_keywords_any := [py "installation"] |}.

(** A rule set that leaves the default category and the threshold at their
    defaults ("Unsorted" and 4). *)
Definition cfg : Config :=
  {| default_category := None; min_score := None;
     categories := [rule_invoices; rule_manuals] |}.

Definition empty_cfg : Config :=
  {| default_category := None; min_score := None; categories := [] |}.

(** A rule set whose only rule has a large priority. *)
Definition heavy_cfg : Config :=
  {| default_category := None; min_score := None;
     categories :=
       [ {| name := Some (py "Archive"); priority := Some 5000000%float;
            min_pages := None; max_pages := None;
            path_keywords_any := [py "archive"];
            filename_keywords_any := [py "archive"];
            metadata_keywords_any := [];
            text_keywords_any := [] |} ] |}.

(** The rule set of the threshold example: a threshold of 4 and one rule
    with a path keyword. *)
Definition threshold_cfg : Config :=
  {| default_category := Some (py "Unsorted"); min_score := Some 4%float;
     categories :=
       [ {| name := Some (py "Taxes"); priority := None;
            min_pages := None; max_pages := None;
            path_keywords_any := [py "documents"];
            filename_keywords_any := [];
            metadata_keywords_any := [];
            text_keywords_any := [] |} ] |}.

Definition notes : Attributes :=
  {| source_path := Some (py "/home/u/Documents/notes.pdf");
     source_basename := Some (py "notes.pdf");
     title := None; subject := None; keywords := None; authors := None;
     text_sample := None; page_count := None |}.

Definition invoice : Attributes :=
  {| source_path := Some (py "/home/u/Documents/Invoice_2025.pdf");
     source_basename := Some (py "Invoice_2025.pdf");
     title := None; subject := None; keywords := None; authors := None;
     text_sample := Some (py "Invoice Total Due: $123.45"); page_count := Some 1%Z |}.

(** A provider that answers the n-th request with the n-th reply of a
    script and is unreachable afterwards. *)
Definition scripted (replies : list (Llm.outcome str)) : Llm.World :=
  {| Llm.uzu_reply := fun log _ =>
       nth (length log) replies
           (Llm.Raise (py "Network error calling http://localhost:8000/chat/completions"));
     Llm.elapsed := fun _ => 0.25%float;
     Llm.UZU_BASE_URL := None;
     Llm.UZU_MODEL := None;
     Llm.home := Some (py "/home/u") |}.

(** The default [llm_min_confidence], the literal [0.6]. *)
Definition six_tenths : float := 0x1.3333333333333p-1%float.

Definition options : Catalog.Options :=
  {| Catalog.llm_provider := Some (py "uzu");
     Catalog.llm_model := Some (py "qwen3-3b");
     Catalog.llm_mode := None;
     Catalog.llm_min_confidence := six_tenths;
     Catalog.llm_timeout_seconds := 30%float;
     Catalog.llm_max_output_tokens := 200%Z;
     Catalog.llm_path_mode := None;
     Catalog.llm_path_tail_parts := 3%Z |}.

Definition settings : Catalog.Settings :=
  {| Catalog.provider := py "uzu";
     Catalog.model := py "qwen3-3b";
     Catalog.mode := py "fallback";
     Catalog.min_confidence := six_tenths;
     Catalog.timeout_seconds := 30%float;
     Catalog.max_output_tokens := 200%Z;
     Catalog.path_mode := py "tail";
     Catalog.path_tail_parts := 3%Z |}.

Definition doc_notes : Catalog.Document :=
  {| Catalog.hash_hex := Reference.Sha256.hexdigest (py "notes");
     Catalog.attributes := notes;
     Catalog.meta_json := None |}.

Definition doc_invoice : Catalog.Document :=
  {| Catalog.hash_hex := Reference.Sha256.hexdigest (py "invoice");
     Catalog.attributes := invoice;
     Catalog.meta_json := None |}.

Definition reply_bogus : str :=
  jq "{'category': 'Bogus', 'confidence': 0.9, 'reason': 'looks like a manual'}".

Definition reply_number : str :=
  jq "{'category': 7, 'confidence': 0.9, 'reason': 'looks like a manual'}".

Definition reply_invoice : str :=
  jq "{'category': 'receipts & invoices', 'confidence': 0.9, 'reason': 'invoice keyword'}".

Definition reply_unsure : str :=
  jq "{'category': 'Manuals & Guides', 'confidence': 0.3, 'reason': 'not sure'}".
Definition library : Library.Library :=
  {| Library.lib_root := Library.Path_of (py "/home/u/PDF_Library") |}.

(** The digest of the empty file. *)
Definition a_digest : str :=
  py "e3b0c44298fc1c149afbf4c8996fb92427ae41e4649b934ca495991b7852b855".

Definition found_invoice : Scanner.Found :=
  {| Scanner.src_str := py "/home/u/Documents/Invoice_2025.pdf";
     Scanner.base := py "Invoice_2025.pdf";
     Scanner.stat := Scanner.IoOk {| Scanner.st_size := 27; Scanner.st_mtime := 1700000000.5%float |};
     Scanner.content := Scanner.IoOk (py "Invoice Total Due: $123.45 ") |}.

Definition empty_state : Scanner.State :=
  {| Scanner.conn := {| Db.source_files := ∅; Db.documents := ∅ |};
     Scanner.vault := ∅;
     Scanner.hashed := [];
     Scanner.stats := Scanner.zero_stats |}.

(** The state after a first pass, at time 1000, that found the invoice. *)
Definition scanned_once : Scanner.State :=
  Scanner.scan_one library 1000%float empty_state found_invoice.

Definition found_manual : Scanner.Found :=
  {| Scanner.src_str := py "/home/u/Documents/Widget3000_Manual.pdf";
     Scanner.base := py "Widget3000_Manual.pdf";
     Scanner.stat := Scanner.IoOk {| Scanner.st_size := 39; Scanner.st_mtime := 1700000100%float |};
     Scanner.content := Scanner.IoOk (py "User Guide Installation instructions...") |}.

(** A second path with the bytes of the invoice. *)
Definition found_copy : Scanner.Found :=
  {| Scanner.src_str := py "/home/u/Downloads/invoice (1).pdf";
     Scanner.base := py "invoice (1).pdf";
     Scanner.stat := Scanner.IoOk {| Scanner.st_size := 27; Scanner.st_mtime := 1700000200%float |};
     Scanner.content := Scanner.IoOk (py "Invoice Total Due: $123.45 ") |}.

(** The two documents of the end-to-end scenario, as the engine reads them
    from the manifest after the scan. *)
Definition scenario_docs : list Catalog.Document :=
  [ {| Catalog.hash_hex := sha256_hexdigest (py "Invoice Total Due: $123.45 ");
       Catalog.attributes :=
         {| source_path := Some (py "/home/u/Documents/Invoice_2025.pdf");
            source_basename := Some (py "Invoice_2025.pdf");
            title := None; subject := None; keywords := None; authors := None;
            text_sample := None; page_count := None |};
       Catalog.meta_json := None |};
    {| Catalog.hash_hex := sha256_hexdigest (py "User Guide Installation instructions...");
       Catalog.attributes :=
         {| source_path := Some (py "/home/u/Documents/Widget3000_Manual.pdf");
            source_basename := Some (py "Widget3000_Manual.pdf");
            title := None; subject := None; keywords := None; authors := None;
            text_sample := None; page_count := None |};
       Catalog.meta_json := None |} ].

Definition always_options : Catalog.Options :=
  {| Catalog.llm_provider := Some (py "uzu");
     Catalog.llm_model := Some (py "qwen3-3b");
     Catalog.llm_mode := Some (py "always");
     Catalog.llm_min_confidence := six_tenths;
     Catalog.llm_timeout_seconds := 2%float;
     Catalog.llm_max_output_tokens := 64%Z;
     Catalog.llm_path_mode := Some (py "tail");
     Catalog.llm_path_tail_parts := 3%Z |}.

Definition scenario_replies : list (Llm.outcome str) :=
  [ Llm.Return (jq "{'category': 'Receipts & Invoices', 'confidence': 0.9, 'reason': 'invoice keyword'}");
    Llm.Return (jq "{'category': 'Manuals & Guides', 'confidence': 0.85, 'reason': 'manual keyword'}") ].

(** The reply of the tolerance example: a fenced Python dictionary. *)
Definition reply_fenced : str :=
  py "Sure! ```json" ++ [10%N]
    ++ py "{'category': 'Manuals & Guides', 'confidence': 0.8}" ++ [10%N] ++ py "```".

End Examples.

Module MoreExamples.
Import Examples.

#[global] Instance Path_eq_dec : EqDecision Library.Path.
Proof. solve_decision. Defined.




(** The call of the classifier for the notes, answered with the reply
    that names an unknown category, and what it returns. *)
Definition bogus_call : Llm.outcome Llm.LLMClassification * list Llm.Request :=
  @Llm.llm_classify_category Reference.runtime (scripted [Llm.Return reply_bogus])
    (py "uzu") (py "qwen3-3b") [py "Receipts & Invoices"; py "Manuals & Guides"]
    (py "Unsorted") (Some (py "/home/u/Documents/notes.pdf")) (Some (py "notes.pdf"))
    None None None None None None 30%float 200%Z (py "tail") 3%Z [].

Definition bogus_result : Llm.LLMClassification :=
  {| Llm.category := py "Unsorted";
     Llm.confidence := 0x1.ccccccccccccdp-1%float;
     Llm.reason := py "looks like a manual";
     Llm.raw_text := reply_bogus |}.

(** A rule set whose only rule has the priority that [json.loads] reads
    from [1e999] (and from [Infinity]). *)
Definition infinite_cfg : Categorizer.Config :=
  {| Categorizer.default_category := None; Categorizer.min_score := None;
     Categorizer.categories :=
       [ {| Categorizer.name := Some (py "Archive");
            Categorizer.priority := Some infinity;
            Categorizer.min_pages := None; Categorizer.max_pages := None;
            Categorizer.path_keywords_any := [py "archive"];
            Categorizer.filename_keywords_any := [py "archive"];
            Categorizer.metadata_keywords_any := [];
            Categorizer.text_keywords_any := [] |} ] |}.


(** The digest of the three bytes "abc". *)
Definition b_digest : str :=
  py "ba7816bf8f01cfea414140de5dae2223b00361a396177a9cb410ff61f20015ad".


(** The first two names tried for a link of the empty file, titled
    "Tax return 2024", in the category "Taxes". *)
Definition first_link : Library.Path :=
  {| Library.root := py "/";
     Library.parts := [py "home"; py "u"; py "PDF_Library"; py "categorized"; py "Taxes";
                       py "Tax return 2024__e3b0c442.pdf"] |}.

Definition second_link : Library.Path :=
  {| Library.root := py "/";
     Library.parts := [py "home"; py "u"; py "PDF_Library"; py "categorized"; py "Taxes";
                       py "Tax return 2024__e3b0c442__2.pdf"] |}.

(** A view in which the first name is in use. *)
Definition first_taken (p : Library.Path) : bool := bool_decide (p ∈ [first_link]).

End MoreExamples.

(* ===================================================================== *)
(** * Properties                                                          *)
(* ===================================================================== *)

(** ** util.py: the file-name sanitizer *)

Module UtilFacts.
Import Util.

(** No two adjacent whitespace characters. *)
Fixpoint ws_separated (s : str) : bool :=
  match s with
  | a :: ((b :: _) as s') => negb (is_space a && is_space b) && ws_separated s'
  | _ => true
  end.

Definition head_not_space (s : str) : Prop :=
  match s with [] => True | c :: _ => is_space c = false end.

Lemma lstrip_head s : head_not_space (lstrip s).
Proof. induction s as [|c s IH]; simpl; [done|]. destruct (is_space c) eqn:E; simpl; done. Qed.

Lemma rstrip_cons c s :
  rstrip (c :: s) = [] ∨ ∃ r, rstrip (c :: s) = c :: r.
Proof.
  simpl. destruct (rstrip s); [destruct (is_space c)|]; eauto.
Qed.

Lemma rstrip_cons_keep c s : is_space c = false → ∃ r, rstrip (c :: s) = c :: r.
Proof. intros E. simpl. rewrite E. destruct (rstrip s); eauto. Qed.

Lemma rstrip_head s : head_not_space s → head_not_space (rstrip s).
Proof.
  destruct s as [|c s]; [done|]. intros H.
  destruct (rstrip_cons c s) as [->|[r ->]]; done.
Qed.

Lemma strip_head s : head_not_space (strip s).
Proof. apply rstrip_head, lstrip_head. Qed.

Lemma lstrip_Forall (P : N → Prop) s : Forall P s → Forall P (lstrip s).
Proof.
  induction 1 as [|c s Hc Hs IH]; simpl; [constructor|].
  destruct (is_space c); [done | by constructor].
Qed.

Lemma rstrip_Forall (P : N → Prop) s : Forall P s → Forall P (rstrip s).
Proof.
  induction 1 as [|c s Hc Hs IH]; simpl; [constructor|].
  destruct (rstrip s); [destruct (is_space c); repeat constructor; done | by constructor].
Qed.

Lemma strip_Forall (P : N → Prop) s : Forall P s → Forall P (strip s).
Proof. intros. by apply rstrip_Forall, lstrip_Forall. Qed.

Lemma rstrip_length s : length (rstrip s) ≤ length s.
Proof.
  induction s as [|c s IH]; simpl; [lia|].
  destruct (rstrip s); [destruct (is_space c); simpl; lia | simpl in *; lia].
Qed.

Lemma sub_runs_from_Forall (P : N → Prop) cls rep b s :
  Forall P rep → (∀ c, cls c = false → P c) → Forall P (sub_runs_from cls rep b s).
Proof.
  intros Hrep Hkeep. revert b. induction s as [|c s IH]; intros b; simpl; [constructor|].
  destruct (cls c) eqn:E.
  - apply Forall_app. split; [destruct b; [constructor | done] | apply IH].
  - constructor; [by apply Hkeep | apply IH].
Qed.

Lemma sub_runs_from_Forall_keep (P : N → Prop) cls rep b s :
  Forall P rep → Forall P s → Forall P (sub_runs_from cls rep b s).
Proof.
  intros Hrep Hs. revert b. induction Hs as [|c s Hc Hs IH]; intros b; simpl; [constructor|].
  destruct (cls c).
  - apply Forall_app. split; [destruct b; [constructor | done] | apply IH].
  - constructor; [done | apply IH].
Qed.

Lemma ws_separated_cons c s :
  ws_separated (c :: s) = true → ws_separated s = true.
Proof. destruct s; simpl; [done|]. intros [_ ?]%andb_true_iff. done. Qed.

Lemma ws_separated_lstrip s : ws_separated s = true → ws_separated (lstrip s) = true.
Proof.
  induction s as [|c s IH]; [done|]. intros H. simpl lstrip.
  destruct (is_space c); [apply IH; by eapply ws_separated_cons | done].
Qed.

Lemma ws_separated_rstrip s : ws_separated s = true → ws_separated (rstrip s) = true.
Proof.
  induction s as [|c s IH]; [done|]. intros H.
  specialize (IH (ws_separated_cons _ _ H)).
  simpl rstrip. destruct (rstrip s) as [|d r] eqn:E.
  - destruct (is_space c); done.
  - destruct s as [|d' s']; [discriminate E|].
    destruct (rstrip_cons d' s') as [E'|[r' E']]; rewrite E' in E; [done|].
    injection E as <- <-. simpl in H |- *. apply andb_true_iff in H as [H1 _].
    rewrite H1. exact IH.
Qed.

Lemma ws_separated_take n s : ws_separated s = true → ws_separated (take n s) = true.
Proof.
  revert n. induction s as [|c s IH]; intros [|n] H; try done.
  specialize (IH n (ws_separated_cons _ _ H)).
  destruct s as [|d s']; [by destruct n|]. destruct n as [|n]; [done|].
  simpl in H |- *. apply andb_true_iff in H as [H1 _]. rewrite H1. exact IH.
Qed.

Lemma sub_runs_space_separated b s :
  ws_separated (sub_runs_from is_space (py " ") b s) = true ∧
  (b = true → head_not_space (sub_runs_from is_space (py " ") b s)).
Proof.
  revert b. induction s as [|c s IH]; intros b; [done|].
  simpl sub_runs_from. destruct (is_space c) eqn:E.
  - destruct (IH true) as [IH1 IH2]. specialize (IH2 eq_refl).
    destruct b; simpl app; [done|]. split; [|done].
    destruct (sub_runs_from is_space (py " ") true s) as [|d r]; [done|].
    simpl in IH2. change (negb (is_space 32 && is_space d) && ws_separated (d :: r) = true).
    rewrite IH2, andb_false_r. exact IH1.
  - destruct (IH false) as [IH1 _]. split; [|done].
    destruct (sub_runs_from is_space (py " ") false s) as [|d r]; [done|].
    change (negb (is_space c && is_space d) && ws_separated (d :: r) = true).
    rewrite E. exact IH1.
Qed.

Lemma ws_separated_single s : ws_separated s = true → single_spaces s = true.
Proof.
  induction s as [|a s IH]; [done|]. intros H.
  specialize (IH (ws_separated_cons _ _ H)).
  destruct s as [|b s']; [done|].
  change (negb (is_space a && is_space b) && ws_separated (b :: s') = true) in H.
  change (negb ((a =? 32)%N && (b =? 32)%N) && single_spaces (b :: s') = true).
  apply andb_true_iff in H as [H1 _]. rewrite IH, andb_true_r.
  destruct (N.eqb_spec a 32) as [->|]; [|done].
  destruct (N.eqb_spec b 32) as [->|]; [|done]. done.
Qed.

Lemma sanitized_safe name : Forall (λ c, safe_char c = true) (sanitized name).
Proof.
  unfold sanitized. apply strip_Forall, sub_runs_from_Forall_keep; [by repeat constructor|].
  apply sub_runs_from_Forall; [by repeat constructor|].
  intros c H. by apply negb_false_iff.
Qed.

Lemma sanitized_separated name : ws_separated (sanitized name) = true.
Proof.
  unfold sanitized, strip. apply ws_separated_rstrip, ws_separated_lstrip.
  apply sub_runs_space_separated.
Qed.

(** C10. For every input the sanitizer, called with the default bound of
    160 characters, returns a string that is not empty, has at most 160
    characters, holds only ASCII letters, digits, '.', '_', '-' and
    spaces, and has no two adjacent spaces; the empty input, and every
    input that reduces to nothing, yields "untitled". *)
Theorem safe_filename_sanitizes (name : str) :
  safe_filename name default_max_len ≠ [] ∧
  length (safe_filename name default_max_len) ≤ 160 ∧
  Forall (λ c, safe_char c = true) (safe_filename name default_max_len) ∧
  single_spaces (safe_filename name default_max_len) = true ∧
  safe_filename [] default_max_len = py "untitled" ∧
  (sanitized name = [] → safe_filename name default_max_len = py "untitled").
Proof.
  unfold safe_filename, default_max_len.
  pose proof (sanitized_safe name) as Hsafe.
  pose proof (sanitized_separated name) as Hsep.
  pose proof (strip_head (sub_runs is_space (py " ")
     (_SAFE_FILENAME_RE_sub (remove_char 0%N (strip name))))) as Hhead.
  change (strip _) with (sanitized name) in Hhead.
  destruct (sanitized name) as [|c r] eqn:E.
  - split_and!; try done.
    + vm_compute. lia.
    + by repeat constructor.
  - split_and!; try done.
    + destruct (Nat.ltb_spec 160 (length (c :: r))); [|done].
      simpl in Hhead. change (take 160 (c :: r)) with (c :: take 159 r).
      destruct (rstrip_cons_keep c (take 159 r) Hhead) as [r' ->]. done.
    + destruct (Nat.ltb_spec 160 (length (c :: r))); [|lia].
      etrans; [apply rstrip_length|]. rewrite length_take. lia.
    + destruct (Nat.ltb_spec 160 (length (c :: r))); [|done].
      apply rstrip_Forall, Forall_take. done.
    + apply ws_separated_single.
      destruct (Nat.ltb_spec 160 (length (c :: r))); [|done].
      by apply ws_separated_rstrip, ws_separated_take.
Qed.
End UtilFacts.

(** ** library.py: the layout of the content store *)

Module LibraryFacts.
Import Library.

Definition no_slash (s : str) : Prop := Forall (λ c, c ≠ 47%N) s.

Lemma split_slash_plain acc s : no_slash s → split_slash acc s = [reverse acc ++ s].
Proof.
  intros H. revert acc. induction H as [|c s Hc Hs IH]; intros acc; simpl.
  - by rewrite app_nil_r.
  - destruct (N.eqb_spec c 47); [done|]. rewrite IH, reverse_cons, <-app_assoc. done.
Qed.

Lemma Path_of_plain s :
  no_slash s → s ≠ [] → s ≠ py "." → Path_of s = {| root := []; parts := [s] |}.
Proof.
  intros Hs Hne Hdot. unfold Path_of, segments. rewrite split_slash_plain by done.
  simpl. f_equal.
  - destruct Hs as [|c s Hc _]; [done|]. unfold parse_root.
    destruct c as [|p]; [done|]. 
    destruct (decide (N.pos p = 47%N)); [done|].
    repeat (destruct p as [p|p|]; try done).
  - rewrite filter_cons_True by done. done.
Qed.

Lemma hex_no_slash s : Forall (λ c, is_hex c = true) s → no_slash s.
Proof.
  intros H. eapply Forall_impl; [exact H|]. intros c Hc ->. done.
Qed.

(** The location as the specification words it: the two fan-out
    directories, then the digest itself as the file name. *)
Definition claimed_location (self : Library) (h : str) : Path :=
  {| root := root (lib_root self);
     parts := parts (lib_root self) ++ [py "vault"; take 2 h; take 2 (drop 2 h); h] |}.

(** C9 (amended). For every hexadecimal digest of at least four
    characters the store location is, under the vault directory, the
    directory named by the first two characters, then the one named by the
    next two, then the file named by the digest followed by ".pdf". *)
Theorem vault_path_for_hash_layout (self : Library) (h : str) :
  Forall (λ c, is_hex c = true) h → 4 ≤ length h →
  vault_path_for_hash self h =
    {| root := root (lib_root self);
       parts := parts (lib_root self)
                ++ [py "vault"; take 2 h; take 2 (drop 2 h); h ++ py ".pdf"] |}.
Proof.
  intros Hhex Hlen. pose proof (hex_no_slash h Hhex) as Hns.
  unfold vault_path_for_hash, vault_dir, div.
  assert (Hlen1 : length (take 2 h) = 2) by (rewrite length_take; lia).
  assert (Hlen2 : length (take 2 (drop 2 h)) = 2) by (rewrite length_take, length_drop; lia).
  rewrite (Path_of_plain (take 2 h)), (Path_of_plain (take 2 (drop 2 h))),
    (Path_of_plain (h ++ py ".pdf")).
  - change (Path_of (py "vault")) with {| root := []; parts := [py "vault"] |}.
    unfold joinpath; simpl. by rewrite <- !app_assoc.
  - apply Forall_app; split; [done | by repeat constructor].
  - intros E. apply (f_equal length) in E. rewrite length_app in E. simpl in E. lia.
  - intros E. apply (f_equal length) in E. rewrite length_app in E. simpl in E. lia.
  - by apply Forall_take, Forall_drop.
  - intros E. rewrite E in Hlen2. done.
  - intros E. rewrite E in Hlen2. done.
  - by apply Forall_take.
  - intros E. rewrite E in Hlen1. done.
  - intros E. rewrite E in Hlen1. done.
Qed.

Lemma vault_path_for_hash_layout_witness :
  vault_path_for_hash Examples.library Examples.a_digest =
    {| root := py "/";
       parts := [py "home"; py "u"; py "PDF_Library"; py "vault"; py "e3"; py "b0";
                 Examples.a_digest ++ py ".pdf"] |}.
Proof.
  refine (eq_trans (vault_path_for_hash_layout Examples.library Examples.a_digest _ _) _).
  - by vm_compute; repeat constructor.
  - vm_compute; lia.
  - reflexivity.
Defined.

(** C9 (as stated) fails: the file name is not the digest itself. *)
Lemma vault_filename_is_not_the_digest :
  Forall (λ c, is_hex c = true) Examples.a_digest ∧ length Examples.a_digest = 64 ∧
  vault_path_for_hash Examples.library Examples.a_digest ≠ claimed_location Examples.library Examples.a_digest ∧
  path_name (vault_path_for_hash Examples.library Examples.a_digest) ≠ Examples.a_digest.
Proof.
  split_and!.
  - vm_compute; repeat constructor.
  - reflexivity.
  - vm_compute. discriminate.
  - vm_compute. intros E. apply (f_equal length) in E. discriminate E.
Qed.
End LibraryFacts.

(** ** Comparisons of floats *)

Module FloatFacts.
Lemma SFcompare_antisym x y : SFcompare y x = CompOpp <$> SFcompare x y.
Proof.
  destruct x as [sx|sx| |sx mx ex], y as [sy|sy| |sy my ey]; simpl; try done;
    repeat match goal with |- context [if ?b then _ else _] => destruct b end;
    simpl; try done.
  all: rewrite (Z.compare_antisym ex ey); destruct (ex ?= ey)%Z; simpl; try done.
  all: rewrite Pos.compare_cont_antisym; simpl; by rewrite ?CompOpp_involutive.
Qed.

Lemma leb_not_ltb x y : PrimFloat.leb x y = true → PrimFloat.ltb y x = false.
Proof.
  rewrite FloatAxioms.leb_spec, FloatAxioms.ltb_spec. unfold SFleb, SFltb.
  rewrite (SFcompare_antisym (Prim2SF x) (Prim2SF y)).
  by destruct (SFcompare (Prim2SF x) (Prim2SF y)) as [[]|].
Qed.

(** A float that is at least 0.0 is a finite number or +infinity. *)
Lemma nonneg_finite_or_infinity x :
  PrimFloat.leb 0 x = true → PrimFloat.is_finite x = true ∨ x = infinity.
Proof.
  rewrite FloatAxioms.leb_spec. change (Prim2SF 0) with (S754_zero false).
  unfold PrimFloat.is_finite, PrimFloat.is_nan, PrimFloat.is_infinity.
  rewrite !FloatAxioms.eqb_spec, FloatAxioms.abs_spec.
  change (Prim2SF infinity) with (S754_infinity false).
  pose proof (SF2Prim_Prim2SF x) as Hx. unfold SFleb, SFeqb.
  destruct (Prim2SF x) as [s|[]| |[] m e]; simpl; try done.
  - intros _. by left.
  - intros _. right. by rewrite <- Hx.
  - intros _. left. by rewrite Z.compare_refl, Pos.compare_cont_refl.
Qed.

Lemma nonneg_step b s :
  PrimFloat.leb 0 b = true → PrimFloat.ltb b s = true → PrimFloat.leb 0 s = true.
Proof.
  rewrite !FloatAxioms.leb_spec, FloatAxioms.ltb_spec.
  change (Prim2SF 0) with (S754_zero false). unfold SFleb, SFltb.
  destruct (Prim2SF b) as [sb|sb| |sb mb eb], (Prim2SF s) as [ss|ss| |ss ms es]; simpl;
    repeat match goal with |- context [if ?x then _ else _] => destruct x end;
    simpl; done.
Qed.
End FloatFacts.

Module CategorizerFacts.
Import Categorizer.

Section Facts.
Context `{RT : Runtime}.

(** A reason that the loop can give to [best] does not start with the
    letter b. *)
Definition not_b (s : str) : Prop :=
  match s with
  | c :: _ => c ≠ 98%N
  | [] => True
  end.

Lemma not_b_startswith s : not_b s → startswith (py "below min_score") s = false.
Proof.
  destruct s as [|c s]; [done|]. intros H.
  change (py "below min_score") with (98%N :: py "elow min_score").
  cbn [startswith]. destruct (N.eqb_spec 98 c) as [<-|]; [by destruct H | done].
Qed.

Lemma channel_reasons base label hits acc :
  not_b label → label ≠ [] → Forall not_b acc.2 ∧ Forall (λ r, r ≠ []) acc.2 →
  Forall not_b (channel base label hits acc).2 ∧
  Forall (λ r, r ≠ []) (channel base label hits acc).2.
Proof.
  intros Hl Hne [H1 H2]. unfold channel. destruct hits as [|h hits]; [done|]. simpl.
  split; apply Forall_app; split; try done; repeat constructor.
  - destruct label; done.
  - destruct label; done.
Qed.

Lemma channels_reasons path_l base_l meta_l text_l cat :
  Forall not_b (channels path_l base_l meta_l text_l cat).2 ∧
  Forall (λ r, r ≠ []) (channels path_l base_l meta_l text_l cat).2.
Proof.
  unfold channels. repeat (apply channel_reasons; [by vm_compute | done |]).
  split; constructor.
Qed.

Lemma reason_of_not_b reasons :
  Forall not_b reasons → Forall (λ r, r ≠ []) reasons → not_b (reason_of reasons).
Proof.
  intros H1 H2. unfold reason_of.
  destruct reasons as [|r rs]; [by vm_compute|].
  apply Forall_cons in H1 as [Hr _]. apply Forall_cons in H2 as [Hne _].
  destruct r as [|c r]; [done|].
  replace (join (py ", ") ((c :: r) :: rs)) with (c :: match rs with [] => r | _ => r ++ py ", " ++ join (py ", ") rs end)
    by (by destruct rs).
  done.
Qed.

(** The invariant of the loop over the rules. *)
Definition best_ok (best : Categorization) : Prop :=
  PrimFloat.leb 0 (score best) = true ∧ not_b (reason best).

Lemma rule_step_ok path_l base_l meta_l text_l pc best cat :
  best_ok best → best_ok (rule_step path_l base_l meta_l text_l pc best cat).
Proof.
  intros [Hs Hr]. unfold rule_step.
  destruct (strip (default [] (name cat))) as [|c nm]; [done|].
  destruct (outside_pages pc cat); [done|].
  pose proof (channels_reasons path_l base_l meta_l text_l cat) as [H1 H2].
  destruct (channels path_l base_l meta_l text_l cat) as [score0 reasons]. simpl in *.
  destruct (PrimFloat.ltb _ _) eqn:E; [|done].
  split; simpl.
  - by eapply FloatFacts.nonneg_step.
  - by apply reason_of_not_b.
Qed.

Lemma foldl_rule_step_ok path_l base_l meta_l text_l pc cats best :
  best_ok best → best_ok (foldl (rule_step path_l base_l meta_l text_l pc) best cats).
Proof.
  revert best. induction cats as [|cat cats IH]; intros best H; [done|].
  simpl. apply IH. by apply rule_step_ok.
Qed.

(** The two ways [categorize] returns. *)
Lemma categorize_cases cfg a :
  (∃ best, best_ok best ∧ PrimFloat.ltb (score best) (cfg_min_score cfg) = true ∧
           categorize cfg a =
             {| category := cfg_default_category cfg; score := score best;
                reason := py "below min_score; defaulted" |}) ∨
  (best_ok (categorize cfg a) ∧
   PrimFloat.ltb (score (categorize cfg a)) (cfg_min_score cfg) = false).
Proof.
  unfold categorize.
  match goal with |- context [foldl (rule_step ?p ?b ?m ?t ?pc) ?b0 ?l] =>
    pose proof (foldl_rule_step_ok p b m t pc l b0
                  ltac:(by split; vm_compute)) as Hok;
    set (best := foldl (rule_step p b m t pc) b0 l) in *
  end.
  destruct (PrimFloat.ltb (score best) (cfg_min_score cfg)) eqn:E; eauto.
Qed.

End Facts.
End CategorizerFacts.




Module CatalogFacts.
Import Catalog.

Section Facts.
Context `{RT : Runtime} `{W : Llm.World}.

Lemma str_eqb_eq (a b : str) : str_eqb a b = true ↔ a = b.
Proof. unfold str_eqb. apply bool_decide_eq_true. Qed.

Lemma str_eqb_ne (a b : str) : str_eqb a b = false ↔ a ≠ b.
Proof. unfold str_eqb. apply bool_decide_eq_false. Qed.

(** Validation leaves one of the two provider names. *)
Lemma settings_of_provider o L :
  settings_of o = Valid L → provider L = py "off" ∨ provider L = py "uzu".
Proof.
  unfold settings_of.
  destruct (bool_decide (_ ∈ [py "off"; py "uzu"])) eqn:E; [|done].
  destruct (bool_decide (_ ∈ [py "fallback"; py "always"])); [|done].
  destruct (bool_decide (_ ∈ [py "basename"; py "tail"; py "full"])); [|done].
  simpl. intros [= <-]. simpl.
  apply bool_decide_eq_true in E. revert E. rewrite !elem_of_cons, elem_of_nil. tauto.
Qed.

(** A call of the classifier with the provider "uzu" sends exactly one
    request, whatever the reply. *)
Lemma classify_sends_one L cfg doc log :
  provider L = py "uzu" → ∃ req, (classify L cfg doc log).2 = log ++ [req].
Proof.
  intros HL. unfold classify, Llm.llm_classify_category. rewrite HL.
  change (negb (str_eqb (py "uzu") (py "uzu"))) with false. cbv iota.
  unfold mbind, Llm.M_bind, Llm.classify_with_uzu.
  eexists. destruct (Llm.uzu_reply log _) as [raw|e]; [|reflexivity].
  unfold Llm.lift. destruct (Llm._extract_json_object raw); reflexivity.
Qed.

(** The requests sent while one document is decided. *)
Lemma categorize_one_requests L cfg doc log :
  provider L = py "uzu" →
  (should_call_llm L cfg (Categorizer.categorize cfg (attributes doc)) = true →
   ∃ req, (categorize_one L cfg doc log).2 = log ++ [req]) ∧
  (should_call_llm L cfg (Categorizer.categorize cfg (attributes doc)) = false →
   (categorize_one L cfg doc log).2 = log).
Proof.
  intros HL. unfold categorize_one. rewrite HL.
  change (negb (str_eqb (py "uzu") (py "off"))) with true.
  split; intros ->; cbn [andb]; cbv beta iota; [|done].
  destruct (classify_sends_one L cfg doc log HL) as [req Hreq].
  exists req. unfold Llm.try_except, mbind, Llm.M_bind, Llm.ret.
  revert Hreq. generalize (classify L cfg doc log).
  intros [[res|e] log'] Hlog; simpl in *; subst log'; [|done].
  by destruct (PrimFloat.leb (min_confidence L) (Llm.confidence res)).
Qed.

End Facts.
End CatalogFacts.

Module CategorizerClaims.
Import Categorizer CategorizerFacts.

(** C8 (amended). For every document and every rule set, negative
    priorities included, the score of the returned Categorization is at
    least 0.0 in the order of binary64, so it is neither negative nor a
    NaN: it is a non-negative real number or +infinity. *)
Theorem categorize_score_nonneg `{RT : Runtime} (cfg : Config) (a : Attributes) :
  PrimFloat.leb 0 (score (categorize cfg a)) = true ∧
  (PrimFloat.is_finite (score (categorize cfg a)) = true ∨
   score (categorize cfg a) = infinity).
Proof.
  assert (H : PrimFloat.leb 0 (score (categorize cfg a)) = true).
  { destruct (categorize_cases cfg a) as [(best & [Hs _] & _ & ->)|[[Hs _] _]]; done. }
  split; [done|]. by apply FloatFacts.nonneg_finite_or_infinity.
Qed.

(** C8 (as stated) fails: the score need not be a real number. The JSON
    number 1e999 is read as +infinity, and a rule with that priority gives
    the score +infinity. *)
Theorem infinite_priority_gives_infinite_score :
  json_loads (py "1e999") = Some (PFloat infinity) ∧
  categorize MoreExamples.infinite_cfg Examples.notes =
    {| category := py "Archive"; score := infinity; reason := py "matched category" |} ∧
  PrimFloat.is_finite (score (categorize MoreExamples.infinite_cfg Examples.notes)) = false.
Proof. split_and!; vm_compute; reflexivity. Qed.

(** C3 (what the code does). No keyword channel of any rule of the sample
    rule set matches the sample document, and the scorer returns the
    default category with the reason "below min_score; defaulted" and the
    score of the priority term; with no rule at all the score is 0 and the
    reason is still "below min_score; defaulted"; and a rule with a large
    priority wins the document without any keyword, with the reason
    "matched category". *)
Theorem no_match_reports_below_min_score :
  Forall (no_channel_matches Examples.notes) (categories Examples.cfg) ∧
  categorize Examples.cfg Examples.notes =
    {| category := py "Unsorted"; score := (0 + 10 * tie_break)%float;
       reason := py "below min_score; defaulted" |} ∧
  PrimFloat.eqb (score (categorize Examples.cfg Examples.notes)) 0 = false ∧
  categorize Examples.empty_cfg Examples.notes =
    {| category := py "Unsorted"; score := 0%float;
       reason := py "below min_score; defaulted" |} ∧
  Forall (no_channel_matches Examples.notes) (categories Examples.heavy_cfg) ∧
  categorize Examples.heavy_cfg Examples.notes =
    {| category := py "Archive"; score := (0 + 5000000 * tie_break)%float;
       reason := py "matched category" |}.
Proof.
  split_and!.
  - repeat constructor.
  - vm_compute. reflexivity.
  - vm_compute. reflexivity.
  - vm_compute. reflexivity.
  - repeat constructor.
  - vm_compute. reflexivity.
Qed.

End CategorizerClaims.

Module CatalogClaims.
Import Catalog CatalogFacts.

(** C1. With an LLM provider enabled and the mode "fallback", the engine
    sends a request to the provider while it decides a document exactly
    when the rule result has the default category, or a reason that starts
    with "below min_score", or a score below min_score. A rule result with
    a score of at least min_score and another category sends none; a rule
    result at the default category sends exactly one. *)
Theorem fallback_gating `{RT : Runtime} `{W : Llm.World}
    (o : Options) (L : Settings) (cfg : Categorizer.Config) (doc : Document)
    (log : list Llm.Request) :
  settings_of o = Valid L →
  provider L ≠ py "off" →
  mode L = py "fallback" →
  let rules := Categorizer.categorize cfg (attributes doc) in
  let inconclusive :=
    Categorizer.category rules = Categorizer.cfg_default_category cfg
    ∨ startswith (py "below min_score") (Categorizer.reason rules) = true
    ∨ PrimFloat.ltb (Categorizer.score rules) (Categorizer.cfg_min_score cfg) = true in
  (inconclusive → ∃ req, (categorize_one L cfg doc log).2 = log ++ [req]) ∧
  (¬ inconclusive → (categorize_one L cfg doc log).2 = log) ∧
  (PrimFloat.leb (Categorizer.cfg_min_score cfg) (Categorizer.score rules) = true →
   Categorizer.category rules ≠ Categorizer.cfg_default_category cfg →
   (categorize_one L cfg doc log).2 = log) ∧
  (Categorizer.category rules = Categorizer.cfg_default_category cfg →
   ∃ req, (categorize_one L cfg doc log).2 = log ++ [req]).
Proof.
  intros Hvalid Hoff Hmode rules inconclusive.
  assert (HL : provider L = py "uzu")
    by (destruct (settings_of_provider o L Hvalid); done).
  destruct (categorize_one_requests L cfg doc log HL) as [Hcall Hskip].
  fold rules in Hcall, Hskip.
  assert (Hiff : should_call_llm L cfg rules = true ↔ inconclusive).
  { unfold should_call_llm, inconclusive. rewrite Hmode.
    change (str_eqb (py "fallback") (py "fallback")) with true. cbv iota.
    rewrite !orb_true_iff, str_eqb_eq. tauto. }
  split_and!.
  - intros H. by apply Hcall, Hiff.
  - intros H. apply Hskip, not_true_iff_false. intros E. by apply H, Hiff.
  - intros Hscore Hcat. apply Hskip, not_true_iff_false. intros E.
    apply Hiff in E as [E|[E|E]]; [done| |].
    + destruct (CategorizerFacts.categorize_cases cfg (attributes doc))
        as [(best & _ & Hlt & Heq)|[[_ Hb] _]].
      * fold rules in Heq. rewrite Heq in Hscore. simpl in Hscore.
        apply FloatFacts.leb_not_ltb in Hscore. congruence.
      * fold rules in Hb. apply CategorizerFacts.not_b_startswith in Hb. congruence.
    + apply FloatFacts.leb_not_ltb in Hscore. congruence.
  - intros H. apply Hcall, Hiff. by left.
Qed.

Lemma fallback_gating_witness :
  (∃ req, (@categorize_one Reference.runtime (Examples.scripted [])
             Examples.settings Examples.cfg Examples.doc_notes []).2 = [] ++ [req]) ∧
  (@categorize_one Reference.runtime (Examples.scripted [])
     Examples.settings Examples.cfg Examples.doc_invoice []).2 = [].
Proof.
  split.
  - apply (fallback_gating (RT := Reference.runtime) (W := Examples.scripted [])
             Examples.options Examples.settings Examples.cfg Examples.doc_notes []).
    + vm_compute. reflexivity.
    + vm_compute. discriminate.
    + reflexivity.
    + vm_compute. reflexivity.
  - apply (fallback_gating (RT := Reference.runtime) (W := Examples.scripted [])
             Examples.options Examples.settings Examples.cfg Examples.doc_invoice []).
    + vm_compute. reflexivity.
    + vm_compute. discriminate.
    + reflexivity.
    + vm_compute. reflexivity.
    + vm_compute. discriminate.
Defined.

(** C5. When the engine consults the LLM for a document and the classifier
    returns a result, the result replaces the rule result exactly when its
    confidence is at least the configured minimum: the final score is then
    10 times the confidence and the reason names provider, model and
    confidence; otherwise category and score of the rule result are kept
    and a low-confidence note is appended to its reason. *)
Theorem llm_confidence_gate `{RT : Runtime} `{W : Llm.World}
    (L : Settings) (cfg : Categorizer.Config) (doc : Document)
    (log log' : list Llm.Request) (res : Llm.LLMClassification) :
  provider L ≠ py "off" →
  should_call_llm L cfg (Categorizer.categorize cfg (attributes doc)) = true →
  classify L cfg doc log = (Llm.Return res, log') →
  let rules := Categorizer.categorize cfg (attributes doc) in
  (categorize_one L cfg doc log).1 =
    Llm.Return
      (if PrimFloat.leb (min_confidence L) (Llm.confidence res) then
         {| final :=
              {| Categorizer.category := Llm.category res;
                 Categorizer.score := (10 * Llm.confidence res)%float;
                 Categorizer.reason :=
                   py "llm:" ++ provider L ++ py "/" ++ model L ++ py " conf="
                     ++ format_2f (Llm.confidence res) ++ py "; " ++ Llm.reason res |};
            called := true; used := true; failed := false |}
       else
         {| final :=
              {| Categorizer.category := Categorizer.category rules;
                 Categorizer.score := Categorizer.score rules;
                 Categorizer.reason :=
                   Categorizer.reason rules ++ py " | llm:" ++ provider L ++ py "/"
                     ++ model L ++ py " low_conf=" ++ format_2f (Llm.confidence res) |};
            called := true; used := false; failed := false |}).
Proof.
  intros Hoff Hcall Hres rules. unfold categorize_one. fold rules in Hcall |- *.
  rewrite Hcall. apply str_eqb_ne in Hoff. rewrite Hoff. cbn [andb negb].
  unfold Llm.try_except, mbind, Llm.M_bind, Llm.ret. cbv beta. rewrite Hres.
  by destruct (PrimFloat.leb (min_confidence L) (Llm.confidence res)).
Qed.

Lemma llm_confidence_gate_witness :
  (@categorize_one Reference.runtime
     (Examples.scripted [Llm.Return Examples.reply_unsure])
     Examples.settings Examples.cfg Examples.doc_notes []).1 =
    Llm.Return
      {| final :=
           {| Categorizer.category := py "Unsorted";
              Categorizer.score := (0 + 10 * Categorizer.tie_break)%float;
              Categorizer.reason :=
                py "below min_score; defaulted | llm:uzu/qwen3-3b low_conf=0.30" |};
         called := true; used := false; failed := false |}.
Proof.
  refine (eq_trans
            (llm_confidence_gate (RT := Reference.runtime)
               (W := Examples.scripted [Llm.Return Examples.reply_unsure])
               Examples.settings Examples.cfg Examples.doc_notes [] _ _ _ _ _) _).
  - vm_compute. discriminate.
  - vm_compute. reflexivity.
  - vm_compute. reflexivity.
  - vm_compute. reflexivity.
Defined.

End CatalogClaims.

Module LlmClaims.
Import Llm.



Section Facts.
Context `{RT : Runtime} `{W : World}.

(** What the classifier returns for a reply whose category is a string
    outside the allow-list: the default category, with the confidence of
    the reply clamped to [0, 1], not 0. *)
Lemma classify_parsed_unmatched normalized default_category raw elapsed_s parsed c :
  dict_get parsed (py "category") = Some (PStr c) →
  normalized !! _normalize_category_name c = None →
  category (classify_parsed normalized default_category raw elapsed_s parsed)
    = default_category ∧
  confidence (classify_parsed normalized default_category raw elapsed_s parsed)
    = py_max 0 (py_min 1 (default 0%float
                            (py_float (dict_get parsed (py "confidence"))))).
Proof.
  intros Hc Hn. unfold classify_parsed. rewrite Hc, Hn. done.
Qed.

End Facts.

(** C4 (what the code does). The reply names the category "Bogus", which
    matches no entry of the allow-list after normalization; the classifier
    returns the default category with the confidence 0.9 and the reason of
    the reply, and the engine accepts it with the score 9. For a reply
    whose category is a number the classifier returns the confidence 0 and
    the reason "missing/invalid category; defaulted". *)
Theorem unmatched_category_keeps_confidence :
  normalized_map (dedupe [] (Catalog.category_names Examples.cfg ++ [py "Unsorted"]))
    !! _normalize_category_name (py "Bogus") = None ∧
  (@Catalog.classify Reference.runtime
     (Examples.scripted [Return Examples.reply_bogus])
     Examples.settings Examples.cfg Examples.doc_notes []).1 =
    Return {| category := py "Unsorted";
              confidence := 0x1.ccccccccccccdp-1%float;
              reason := py "looks like a manual";
              raw_text := Examples.reply_bogus |} ∧
  (@Catalog.classify Reference.runtime
     (Examples.scripted [Return Examples.reply_number])
     Examples.settings Examples.cfg Examples.doc_notes []).1 =
    Return {| category := py "Unsorted";
              confidence := 0%float;
              reason := py "missing/invalid category; defaulted";
              raw_text := Examples.reply_number |} ∧
  Catalog.final <$>
    (match (@Catalog.categorize_one Reference.runtime
              (Examples.scripted [Return Examples.reply_bogus])
              Examples.settings Examples.cfg Examples.doc_notes []).1 with
     | Return d => Some d
     | Raise _ => None
     end) =
    Some {| Categorizer.category := py "Unsorted";
            Categorizer.score := 9%float;
            Categorizer.reason := py "llm:uzu/qwen3-3b conf=0.90; looks like a manual" |}.
Proof.
  split_and!; vm_compute; reflexivity.
Qed.

End LlmClaims.

Module ScannerClaims.
Import Scanner.

(** An update of the row that is there is an insertion of the new row. *)
Lemma alter_present {A} (f : A → A) (m : gmap str A) (k : str) (x : A) :
  m !! k = Some x → alter f k m = <[k := f x]> m.
Proof.
  intros H. apply map_eq. intros i. destruct (decide (k = i)) as [->|Hne].
  - by rewrite lookup_alter_eq, lookup_insert_eq, H.
  - by rewrite lookup_alter_ne, lookup_insert_ne.
Qed.

(** C6 (amended). In a pass that is not a dry run, a path whose row has
    the status ok and the observed size and modification time is only
    touched: its row changes in last_seen_at alone, the documents and the
    content store are unchanged, nothing is copied or hashed, and the
    counters discovered and skipped_unchanged each advance by one while
    the others stay. *)
Theorem unchanged_source_is_only_touched `{RT : Runtime}
    (library : Library.Library) (now : float) (s : State) (f : Found)
    (st : Stat) (rec : Db.SourceRow) (t : float) :
  stat f = IoOk st →
  Db.get_source (conn s) (src_str f) = Some rec →
  Db.status rec = py "ok" →
  Db.source_size rec = Some (st_size st) →
  Db.source_mtime rec = Some t →
  PrimFloat.eqb t (st_mtime st) = true →
  scan_one library now s f =
    {| conn :=
         {| Db.source_files :=
              <[src_str f :=
                  {| Db.source_basename := Db.source_basename rec;
                     Db.source_size := Db.source_size rec;
                     Db.source_mtime := Db.source_mtime rec;
                     Db.hash := Db.hash rec;
                     Db.first_seen_at := Db.first_seen_at rec;
                     Db.last_seen_at := now;
                     Db.status := Db.status rec;
                     Db.error := Db.error rec |}]> (Db.source_files (conn s));
            Db.documents := Db.documents (conn s) |};
       vault := vault s;
       hashed := hashed s;
       stats :=
         {| discovered := discovered (stats s) + 1;
            skipped_unchanged := skipped_unchanged (stats s) + 1;
            copied_new := copied_new (stats s);
            deduped_existing := deduped_existing (stats s);
            errors := errors (stats s) |} |}.
Proof.
  intros Hstat Hrec Hok Hsize Hmtime Heq.
  assert (Hun : unchanged (Some rec) st = true).
  { unfold unchanged. rewrite Hok, Hsize, Hmtime, Heq, Z.eqb_refl. reflexivity. }
  unfold scan_one. rewrite Hstat, Hrec, Hun.
  unfold Db.touch_source_seen, Db.set_source_files.
  by rewrite (alter_present _ _ _ rec Hrec).
Qed.

Lemma unchanged_source_is_only_touched_witness :
  stats (scan_one Examples.library 2000%float Examples.scanned_once Examples.found_invoice)
    = {| discovered := 2; skipped_unchanged := 1; copied_new := 1;
         deduped_existing := 0; errors := 0 |}.
Proof.
  refine (eq_trans (f_equal stats
    (unchanged_source_is_only_touched (RT := Reference.runtime)
             Examples.library 2000%float Examples.scanned_once Examples.found_invoice
             {| st_size := 27; st_mtime := 1700000000.5%float |}
             {| Db.source_basename := Some (py "Invoice_2025.pdf");
                Db.source_size := Some 27%Z;
                Db.source_mtime := Some 1700000000.5%float;
                Db.hash := Some (sha256_hexdigest (py "Invoice Total Due: $123.45 "));
                Db.first_seen_at := 1000%float;
                Db.last_seen_at := 1000%float;
                Db.status := py "ok";
                Db.error := None |}
             1700000000.5%float _ _ _ _ _ _)) _).
  - reflexivity.
  - vm_compute. reflexivity.
  - reflexivity.
  - reflexivity.
  - reflexivity.
  - vm_compute. reflexivity.
  - vm_compute. reflexivity.
Defined.

(** C6 (as stated) fails: for a path that is unchanged the counter
    discovered advances too, so skipped_unchanged is not the only counter
    that is incremented. *)
Lemma unchanged_source_is_also_discovered :
  unchanged (Db.get_source (conn Examples.scanned_once)
               (src_str Examples.found_invoice))
            {| st_size := 27; st_mtime := 1700000000.5%float |} = true ∧
  stats (scan_one Examples.library 2000%float Examples.scanned_once Examples.found_invoice)
    ≠ add_skipped_unchanged (stats Examples.scanned_once) ∧
  discovered (stats (scan_one Examples.library 2000%float Examples.scanned_once
                       Examples.found_invoice))
    = discovered (stats Examples.scanned_once) + 1.
Proof.
  split_and!; vm_compute; [reflexivity | discriminate | reflexivity].
Qed.

End ScannerClaims.

(** ** The scenarios of the specification, on the reference runtime *)

Module Scenarios.
Import Examples.

Lemma count_discovered_only {A} (found : list A) (st : Scanner.Stats) :
  Scanner.skipped_unchanged (foldl (λ st _, Scanner.add_discovered st) st found)
    = Scanner.skipped_unchanged st.
Proof.
  revert st. induction found as [|f found IH]; intros st; [done|].
  simpl. by rewrite IH.
Qed.

(** A dry run counts the paths and reads nothing: manifest, store and
    hashing log are the ones given. *)
Lemma dry_run_touches_nothing `{RT : Runtime} library method now s found s' :
  Scanner.scan_and_copy library method true now s found = Catalog.Valid s' →
  Scanner.conn s' = Scanner.conn s ∧ Scanner.vault s' = Scanner.vault s ∧
  Scanner.hashed s' = Scanner.hashed s ∧
  Scanner.skipped_unchanged (Scanner.stats s') = 0.
Proof.
  unfold Scanner.scan_and_copy. case_match; [done|]. intros [= <-]. simpl.
  split_and!; try done. by rewrite count_discovered_only.
Qed.

(** The state a pass returns; the given state when the method is refused. *)
Definition state_after (s : Scanner.State) (r : Catalog.checked Scanner.State)
    : Scanner.State :=
  match r with
  | Catalog.Valid s' => s'
  | Catalog.ValueError _ => s
  end.

Definition first_pass : Scanner.State :=
  state_after empty_state
    (Scanner.scan_and_copy library (py "walk") false 1000%float empty_state
       [found_invoice; found_manual]).

Definition second_pass : Scanner.State :=
  state_after first_pass
    (Scanner.scan_and_copy library (py "walk") false 2000%float first_pass
       [found_invoice; found_manual]).

(** Idempotence: a second pass over an unchanged tree skips every path
    and copies nothing. *)
Example second_pass_skips_everything :
  Scanner.stats first_pass =
    {| Scanner.discovered := 2; Scanner.skipped_unchanged := 0;
       Scanner.copied_new := 2; Scanner.deduped_existing := 0;
       Scanner.errors := 0 |} ∧
  Scanner.stats second_pass =
    {| Scanner.discovered := 2; Scanner.skipped_unchanged := 2;
       Scanner.copied_new := 0; Scanner.deduped_existing := 0;
       Scanner.errors := 0 |} ∧
  Scanner.vault second_pass = Scanner.vault first_pass ∧
  Scanner.hashed second_pass = Scanner.hashed first_pass.
Proof. split_and!; vm_compute; reflexivity. Qed.

Definition pass_with_copy : Scanner.State :=
  state_after empty_state
    (Scanner.scan_and_copy library (py "walk") false 1000%float empty_state
       [found_invoice; found_copy]).

(** Dedup: two paths with the same bytes give one document and two source
    rows with the same digest. *)
Example same_bytes_one_document :
  size (Db.documents (Scanner.conn pass_with_copy)) = 1 ∧
  size (Db.source_files (Scanner.conn pass_with_copy)) = 2 ∧
  (Db.hash <$> Db.get_source (Scanner.conn pass_with_copy) (Scanner.src_str found_invoice))
    = (Db.hash <$> Db.get_source (Scanner.conn pass_with_copy) (Scanner.src_str found_copy)) ∧
  Scanner.copied_new (Scanner.stats pass_with_copy) = 1 ∧
  Scanner.deduped_existing (Scanner.stats pass_with_copy) = 1.
Proof. split_and!; vm_compute; reflexivity. Qed.

(** Threshold: with min_score 4, a single path-keyword hit scores 2 and
    the document is left at the default category. *)
Example single_path_hit_is_below_threshold :
  Categorizer.categorize threshold_cfg notes =
    {| Categorizer.category := py "Unsorted"; Categorizer.score := 2%float;
       Categorizer.reason := py "below min_score; defaulted" |}.
Proof. vm_compute. reflexivity. Qed.

(** Tolerance: the fenced reply with single quotes yields the category and
    the confidence 0.8. *)
Example fenced_reply_is_recovered :
  Llm._extract_json_object reply_fenced =
    Llm.Return [ (PStr (py "category"), PStr (py "Manuals & Guides"));
                 (PStr (py "confidence"), PFloat 0x1.999999999999ap-1%float) ].
Proof. vm_compute. reflexivity. Qed.

(** The batch of the end-to-end scenario, started with no request sent. *)
Definition always_batch : Llm.outcome Catalog.State * list Llm.Request :=
  match @Catalog.categorize_library Reference.runtime (scripted scenario_replies)
          always_options cfg 3000%float (Scanner.conn first_pass) scenario_docs with
  | Catalog.Valid run => run []
  | Catalog.ValueError e => (Llm.Raise e, [])
  end.

(** End to end: with the mode "always" and the two scripted replies the
    batch reports two calls, both used, none failed, and the manifest holds
    the two categories. *)
Example always_mode_batch :
  (match always_batch.1 with
   | Llm.Return st => Some (Catalog.stats st)
   | Llm.Raise _ => None
   end) =
    Some {| Catalog.docs_categorized := 2; Catalog.llm_calls := 2;
            Catalog.llm_used := 2; Catalog.llm_failed := 0 |} ∧
  length always_batch.2 = 2 ∧
  (match always_batch.1 with
   | Llm.Return st =>
       (λ d, Db.get_document (Catalog.conn st) (Catalog.hash_hex d) ≫= Db.category)
         <$> scenario_docs
   | Llm.Raise _ => []
   end) = [Some (py "Receipts & Invoices"); Some (py "Manuals & Guides")].
Proof. split_and!; vm_compute; reflexivity. Qed.

End Scenarios.

(* ===================================================================== *)
(** * Further properties of the code                                    *)
(* ===================================================================== *)

(** ** Floats and the reference runtime *)

Module FloatLemmas.
Lemma ltb_irrefl x : PrimFloat.ltb x x = false.
Proof.
  rewrite FloatAxioms.ltb_spec. unfold SFltb.
  destruct (Prim2SF x) as [s|s| |s m e]; simpl; try done.
  - by destruct s.
  - destruct s; rewrite Z.compare_refl, Pos.compare_cont_refl; done.
Qed.

Lemma SFcompare_Lt_trans x y z :
  SFcompare x y = Some Lt → SFcompare y z = Some Lt → SFcompare x z = Some Lt.
Proof.
  destruct x as [sx|sx| |sx mx ex], y as [sy|sy| |sy my ey], z as [sz|sz| |sz mz ez];
    simpl; try done;
    repeat match goal with |- context [if ?b then _ else _] => destruct b end;
    simpl; try done.
  all: destruct (Z.compare_spec ex ey), (Z.compare_spec ey ez); try done;
    destruct (Z.compare_spec ex ez); try done; try lia.
  all: subst.
  all: rewrite ?Pos.compare_cont_spec; simpl; unfold CompOpp;
    destruct (Pos.compare_spec mx my), (Pos.compare_spec my mz); try done;
    destruct (Pos.compare_spec mx mz); try done; try lia.
Qed.

Lemma ltb_trans x y z :
  PrimFloat.ltb x y = true → PrimFloat.ltb y z = true → PrimFloat.ltb x z = true.
Proof.
  rewrite !FloatAxioms.ltb_spec. unfold SFltb.
  destruct (SFcompare (Prim2SF x) (Prim2SF y)) as [[]|] eqn:E1; try done.
  destruct (SFcompare (Prim2SF y) (Prim2SF z)) as [[]|] eqn:E2; try done.
  by rewrite (SFcompare_Lt_trans _ _ _ E1 E2).
Qed.

Lemma ltb_leb x y : PrimFloat.ltb x y = true → PrimFloat.leb x y = true.
Proof.
  rewrite FloatAxioms.ltb_spec, FloatAxioms.leb_spec. unfold SFltb, SFleb.
  by destruct (SFcompare (Prim2SF x) (Prim2SF y)) as [[]|].
Qed.

(** [max(0.0, min(1.0, x))] lies between 0 and 1, also for a NaN. *)
Lemma clamp_range x :
  PrimFloat.leb 0 (py_max 0 (py_min 1 x)) = true ∧
  PrimFloat.leb (py_max 0 (py_min 1 x)) 1 = true.
Proof.
  unfold py_min, py_max. destruct (PrimFloat.ltb x 1) eqn:E1.
  - destruct (PrimFloat.ltb 0 x) eqn:E2.
    + split; by apply ltb_leb.
    + split; reflexivity.
  - change (PrimFloat.ltb 0 1) with true. cbv iota. split; reflexivity.
Qed.

End FloatLemmas.

Module ReferenceFacts.

Lemma space_not_upper c : is_space c = true → is_upper c = false.
Proof.
  unfold is_space, is_upper. intros H. apply not_true_iff_false. revert H.
  rewrite !orb_true_iff, !andb_true_iff, !N.leb_le, !N.eqb_eq. lia.
Qed.

Lemma lstrip_nil s : lstrip s = [] → Forall (λ c, is_space c = true) s.
Proof.
  induction s as [|c s IH]; [constructor|]. simpl.
  destruct (is_space c) eqn:E; [|done]. intros H. constructor; auto.
Qed.

Lemma strip_nil s : strip s = [] → Forall (λ c, is_space c = true) s.
Proof.
  unfold strip. intros H. apply lstrip_nil.
  pose proof (UtilFacts.lstrip_head s) as Hh.
  destruct (lstrip s) as [|c r]; [done|]. simpl in Hh.
  destruct (UtilFacts.rstrip_cons_keep c r Hh) as [r' E]. by rewrite E in H.
Qed.

(** Lower-casing of the reference runtime leaves a blank string as it is. *)
Lemma ascii_lower_blank s : strip s = [] → strip (Reference.ascii_lower s) = [].
Proof.
  intros H. assert (E : Reference.ascii_lower s = s); [|by rewrite E].
  apply strip_nil in H. unfold Reference.ascii_lower.
  induction H as [|c s Hc _ IH]; [done|]. rewrite fmap_cons, IH.
  by rewrite (space_not_upper c Hc).
Qed.

End ReferenceFacts.

(** ** util.py *)

Module UtilLemmas.
Import Util UtilFacts.

Lemma lstrip_fixed s : head_not_space s → lstrip s = s.
Proof. destruct s as [|c s]; [done|]. simpl. by intros ->. Qed.

Lemma rstrip_idem s : rstrip (rstrip s) = rstrip s.
Proof.
  induction s as [|c s IH]; [done|]. simpl.
  destruct (rstrip s) as [|d r] eqn:E.
  - destruct (is_space c) eqn:Ec; [done|]. simpl. by rewrite Ec.
  - change (rstrip (c :: d :: r)) with
      (match rstrip (d :: r) with [] => if is_space c then [] else [c] | x => c :: x end).
    by rewrite IH.
Qed.

Lemma strip_rstrip_fixed y : head_not_space y → strip (rstrip y) = rstrip y.
Proof.
  intros H. unfold strip. rewrite lstrip_fixed by by apply rstrip_head.
  apply rstrip_idem.
Qed.

Lemma safe_space c : safe_char c = true → is_space c = true → c = 32%N.
Proof.
  unfold safe_char, is_space, is_upper, is_lower, is_digit.
  rewrite !orb_true_iff, !andb_true_iff, !N.leb_le, !N.eqb_eq. lia.
Qed.

Lemma safe_not_nul c : safe_char c = true → c ≠ 0%N.
Proof. by intros H ->. Qed.

Lemma remove_nul_safe s :
  Forall (λ c, safe_char c = true) s → remove_char 0%N s = s.
Proof.
  unfold remove_char. induction 1 as [|c s Hc _ IH]; [done|].
  rewrite filter_cons_True by by apply safe_not_nul. by rewrite IH.
Qed.

Lemma safe_sub_fixed b s :
  Forall (λ c, safe_char c = true) s →
  sub_runs_from (λ c, negb (safe_char c)) (py "_") b s = s.
Proof.
  intros H. revert b. induction H as [|c s Hc _ IH]; intros b; [done|].
  simpl. rewrite Hc. simpl. by rewrite IH.
Qed.

Lemma space_sub_fixed b s :
  Forall (λ c, safe_char c = true) s → ws_separated s = true →
  (b = true → head_not_space s) →
  sub_runs_from is_space (py " ") b s = s.
Proof.
  intros H. revert b. induction H as [|c s Hc Hs IH]; intros b Hsep Hb; [done|].
  cbn [sub_runs_from]. destruct (is_space c) eqn:Ec.
  - assert (b = false) as -> by (destruct b; [by specialize (Hb eq_refl); simpl in Hb; congruence | done]).
    rewrite (safe_space c Hc Ec). simpl. f_equal.
    apply IH; [by eapply ws_separated_cons|]. intros _.
    destruct s as [|d s']; [done|]. simpl.
    change (negb (is_space c && is_space d) && ws_separated (d :: s') = true) in Hsep.
    rewrite Ec in Hsep. simpl in Hsep. apply andb_true_iff in Hsep as [Hd _].
    by apply negb_true_iff in Hd.
  - f_equal. apply IH; [by eapply ws_separated_cons | done].
Qed.

(** A stripped string of safe characters with single blanks is what the
    sanitizer leaves as it is. *)
Lemma sanitized_fixed y :
  head_not_space y → Forall (λ c, safe_char c = true) y → ws_separated y = true →
  sanitized (rstrip y) = rstrip y.
Proof.
  intros Hh Hs Hw. unfold sanitized, _SAFE_FILENAME_RE_sub, sub_runs.
  rewrite strip_rstrip_fixed by done.
  rewrite remove_nul_safe by by apply rstrip_Forall.
  rewrite safe_sub_fixed by by apply rstrip_Forall.
  rewrite space_sub_fixed; [by apply strip_rstrip_fixed | by apply rstrip_Forall
                           | by apply ws_separated_rstrip | done].
Qed.

Lemma head_not_space_take n s : head_not_space s → head_not_space (take n s).
Proof. destruct s, n; done. Qed.

(** The value of [name] before the length test. *)
Lemma named_cases name :
  let n := match sanitized name with [] => py "untitled" | _ => sanitized name end in
  n ≠ [] ∧ head_not_space n ∧ Forall (λ c, safe_char c = true) n ∧
  ws_separated n = true ∧ rstrip n = n.
Proof.
  pose proof (sanitized_safe name) as Hsafe.
  pose proof (sanitized_separated name) as Hsep.
  assert (Hhead : head_not_space (sanitized name)) by apply strip_head.
  assert (Hr : rstrip (sanitized name) = sanitized name) by apply rstrip_idem.
  destruct (sanitized name) as [|c r].
  - split_and!; try done. by vm_compute; repeat constructor.
  - split_and!; done.
Qed.

End UtilLemmas.

Module UtilProperties.
Import Examples MoreExamples.
Import Util UtilFacts UtilLemmas UtilPaths.

(** X1. The sanitizer is idempotent: a name it has produced passes through
    it unchanged, for every length bound. *)
Theorem safe_filename_idempotent (name : str) (max_len : nat) :
  safe_filename (safe_filename name max_len) max_len = safe_filename name max_len.
Proof.
  unfold safe_filename at 2 3. cbv zeta.
  destruct (named_cases name) as (Hne & Hhead & Hsafe & Hsep & Hr).
  set (n := match sanitized name with [] => py "untitled" | _ => sanitized name end) in *.
  assert (Hout : ∃ y, (if Nat.ltb max_len (length n) then rstrip (take max_len n) else n)
                        = rstrip y ∧
                      head_not_space y ∧ Forall (λ c, safe_char c = true) y ∧
                      ws_separated y = true ∧ length (rstrip y) ≤ max_len ∧
                      (rstrip y = [] → max_len = 0)).
  { destruct (Nat.ltb_spec max_len (length n)) as [Hlt|Hge].
    - exists (take max_len n). split_and!; try done.
      + by apply head_not_space_take.
      + by apply Forall_take.
      + by apply ws_separated_take.
      + etrans; [apply rstrip_length|]. rewrite length_take. lia.
      + destruct n as [|c r]; [done|]. destruct max_len as [|k]; [done|].
        simpl in Hhead. change (take (S k) (c :: r)) with (c :: take k r).
        destruct (rstrip_cons_keep c (take k r) Hhead) as [r' ->]. done.
    - exists n. rewrite Hr. split_and!; try done. }
  destruct Hout as (y & -> & Hy1 & Hy2 & Hy3 & Hlen & Hnil).
  unfold safe_filename. rewrite sanitized_fixed by done.
  destruct (rstrip y) as [|c r] eqn:E.
  - rewrite (Hnil eq_refl). reflexivity.
  - destruct (Nat.ltb_spec max_len (length (c :: r))); [lia | done].
Qed.

Lemma dedupe_keys_elem_of seen items k :
  k ∈ Library.path_str <$> dedupe_keep_order_from seen items ↔
  k ∈ Library.path_str <$> items ∧ k ∉ seen.
Proof.
  revert seen. induction items as [|p items IH]; intros seen; simpl.
  - rewrite elem_of_nil. tauto.
  - case_bool_decide as Hp.
    + rewrite IH, elem_of_cons. split; [tauto|]. intros [[->|?] ?]; tauto.
    + rewrite fmap_cons, !elem_of_cons, IH, elem_of_cons. split.
      * intros [->|[? ?]]; tauto.
      * intros [[->|?] ?]; [tauto|].
        destruct (decide (k = Library.path_str p)); tauto.
Qed.

Lemma dedupe_from_fixed seen items :
  NoDup (Library.path_str <$> items) →
  (∀ k, k ∈ Library.path_str <$> items → k ∉ seen) →
  dedupe_keep_order_from seen items = items.
Proof.
  revert seen. induction items as [|p items IH]; intros seen Hnd Hseen; [done|].
  rewrite fmap_cons in Hnd. apply NoDup_cons in Hnd as [Hp Hnd]. simpl.
  rewrite bool_decide_eq_false_2 by (apply Hseen; by left).
  f_equal. apply IH; [done|]. intros k Hk. rewrite not_elem_of_cons. split.
  - by intros ->.
  - apply Hseen. by right.
Qed.

Lemma dedupe_from_NoDup seen items :
  NoDup (Library.path_str <$> dedupe_keep_order_from seen items).
Proof.
  revert seen. induction items as [|p items IH]; intros seen; simpl; [constructor|].
  case_bool_decide; [apply IH|]. rewrite fmap_cons. constructor; [|apply IH].
  rewrite dedupe_keys_elem_of, elem_of_cons. tauto.
Qed.

Lemma dedupe_from_sublist seen items :
  dedupe_keep_order_from seen items `sublist_of` items.
Proof.
  revert seen. induction items as [|p items IH]; intros seen; simpl; [constructor|].
  case_bool_decide; [by apply sublist_cons | by apply sublist_skip].
Qed.

(** X2. The result of the path de-duplication has no two paths with the same
    text, keeps the paths in their order, represents every path that was
    given, and is a fixed point: a list without duplicates is returned as it
    is. *)
Theorem dedupe_keep_order_spec (items : list Library.Path) :
  NoDup (Library.path_str <$> dedupe_keep_order items) ∧
  dedupe_keep_order items `sublist_of` items ∧
  (∀ p, p ∈ items → Library.path_str p ∈ Library.path_str <$> dedupe_keep_order items) ∧
  dedupe_keep_order (dedupe_keep_order items) = dedupe_keep_order items.
Proof.
  unfold dedupe_keep_order. split_and!.
  - apply dedupe_from_NoDup.
  - apply dedupe_from_sublist.
  - intros p Hp. apply dedupe_keys_elem_of. split; [|by intros ?%elem_of_nil].
    by apply list_elem_of_fmap_2.
  - apply dedupe_from_fixed; [apply dedupe_from_NoDup|]. by intros k _ ?%elem_of_nil.
Qed.

End UtilProperties.

(** ** library.py *)

Module LibraryLemmas.
Import Library LibraryFacts.

(** The components of the location of a digest. *)
Lemma vault_path_for_hash_parts (self : Library) (h : str) :
  Forall (λ c, is_hex c = true) h → 4 ≤ length h →
  parts (vault_path_for_hash self h) =
    parts (lib_root self) ++ [py "vault"; take 2 h; take 2 (drop 2 h); h ++ py ".pdf"].
Proof.
  intros Hhex Hlen. pose proof (hex_no_slash h Hhex) as Hns.
  unfold vault_path_for_hash, vault_dir, div.
  assert (Hlen1 : length (take 2 h) = 2) by (rewrite length_take; lia).
  assert (Hlen2 : length (take 2 (drop 2 h)) = 2) by (rewrite length_take, length_drop; lia).
  rewrite (Path_of_plain (take 2 h)), (Path_of_plain (take 2 (drop 2 h))),
    (Path_of_plain (h ++ py ".pdf")).
  - change (Path_of (py "vault")) with {| root := []; parts := [py "vault"] |}.
    unfold joinpath; simpl. by rewrite <- !app_assoc.
  - apply Forall_app; split; [done | by repeat constructor].
  - intros E. apply (f_equal length) in E. rewrite length_app in E. simpl in E. lia.
  - intros E. apply (f_equal length) in E. rewrite length_app in E. simpl in E. lia.
  - by apply Forall_take, Forall_drop.
  - intros E. rewrite E in Hlen2. done.
  - intros E. rewrite E in Hlen2. done.
  - by apply Forall_take.
  - intros E. rewrite E in Hlen1. done.
  - intros E. rewrite E in Hlen1. done.
Qed.

Lemma split_slash_no_slash acc s :
  no_slash acc → Forall no_slash (split_slash acc s).
Proof.
  revert acc. induction s as [|c s IH]; intros acc Hacc; simpl.
  - repeat constructor. by apply Forall_reverse.
  - destruct (N.eqb_spec c 47) as [->|Hc].
    + constructor; [by apply Forall_reverse|]. apply IH. constructor.
    + apply IH. by constructor.
Qed.

Lemma path_name_no_slash s : no_slash (path_name (Path_of s)).
Proof.
  unfold path_name, Path_of, segments. cbn [parts].
  assert (H : Forall no_slash (filter (λ seg, seg ≠ [] ∧ seg ≠ py ".") (split_slash [] s))).
  { apply Forall_forall. intros x [_ Hx]%list_elem_of_filter.
    pose proof (split_slash_no_slash [] s ltac:(constructor)) as Hall.
    by eapply Forall_forall in Hall. }
  destruct (last _) as [x|] eqn:E; [|constructor]. simpl.
  apply last_Some_elem_of in E. by eapply Forall_forall in H.
Qed.

End LibraryLemmas.

Module LibraryProperties.
Import Examples MoreExamples.
Import Library LibraryFacts LibraryLemmas.

(** X3. The relative location recorded for a document with the digest h is
    vault/<h[:2]>/<h[2:4]>/<h>.pdf, and two different digests never share a
    location. *)
Theorem vault_relpath_of_digest (self : Library) (h h' : str) :
  Forall (λ c, is_hex c = true) h → 4 ≤ length h →
  Forall (λ c, is_hex c = true) h' → 4 ≤ length h' →
  Scanner.relative_to_root self (vault_path_for_hash self h) =
    py "vault/" ++ take 2 h ++ py "/" ++ take 2 (drop 2 h) ++ py "/" ++ h ++ py ".pdf" ∧
  (vault_path_for_hash self h = vault_path_for_hash self h' → h = h').
Proof.
  intros Hh Hl Hh' Hl'. split.
  - unfold Scanner.relative_to_root. rewrite vault_path_for_hash_parts by done.
    rewrite drop_app_length. reflexivity.
  - intros E. apply (f_equal parts) in E.
    rewrite !vault_path_for_hash_parts in E by done.
    apply app_inv_head in E. injection E as _ _ E. by apply app_inv_tail in E.
Qed.

Lemma vault_relpath_of_digest_witness :
  Scanner.relative_to_root library (Library.vault_path_for_hash library a_digest) =
    py "vault/" ++ take 2 a_digest ++ py "/" ++ take 2 (drop 2 a_digest) ++ py "/"
      ++ a_digest ++ py ".pdf" ∧
  (Library.vault_path_for_hash library a_digest = Library.vault_path_for_hash library b_digest
   → a_digest = b_digest).
Proof.
  apply (vault_relpath_of_digest library a_digest b_digest).
  - vm_compute. repeat constructor.
  - vm_compute. lia.
  - vm_compute. repeat constructor.
  - vm_compute. lia.
Defined.

End LibraryProperties.

(** ** categorizer.py *)

Module CategorizerLemmas.
Import Categorizer CategorizerFacts.

Section Facts.
Context `{RT : Runtime}.

(** The rule takes part in the loop: its name is not blank and the page
    count passes its gate. *)
Definition applicable (a : Attributes) (cat : CategoryRule) : bool :=
  negb (str_eqb (strip (default [] (name cat))) [])
  && negb (outside_pages (page_count a) cat).

(** The channels of a rule on the lower-cased fields of a document. *)
Definition rule_channels (a : Attributes) (cat : CategoryRule) : float * list str :=
  channels (_lower (source_path a)) (_lower (source_basename a))
    (join (py " ") [_lower (title a); _lower (subject a);
                    _lower (keywords a); _lower (authors a)])
    (_lower (text_sample a)) cat.

(** The score the loop computes for a rule: channels plus priority term. *)
Definition rule_score (a : Attributes) (cat : CategoryRule) : float :=
  ((rule_channels a cat).1 + default 0%float (priority cat) * tie_break)%float.

(** What [best] is when a rule has won. *)
Definition won (a : Attributes) (cat : CategoryRule) : Categorization :=
  {| category := strip (default [] (name cat));
     score := rule_score a cat;
     reason := reason_of (rule_channels a cat).2 |}.

Definition start (cfg : Config) : Categorization :=
  {| category := cfg_default_category cfg; score := 0%float;
     reason := py "no rules matched" |}.

Definition loop (a : Attributes) (best : Categorization)
    (cats : list CategoryRule) : Categorization :=
  foldl (rule_step (_lower (source_path a)) (_lower (source_basename a))
           (join (py " ") [_lower (title a); _lower (subject a);
                           _lower (keywords a); _lower (authors a)])
           (_lower (text_sample a)) (page_count a)) best cats.

Lemma categorize_loop cfg a :
  categorize cfg a =
    if PrimFloat.ltb (score (loop a (start cfg) (categories cfg))) (cfg_min_score cfg)
    then {| category := cfg_default_category cfg;
            score := score (loop a (start cfg) (categories cfg));
            reason := py "below min_score; defaulted" |}
    else loop a (start cfg) (categories cfg).
Proof. reflexivity. Qed.

Lemma rule_step_cases a best cat :
  let step := rule_step (_lower (source_path a)) (_lower (source_basename a))
           (join (py " ") [_lower (title a); _lower (subject a);
                           _lower (keywords a); _lower (authors a)])
           (_lower (text_sample a)) (page_count a) in
  (applicable a cat = false ∧ step best cat = best) ∨
  (applicable a cat = true ∧ PrimFloat.ltb (score best) (rule_score a cat) = false
     ∧ step best cat = best) ∨
  (applicable a cat = true ∧ PrimFloat.ltb (score best) (rule_score a cat) = true
     ∧ step best cat = won a cat).
Proof.
  intros step. unfold step, rule_step, applicable, won, rule_score, rule_channels.
  destruct (strip (default [] (name cat))) as [|c nm] eqn:En; [by left|].
  change (str_eqb (c :: nm) []) with false. cbn [negb andb].
  destruct (outside_pages (page_count a) cat); [by left|]. cbn [negb].
  right.
  match goal with |- context [channels ?p ?b ?m ?t cat] =>
    destruct (channels p b m t cat) as [score0 reasons] end.
  cbn [fst snd]. destruct (PrimFloat.ltb _ _); [right | left]; done.
Qed.

(** The invariant of the loop: no applicable rule seen so far scores more
    than [best], and [best] is the initial value or what a rule seen so far
    has won. *)
Definition inv (cfg : Config) (a : Attributes) (seen : list CategoryRule)
    (best : Categorization) : Prop :=
  (∀ cat, cat ∈ seen → applicable a cat = true →
          PrimFloat.ltb (score best) (rule_score a cat) = false) ∧
  (best = start cfg ∨ ∃ cat, cat ∈ seen ∧ applicable a cat = true ∧ best = won a cat).

Lemma loop_inv cfg a cats seen best :
  inv cfg a seen best → inv cfg a (seen ++ cats) (loop a best cats).
Proof.
  revert seen best. induction cats as [|cat cats IH]; intros seen best H.
  - by rewrite app_nil_r.
  - replace (seen ++ cat :: cats) with ((seen ++ [cat]) ++ cats) by by rewrite <- app_assoc.
    unfold loop. cbn [foldl]. apply IH. clear IH.
    destruct H as [Hmax Hbest].
    destruct (rule_step_cases a best cat) as [[Ha ->]|[(Ha & Hlt & ->)|(Ha & Hlt & ->)]].
    + split.
      * intros c [Hc| ->%list_elem_of_singleton]%elem_of_app Hc'; [by apply Hmax | congruence].
      * destruct Hbest as [?|(c & ? & ? & ?)]; [by left|].
        right. exists c. rewrite elem_of_app. auto.
    + split.
      * intros c [Hc| ->%list_elem_of_singleton]%elem_of_app Hc'; [by apply Hmax | done].
      * destruct Hbest as [?|(c & ? & ? & ?)]; [by left|].
        right. exists c. rewrite elem_of_app. auto.
    + split.
      * intros c [Hc| ->%list_elem_of_singleton]%elem_of_app Hc'; simpl.
        -- apply not_true_iff_false. intros E.
           specialize (Hmax c Hc Hc').
           rewrite (FloatLemmas.ltb_trans _ _ _ Hlt E) in Hmax. done.
        -- apply FloatLemmas.ltb_irrefl.
      * right. exists cat. rewrite elem_of_app, list_elem_of_singleton. auto.
Qed.

Lemma loop_start_inv cfg a :
  inv cfg a (categories cfg) (loop a (start cfg) (categories cfg)).
Proof.
  apply (loop_inv cfg a (categories cfg) [] (start cfg)).
  split; [by intros c ?%elem_of_nil | by left].
Qed.

Lemma blank_keywords_no_hits hs kws :
  (∀ s, strip s = [] → strip (lower s) = []) →
  Forall (λ x, strip x = []) kws → _any_kw hs kws = [].
Proof.
  intros Hlow H. unfold _any_kw. induction H as [|kw kws Hkw _ IH]; [done|].
  rewrite filter_cons_False; [done|]. intros [Hne _]. by apply Hne, Hlow.
Qed.

Lemma config_uses_text_false cfg :
  config_uses_text cfg = false →
  Forall (λ cat, Forall (λ x, strip x = []) (text_keywords_any cat)) (categories cfg).
Proof.
  unfold config_uses_text. induction (categories cfg) as [|cat cats IH]; [done|].
  cbn [existsb]. intros [H1 H2]%orb_false_iff. constructor; [|by apply IH].
  clear -H1. induction (text_keywords_any cat) as [|x xs IHx]; [done|].
  cbn [existsb] in H1. apply orb_false_iff in H1 as [Hx Hxs].
  constructor; [|by apply IHx].
  apply negb_false_iff in Hx. by apply bool_decide_eq_true in Hx.
Qed.

End Facts.
End CategorizerLemmas.

Module CategorizerProperties.
Import Examples MoreExamples.
Import Categorizer CategorizerFacts CategorizerLemmas.

(** X4. The category the scorer returns is the default category or the
    stripped name of a configured rule: one of the names of the allow-list
    that the engine builds from the same configuration. *)
Theorem categorize_category_is_configured `{RT : Runtime} (cfg : Config) (a : Attributes) :
  category (categorize cfg a) ∈ cfg_default_category cfg :: Catalog.category_names cfg.
Proof.
  rewrite categorize_loop. destruct (PrimFloat.ltb _ _); [by left|].
  destruct (loop_start_inv cfg a) as [_ [->|(cat & Hin & Happ & ->)]]; [by left|].
  right. unfold Catalog.category_names. apply list_elem_of_filter. split.
  - unfold applicable in Happ. apply andb_true_iff in Happ as [Hn _].
    apply negb_true_iff in Hn. by apply bool_decide_eq_false in Hn.
  - apply list_elem_of_fmap. by exists cat.
Qed.

(** X5. The scorer reports the reason "below min_score; defaulted" exactly
    when the best score is below the threshold, and the category is then the
    default one. *)
Theorem categorize_threshold `{RT : Runtime} (cfg : Config) (a : Attributes) :
  (PrimFloat.ltb (score (categorize cfg a)) (cfg_min_score cfg) = true
     ↔ reason (categorize cfg a) = py "below min_score; defaulted") ∧
  (PrimFloat.ltb (score (categorize cfg a)) (cfg_min_score cfg) = true
     → category (categorize cfg a) = cfg_default_category cfg).
Proof.
  destruct (categorize_cases cfg a) as [(best & _ & Hlt & ->)|[[_ Hb] Hlt]]; simpl.
  - done.
  - split; [|congruence]. split; [congruence|]. intros E. rewrite E in Hb. by destruct Hb.
Qed.

(** X6. The returned score is the greatest of 0 and the scores of the rules
    that take part: no such rule scores more, and the score is 0 with the
    default category or it is the score of a rule, whose name and reasons
    are returned unless the threshold test replaces them. *)
Theorem categorize_returns_best_rule `{RT : Runtime} (cfg : Config) (a : Attributes) :
  (∀ cat, cat ∈ categories cfg → applicable a cat = true →
          PrimFloat.ltb (score (categorize cfg a)) (rule_score a cat) = false) ∧
  ((score (categorize cfg a) = 0%float ∧
    category (categorize cfg a) = cfg_default_category cfg) ∨
   (∃ cat, cat ∈ categories cfg ∧ applicable a cat = true ∧
           score (categorize cfg a) = rule_score a cat ∧
           (PrimFloat.ltb (rule_score a cat) (cfg_min_score cfg) = false →
            categorize cfg a = won a cat))).
Proof.
  rewrite categorize_loop. destruct (loop_start_inv cfg a) as [Hmax Hbest].
  split.
  - intros cat Hin Happ. specialize (Hmax cat Hin Happ).
    by destruct (PrimFloat.ltb (score (loop _ _ _)) (cfg_min_score cfg)).
  - destruct Hbest as [->|(cat & Hin & Happ & ->)].
    + left. by destruct (PrimFloat.ltb _ _).
    + right. exists cat. split_and!; try done.
      * by destruct (PrimFloat.ltb _ _).
      * simpl. by intros ->.
Qed.

Lemma loop_filter `{RT : Runtime} a best cats :
  loop a best cats = loop a best (filter (λ cat, applicable a cat = true) cats).
Proof.
  unfold loop. revert best. induction cats as [|cat cats IH]; intros best; [done|].
  cbn [foldl].
  destruct (rule_step_cases a best cat) as [[Ha ->]|[(Ha & Hlt & E)|(Ha & Hlt & E)]].
  - rewrite filter_cons_False by (by rewrite Ha). apply IH.
  - rewrite filter_cons_True by done. cbn [foldl]. rewrite E. apply IH.
  - rewrite filter_cons_True by done. cbn [foldl]. rewrite E. apply IH.
Qed.

(** X7. A rule with a blank name, or whose page gate excludes the document,
    has no influence: the result is the one of the rule set without it. *)
Theorem categorize_skips_inapplicable `{RT : Runtime} (cfg : Config) (a : Attributes) :
  categorize cfg a =
    categorize {| default_category := default_category cfg; min_score := min_score cfg;
                  categories := filter (λ cat, applicable a cat = true) (categories cfg) |} a.
Proof.
  rewrite !categorize_loop. cbn [categories].
  rewrite <- loop_filter.
  reflexivity.
Qed.

(** X8. When no rule has a text keyword that is not blank, the text sample
    has no influence on the result, so the engine may skip extracting it.
    The premise on the runtime says that lower-casing leaves a blank string
    blank. *)
Theorem categorize_ignores_unused_text `{RT : Runtime} (cfg : Config) (a : Attributes)
    (t : option str) :
  (∀ s, strip s = [] → strip (lower s) = []) →
  config_uses_text cfg = false →
  categorize cfg {| source_path := source_path a; source_basename := source_basename a;
                    title := title a; subject := subject a; keywords := keywords a;
                    authors := authors a; text_sample := t;
                    page_count := page_count a |}
    = categorize cfg a.
Proof.
  intros Hlow Hcfg%config_uses_text_false. unfold categorize. cbn [source_path source_basename title subject keywords authors text_sample page_count].
  match goal with |- context [foldl ?f ?b (categories cfg)] =>
    match goal with |- context [foldl ?g b (categories cfg)] =>
      tryif constr_eq f g then fail else
        assert (E : foldl f b (categories cfg) = foldl g b (categories cfg)) end end;
    [|by rewrite E].
  generalize ({| category := cfg_default_category cfg; score := 0%float;
                 reason := py "no rules matched" |}).
  induction Hcfg as [|cat cats Hcat _ IH]; intros best; [done|].
  cbn [foldl]. rewrite <- IH. f_equal.
  unfold rule_step, channels. by rewrite !(blank_keywords_no_hits _ _ Hlow Hcat).
Qed.

Lemma categorize_ignores_unused_text_witness :
  Categorizer.categorize threshold_cfg
    {| Categorizer.source_path := Categorizer.source_path notes;
       Categorizer.source_basename := Categorizer.source_basename notes;
       Categorizer.title := Categorizer.title notes;
       Categorizer.subject := Categorizer.subject notes;
       Categorizer.keywords := Categorizer.keywords notes;
       Categorizer.authors := Categorizer.authors notes;
       Categorizer.text_sample := Some (py "Form 1040 tax return");
       Categorizer.page_count := Categorizer.page_count notes |}
    = Categorizer.categorize threshold_cfg notes.
Proof.
  apply (categorize_ignores_unused_text (RT := Reference.runtime)
           threshold_cfg notes (Some (py "Form 1040 tax return"))).
  - exact ReferenceFacts.ascii_lower_blank.
  - reflexivity.
Defined.

End CategorizerProperties.

(** ** llm.py *)

Module LlmFacts.
Import Llm.

Lemma dedupe_elem_of seen xs x : x ∈ dedupe seen xs ↔ x ∈ xs ∧ x ∉ seen.
Proof.
  revert seen. induction xs as [|y xs IH]; intros seen; simpl.
  - rewrite elem_of_nil. tauto.
  - case_bool_decide as Hy.
    + rewrite IH, elem_of_cons. split; [tauto|]. intros [[->|?] ?]; tauto.
    + rewrite !elem_of_cons, IH, elem_of_cons. split.
      * intros [->|[? ?]]; [tauto|]. split; [tauto|]. tauto.
      * intros [[->|?] ?]; [tauto|]. destruct (decide (x = y)); [tauto|]. tauto.
Qed.

Lemma dedupe_NoDup seen xs : NoDup (dedupe seen xs).
Proof.
  revert seen. induction xs as [|y xs IH]; intros seen; simpl; [constructor|].
  case_bool_decide; [apply IH|]. constructor; [|apply IH].
  rewrite dedupe_elem_of, elem_of_cons. tauto.
Qed.

Lemma dedupe_sublist seen xs : dedupe seen xs `sublist_of` xs.
Proof.
  revert seen. induction xs as [|y xs IH]; intros seen; simpl; [constructor|].
  case_bool_decide; [by apply sublist_cons | by apply sublist_skip].
Qed.

(** The elements of [xs] that do not occur earlier in [xs], in the order
    of [xs]: what keeping the first occurrence of each element means. *)
Definition first_occurrences (xs : list str) : list str :=
  omap id (imap (λ i x, if bool_decide (x ∈ take i xs) then None else Some x) xs).

Lemma dedupe_ext seen seen' xs :
  (∀ x, x ∈ seen ↔ x ∈ seen') → dedupe seen xs = dedupe seen' xs.
Proof.
  revert seen seen'. induction xs as [|y xs IH]; intros seen seen' H; simpl; [done|].
  rewrite (bool_decide_ext _ _ (H y)). case_bool_decide.
  - by apply IH.
  - f_equal. apply IH. intros x. rewrite !elem_of_cons, H. done.
Qed.

Lemma dedupe_app seen xs ys :
  dedupe seen (xs ++ ys) = dedupe seen xs ++ dedupe (xs ++ seen) ys.
Proof.
  revert seen. induction xs as [|x xs IH]; intros seen; simpl; [done|].
  case_bool_decide as Hx.
  - rewrite IH. f_equal. apply dedupe_ext. intros z.
    rewrite elem_of_cons, !elem_of_app. split; [tauto|]. intros [->|?]; tauto.
  - rewrite IH. simpl. f_equal. f_equal. apply dedupe_ext. intros z.
    rewrite elem_of_cons, !elem_of_app, elem_of_cons. tauto.
Qed.

Lemma dedupe_first_occurrences pre xs :
  dedupe pre xs =
    omap id (imap (λ i x, if bool_decide (x ∈ pre ++ take i xs) then None else Some x) xs).
Proof.
  revert pre. induction xs as [|y xs IH]; intros pre; [done|].
  cbn [dedupe imap omap]. rewrite app_nil_r.
  assert (E : ∀ pre' : list str, (∀ z, z ∈ pre' ↔ z ∈ pre ++ [y]) →
    dedupe pre' xs =
      omap id (imap ((λ i x, if bool_decide (x ∈ pre ++ take i (y :: xs))
                             then None else Some x) ∘ S) xs)).
  { intros pre' H. rewrite (dedupe_ext pre' (pre ++ [y])) by done. rewrite IH.
    f_equal. apply imap_ext. intros i x _. simpl.
    apply (f_equal (λ b : bool, if b then None else Some x)).
    apply bool_decide_ext. by rewrite <- app_assoc. }
  case_bool_decide as Hy; simpl.
  - apply E. intros z. rewrite elem_of_app, list_elem_of_singleton.
    split; [tauto|]. intros [?| ->]; done.
  - f_equal. apply E. intros z.
    rewrite elem_of_cons, elem_of_app, list_elem_of_singleton. tauto.
Qed.

Section Facts.
Context `{RT : Runtime} `{W : World}.

Lemma normalized_fold_lookup (allowed : list str) (m : gmap str str) (k c : str) :
  foldl (fun m c => <[_normalize_category_name c := c]> m) m allowed !! k = Some c →
  (c ∈ allowed ∧ _normalize_category_name c = k) ∨ m !! k = Some c.
Proof.
  revert m. induction allowed as [|a allowed IH]; intros m; simpl; [by right|].
  intros [[H1 H2]|H]%IH.
  - left. split; [by right | done].
  - destruct (decide (_normalize_category_name a = k)) as [E|E].
    + rewrite E, lookup_insert_eq in H. injection H as <-. left. split; [by left | done].
    + rewrite lookup_insert_ne in H by done. by right.
Qed.

Lemma normalized_map_lookup (allowed : list str) (k c : str) :
  normalized_map allowed !! k = Some c → c ∈ allowed ∧ _normalize_category_name c = k.
Proof.
  intros [H|H]%normalized_fold_lookup; [done|]. by rewrite lookup_empty in H.
Qed.

Lemma normalized_fold_is_Some (allowed : list str) (m : gmap str str) (k : str) :
  (∃ c, c ∈ allowed ∧ _normalize_category_name c = k) ∨ is_Some (m !! k) →
  is_Some (foldl (fun m c => <[_normalize_category_name c := c]> m) m allowed !! k).
Proof.
  revert m. induction allowed as [|a allowed IH]; intros m; simpl.
  - intros [(c & []%elem_of_nil & _)|H]; done.
  - intros H. apply IH. destruct H as [(c & [->|Hc]%elem_of_cons & Hk)|H].
    + right. rewrite Hk, lookup_insert_eq. by eexists.
    + left. by exists c.
    + right. destruct (decide (_normalize_category_name a = k)) as [E|E].
      * rewrite E, lookup_insert_eq. by eexists.
      * by rewrite lookup_insert_ne.
Qed.

(** The category of a result is the default one or an entry of the map. *)
Lemma classify_parsed_category (allowed : list str) dflt raw el parsed :
  category (classify_parsed (normalized_map allowed) dflt raw el parsed) = dflt ∨
  category (classify_parsed (normalized_map allowed) dflt raw el parsed) ∈ allowed.
Proof.
  unfold classify_parsed. destruct (dict_get parsed (py "category")) as [[]|]; try by left.
  simpl. destruct (normalized_map allowed !! _) as [c|] eqn:E; [|by left].
  right. by apply normalized_map_lookup in E as [? _].
Qed.

Lemma classify_parsed_confidence normalized dflt raw el parsed :
  PrimFloat.leb 0 (confidence (classify_parsed normalized dflt raw el parsed)) = true ∧
  PrimFloat.leb (confidence (classify_parsed normalized dflt raw el parsed)) 1 = true.
Proof.
  unfold classify_parsed. destruct (dict_get parsed (py "category")) as [[]|];
    try (split; reflexivity).
  simpl. apply FloatLemmas.clamp_range.
Qed.

Lemma classify_parsed_reason normalized dflt raw el parsed :
  let r := reason (classify_parsed normalized dflt raw el parsed) in
  r ≠ [] ∧
  (length r ≤ 200 ∨ r = py "llm classified in " ++ format_2f el ++ py "s").
Proof.
  unfold classify_parsed. destruct (dict_get parsed (py "category")) as [[]|];
    try (split; [done | left; vm_compute; lia]).
  cbn [reason].
  set (r0 := strip _).
  set (r1 := if 200 <? length r0 then rstrip (take 200 r0) else r0).
  assert (Hlen : length r1 ≤ 200).
  { unfold r1. destruct (Nat.ltb_spec 200 (length r0)); [|lia].
    etrans; [apply UtilFacts.rstrip_length|]. rewrite length_take. lia. }
  destruct r1 as [|c r1']; [split; [done | by right]|].
  split; [done | by left].
Qed.

(** What a call of the classifier returns, when it returns. *)
Lemma llm_classify_category_returns provider model categories default_category
    source_path source_basename title authors subject keywords page_count text_sample
    timeout_seconds max_output_tokens path_mode path_tail_parts log r log' :
  llm_classify_category provider model categories default_category
    source_path source_basename title authors subject keywords page_count text_sample
    timeout_seconds max_output_tokens path_mode path_tail_parts log = (Return r, log') →
  ∃ raw parsed el,
    _extract_json_object raw = Return parsed ∧
    r = classify_parsed (normalized_map (dedupe [] (categories ++ [default_category])))
          default_category raw el parsed.
Proof.
  unfold llm_classify_category. destruct (negb _); [done|].
  unfold mbind, M_bind, classify_with_uzu, lift, time_since_started, ret.
  destruct (uzu_reply log _) as [raw|e]; [|done].
  destruct (_extract_json_object raw) as [parsed|e] eqn:E; [|done].
  intros [= <- <-]. eauto.
Qed.

End Facts.
End LlmFacts.

Module LlmProperties.
Import Examples MoreExamples.
Import Llm LlmFacts.

(** X9. Whatever the provider replies, a classification that is returned has
    a confidence between 0 and 1 (a reply without a usable number, or with a
    NaN, included) and a reason that is not empty; the reason has at most
    200 characters unless it is the note that the classifier writes itself
    when the reply gives none. *)
Theorem classifier_result_is_well_formed `{RT : Runtime} `{W : World}
    provider model categories default_category
    source_path source_basename title authors subject keywords page_count text_sample
    timeout_seconds max_output_tokens path_mode path_tail_parts log r log' :
  llm_classify_category provider model categories default_category
    source_path source_basename title authors subject keywords page_count text_sample
    timeout_seconds max_output_tokens path_mode path_tail_parts log = (Return r, log') →
  PrimFloat.leb 0 (confidence r) = true ∧ PrimFloat.leb (confidence r) 1 = true ∧
  reason r ≠ [] ∧
  (length (reason r) ≤ 200 ∨
   ∃ el, reason r = py "llm classified in " ++ format_2f el ++ py "s").
Proof.
  intros (raw & parsed & el & _ & ->)%llm_classify_category_returns.
  destruct (classify_parsed_confidence
              (normalized_map (dedupe [] (categories ++ [default_category])))
              default_category raw el parsed) as [C1 C2].
  destruct (classify_parsed_reason
              (normalized_map (dedupe [] (categories ++ [default_category])))
              default_category raw el parsed) as [H1 [H2|H2]]; eauto 6.
Qed.

Lemma classifier_result_is_well_formed_witness :
  PrimFloat.leb 0 (Llm.confidence bogus_result) = true ∧
  PrimFloat.leb (Llm.confidence bogus_result) 1 = true ∧
  Llm.reason bogus_result ≠ [] ∧
  (length (Llm.reason bogus_result) ≤ 200 ∨
   ∃ el, Llm.reason bogus_result = py "llm classified in " ++ format_2f el ++ py "s").
Proof.
  apply (classifier_result_is_well_formed (RT := Reference.runtime)
           (W := scripted [Llm.Return reply_bogus])
           (py "uzu") (py "qwen3-3b") [py "Receipts & Invoices"; py "Manuals & Guides"]
           (py "Unsorted") (Some (py "/home/u/Documents/notes.pdf")) (Some (py "notes.pdf"))
           None None None None None None 30%float 200%Z (py "tail") 3%Z []
           bogus_result bogus_call.2).
  vm_compute. reflexivity.
Defined.

(** X10. Whatever the provider replies, the category of a classification
    that is returned is the default category or one of the categories passed
    in: the classifier never invents a category. *)
Theorem classifier_category_is_allowed `{RT : Runtime} `{W : World}
    provider model categories default_category
    source_path source_basename title authors subject keywords page_count text_sample
    timeout_seconds max_output_tokens path_mode path_tail_parts log r log' :
  llm_classify_category provider model categories default_category
    source_path source_basename title authors subject keywords page_count text_sample
    timeout_seconds max_output_tokens path_mode path_tail_parts log = (Return r, log') →
  category r = default_category ∨ category r ∈ categories.
Proof.
  intros (raw & parsed & el & _ & ->)%llm_classify_category_returns.
  destruct (classify_parsed_category (dedupe [] (categories ++ [default_category]))
              default_category raw el parsed) as [H|H]; [by left|].
  apply dedupe_elem_of in H as [[H| ->%list_elem_of_singleton]%elem_of_app _]; auto.
Qed.

Lemma classifier_category_is_allowed_witness :
  Llm.category bogus_result = py "Unsorted" ∨
  Llm.category bogus_result ∈ [py "Receipts & Invoices"; py "Manuals & Guides"].
Proof.
  apply (classifier_category_is_allowed (RT := Reference.runtime)
           (W := scripted [Llm.Return reply_bogus])
           (py "uzu") (py "qwen3-3b") [py "Receipts & Invoices"; py "Manuals & Guides"]
           (py "Unsorted") (Some (py "/home/u/Documents/notes.pdf")) (Some (py "notes.pdf"))
           None None None None None None 30%float 200%Z (py "tail") 3%Z []
           bogus_result bogus_call.2).
  vm_compute. reflexivity.
Defined.

(** X11. The allow-list written into the prompt and used to validate the
    reply lists every category passed in and the default category, each
    once, in the order of first occurrence: it consists of the entries of
    the categories followed by the default category that do not occur at
    an earlier position, in their order. So the default category comes
    last, unless it is one of the categories and stands where it is first
    listed. *)
Theorem allow_list_is_deduplicated (categories : list str) (default_category : str) :
  let allowed := dedupe [] (categories ++ [default_category]) in
  NoDup allowed ∧
  (∀ c, c ∈ allowed ↔ c ∈ categories ∨ c = default_category) ∧
  allowed `sublist_of` categories ++ [default_category] ∧
  allowed = first_occurrences (categories ++ [default_category]) ∧
  allowed = first_occurrences categories
              ++ (if bool_decide (default_category ∈ categories) then []
                  else [default_category]).
Proof.
  intros allowed. split_and!.
  - apply dedupe_NoDup.
  - intros c. unfold allowed. rewrite dedupe_elem_of, elem_of_app, list_elem_of_singleton.
    rewrite elem_of_nil. tauto.
  - apply dedupe_sublist.
  - apply (dedupe_first_occurrences []).
  - unfold allowed. rewrite dedupe_app, app_nil_r. simpl.
    by rewrite (dedupe_first_occurrences [] categories).
Qed.

(** X12. A reply that names an allowed category up to case, punctuation and
    blanks is mapped to that category as it is configured, provided no other
    allowed category has the same normal form. *)
Theorem allowed_category_is_recognized `{RT : Runtime} `{W : World}
    (categories : list str) (default_category raw : str) (el : float)
    (parsed : pydict) (cat_raw c : str) :
  dict_get parsed (py "category") = Some (PStr cat_raw) →
  c ∈ categories ++ [default_category] →
  _normalize_category_name cat_raw = _normalize_category_name c →
  (∀ c', c' ∈ categories ++ [default_category] →
         _normalize_category_name c' = _normalize_category_name c → c' = c) →
  category (classify_parsed (normalized_map (dedupe [] (categories ++ [default_category])))
              default_category raw el parsed) = c.
Proof.
  intros Hcat Hc Hnorm Huniq. unfold classify_parsed. rewrite Hcat. cbn [category].
  rewrite Hnorm.
  destruct (normalized_fold_is_Some (dedupe [] (categories ++ [default_category])) ∅
              (_normalize_category_name c)) as [c' Hc'].
  { left. exists c. split; [|done]. apply dedupe_elem_of. split; [done | by intros ?%elem_of_nil]. }
  change (foldl _ ∅ _) with (normalized_map (dedupe [] (categories ++ [default_category]))) in Hc'.
  rewrite Hc'. simpl.
  apply normalized_map_lookup in Hc' as [Hin Hn].
  apply Huniq; [|done]. by apply dedupe_elem_of in Hin as [? _].
Qed.

Lemma allowed_category_is_recognized_witness :
  Llm.category
    (@Llm.classify_parsed Reference.runtime
       (@Llm.normalized_map Reference.runtime
          (Llm.dedupe [] ([py "Receipts & Invoices"; py "Manuals & Guides"] ++ [py "Unsorted"])))
       (py "Unsorted") reply_invoice 0.25%float
       [(PStr (py "category"), PStr (py "receipts & invoices"))])
    = py "Receipts & Invoices".
Proof.
  apply (allowed_category_is_recognized (RT := Reference.runtime)
           (W := scripted [])
           [py "Receipts & Invoices"; py "Manuals & Guides"] (py "Unsorted")
           reply_invoice 0.25%float
           [(PStr (py "category"), PStr (py "receipts & invoices"))]
           (py "receipts & invoices") (py "Receipts & Invoices")).
  - reflexivity.
  - by left.
  - vm_compute. reflexivity.
  - intros c' Hc'. simpl in Hc'. rewrite !elem_of_cons, elem_of_nil in Hc'.
    destruct Hc' as [->|[->|[->|[]]]]; [done|..]; vm_compute; discriminate.
Defined.

(** ** The code-fence pattern and the normal form of a category *)

Lemma no_fence_here (s : str) :
  Forall (λ c, c ≠ 96%N) s → startswith fence s = false.
Proof.
  intros [|c s' Hc _]; [done|].
  change fence with (96%N :: py "``"). cbn [startswith].
  destruct (N.eqb_spec 96 c); [congruence | done].
Qed.

Lemma match_fence_close_none (s : str) :
  Forall (λ c, c ≠ 96%N) s → match_fence_close s = None.
Proof.
  intros H. unfold match_fence_close. rewrite no_fence_here; [done|]. by apply Forall_drop.
Qed.

Lemma fence_sub_plain prev (s : str) :
  Forall (λ c, c ≠ 96%N) s → fence_sub 0 prev s = s.
Proof.
  intros H. revert prev. induction H as [|c s Hc Hs IH]; intros prev; [done|].
  cbn [fence_sub]. unfold match_fence_open.
  rewrite no_fence_here by by constructor.
  rewrite match_fence_close_none by by constructor.
  destruct (match prev with None => true | Some p => (p =? 10)%N end); by rewrite IH.
Qed.

(** X13. A reply without a backtick passes the removal of code fences
    unchanged. *)
Theorem code_fence_removal_keeps_plain_text (s : str) :
  Forall (λ c, c ≠ 96%N) s → _CODE_FENCE_RE_sub s = s.
Proof. apply fence_sub_plain. Qed.

Lemma code_fence_removal_keeps_plain_text_witness :
  Llm._CODE_FENCE_RE_sub reply_invoice = reply_invoice.
Proof.
  apply (code_fence_removal_keeps_plain_text reply_invoice).
  vm_compute. repeat (constructor; [discriminate|]). constructor.
Defined.

Definition last_not_space (s : str) : Prop :=
  match last s with Some c => is_space c = false | None => True end.

Lemma rstrip_last s : last_not_space (rstrip s).
Proof.
  unfold last_not_space. induction s as [|c s IH]; [done|]. simpl.
  destruct (rstrip s) as [|d r] eqn:E.
  - destruct (is_space c) eqn:Ec; simpl; done.
  - simpl in IH |- *. done.
Qed.

(** The normal form of a category name holds only lower-case ASCII
    letters, digits and single spaces, and neither starts nor ends with a
    space. *)
Lemma normalized_name_alphabet `{RT : Runtime} (name : str) :
  let n := _normalize_category_name name in
  Forall (λ c, is_lower c || is_digit c || (c =? 32)%N = true) n ∧
  Util.single_spaces n = true ∧
  UtilFacts.head_not_space n ∧ last_not_space n.
Proof.
  unfold _normalize_category_name. split_and!.
  - apply UtilFacts.strip_Forall, UtilFacts.sub_runs_from_Forall_keep; [by repeat constructor|].
    apply UtilFacts.sub_runs_from_Forall; [by repeat constructor|].
    intros c H. apply negb_false_iff in H. by rewrite H.
  - apply UtilFacts.ws_separated_single.
    unfold strip. apply UtilFacts.ws_separated_rstrip, UtilFacts.ws_separated_lstrip.
    apply UtilFacts.sub_runs_space_separated.
  - apply UtilFacts.strip_head.
  - apply rstrip_last.
Qed.

(** X14. In the mode "basename" the path shown to the model is the file name
    alone: it contains no directory separator. *)
Theorem basename_mode_hides_directories `{RT : Runtime} `{W : Llm.World}
    (path : option str) (tail_parts : Z) (shown : str) :
  Llm._format_source_path path (py "basename") tail_parts = Some shown →
  Forall (λ c, c ≠ 47%N) shown.
Proof.
  unfold Llm._format_source_path. destruct path as [[|c p]|]; try done.
  change (str_eqb (py "basename") (py "basename")) with true. cbv iota.
  intros [= <-]. apply LibraryLemmas.path_name_no_slash.
Qed.

Lemma basename_mode_hides_directories_witness :
  Forall (λ c, c ≠ 47%N) (py "Invoice_2025.pdf").
Proof.
  apply (basename_mode_hides_directories (RT := Reference.runtime)
           (W := scripted [])
           (Some (py "/home/u/Documents/Invoice_2025.pdf")) 3%Z (py "Invoice_2025.pdf")).
  vm_compute. reflexivity.
Defined.

End LlmProperties.

(** ** catalog.py *)

Module CatalogLemmas.
Import Catalog CatalogFacts.

Section Facts.
Context `{RT : Runtime} `{W : Llm.World}.



End Facts.
End CatalogLemmas.

Module CatalogProperties.
Import Examples MoreExamples.
Import Catalog CatalogFacts CatalogLemmas.







(** X18. When the call of the classifier raises, the document keeps the
    category and the score of the rules, its reason gets the first 200
    characters of the error appended, and the failure is counted. *)
Theorem llm_error_keeps_rule_result `{RT : Runtime} `{W : Llm.World}
    (L : Settings) (cfg : Categorizer.Config) (doc : Document)
    (log log' : list Llm.Request) (e : str) :
  provider L ≠ py "off" →
  should_call_llm L cfg (Categorizer.categorize cfg (attributes doc)) = true →
  classify L cfg doc log = (Llm.Raise e, log') →
  let rules := Categorizer.categorize cfg (attributes doc) in
  categorize_one L cfg doc log =
    (Llm.Return
       {| final :=
            {| Categorizer.category := Categorizer.category rules;
               Categorizer.score := Categorizer.score rules;
               Categorizer.reason :=
                 Categorizer.reason rules ++ py " | llm_error:" ++ take 200 e |};
          called := true; used := false; failed := true |},
     log').
Proof.
  intros Hoff Hcall Hres rules. unfold categorize_one. fold rules in Hcall |- *.
  rewrite Hcall. apply str_eqb_ne in Hoff. rewrite Hoff. cbn [andb negb].
  unfold Llm.try_except, mbind, Llm.M_bind, Llm.ret. by rewrite Hres.
Qed.

Lemma llm_error_keeps_rule_result_witness :
  (@Catalog.categorize_one Reference.runtime (scripted [])
     settings cfg doc_notes []).1 =
    Llm.Return
      {| Catalog.final :=
           {| Categorizer.category := py "Unsorted";
              Categorizer.score := (0 + 10 * Categorizer.tie_break)%float;
              Categorizer.reason :=
                py "below min_score; defaulted | llm_error:Network error calling http://localhost:8000/chat/completions" |};
         Catalog.called := true; Catalog.used := false; Catalog.failed := true |}.
Proof.
  refine (eq_trans
            (f_equal fst
               (llm_error_keeps_rule_result (RT := Reference.runtime)
                  (W := scripted [])
                  settings cfg doc_notes []
                  (@Catalog.classify Reference.runtime (scripted []) settings cfg doc_notes []).2
                  (py "Network error calling http://localhost:8000/chat/completions")
                  _ _ _)) _).
  - vm_compute. discriminate.
  - vm_compute. reflexivity.
  - vm_compute. reflexivity.
  - vm_compute. reflexivity.
Defined.

(** X19. A reply that is empty or blank makes the classifier raise LLMError
    "Empty model output", after the one request has been sent. *)
Theorem blank_reply_raises `{RT : Runtime} `{W : Llm.World}
    model categories default_category
    source_path source_basename title authors subject keywords page_count text_sample
    timeout_seconds max_output_tokens path_mode path_tail_parts log raw :
  (∀ req, Llm.uzu_reply log req = Llm.Return raw) →
  strip raw = [] →
  ∃ req,
    Llm.llm_classify_category (py "uzu") model categories default_category
      source_path source_basename title authors subject keywords page_count text_sample
      timeout_seconds max_output_tokens path_mode path_tail_parts log
    = (Llm.Raise (py "Empty model output"), log ++ [req]).
Proof.
  intros Hreply Hblank. unfold Llm.llm_classify_category.
  change (negb (str_eqb (py "uzu") (py "uzu"))) with false. cbv iota.
  unfold mbind, Llm.M_bind, Llm.classify_with_uzu. rewrite Hreply.
  unfold Llm.lift, Llm._extract_json_object. rewrite Hblank. eauto.
Qed.

Lemma blank_reply_raises_witness :
  ∃ req,
    @Llm.llm_classify_category Reference.runtime (scripted [Llm.Return (py "  ")])
      (py "uzu") (py "qwen3-3b") [py "Receipts & Invoices"; py "Manuals & Guides"]
      (py "Unsorted") (Some (py "/home/u/Documents/notes.pdf")) (Some (py "notes.pdf"))
      None None None None None None 30%float 200%Z (py "tail") 3%Z []
    = (Llm.Raise (py "Empty model output"), [] ++ [req]).
Proof.
  apply (blank_reply_raises (RT := Reference.runtime)
           (W := scripted [Llm.Return (py "  ")])
           (py "qwen3-3b") [py "Receipts & Invoices"; py "Manuals & Guides"]
           (py "Unsorted") (Some (py "/home/u/Documents/notes.pdf")) (Some (py "notes.pdf"))
           None None None None None None 30%float 200%Z (py "tail") 3%Z [] (py "  ")).
  - intros req. reflexivity.
  - reflexivity.
Defined.

(** X20. Validation of the options: the settings of a run that starts name
    the provider off or uzu, the mode fallback or always and the path mode
    basename, tail or full, and with the provider uzu the model name is not
    empty; a run that is refused reports which of the three options is
    wrong. *)
Theorem settings_are_validated `{RT : Runtime} `{W : Llm.World} (o : Options) :
  match settings_of o with
  | Valid L =>
      provider L ∈ [py "off"; py "uzu"] ∧
      mode L ∈ [py "fallback"; py "always"] ∧
      path_mode L ∈ [py "basename"; py "tail"; py "full"] ∧
      (provider L = py "uzu" → model L ≠ [])
  | ValueError e =>
      e ∈ [py "llm_provider must be one of: off, uzu";
           py "llm_mode must be one of: fallback, always";
           py "llm_path_mode must be one of: basename, tail, full"]
  end.
Proof.
  unfold settings_of.
  destruct (bool_decide (_ ∈ [py "off"; py "uzu"])) eqn:E1; cbn [negb];
    [|rewrite !elem_of_cons; tauto].
  destruct (bool_decide (_ ∈ [py "fallback"; py "always"])) eqn:E2; cbn [negb];
    [|rewrite !elem_of_cons; tauto].
  destruct (bool_decide (_ ∈ [py "basename"; py "tail"; py "full"])) eqn:E3; cbn [negb];
    [|rewrite !elem_of_cons; tauto].
  apply bool_decide_eq_true in E1, E2, E3. cbn [provider mode path_mode model].
  split_and!; try done.
  intros ->. change (str_eqb (py "uzu") (py "uzu")) with true. cbv iota. cbn [default].
  unfold or_else.
  destruct (llm_model o) as [[|c m]|]; try done;
    destruct Llm.UZU_MODEL as [[|c' m']|]; done.
Qed.

End CatalogProperties.

(** ** db.py *)

Module DbProperties.
Import Examples MoreExamples.
Import Db.

Lemma alter_absent {A} (f : A → A) (m : gmap str A) (k : str) :
  m !! k = None → alter f k m = m.
Proof.
  intros H. apply map_eq. intros i. destruct (decide (k = i)) as [->|Hne].
  - by rewrite lookup_alter_eq, H.
  - by rewrite lookup_alter_ne.
Qed.

(** X21. Upsert and lookup of a source row that the table accepts (the
    digest is None or has a document row, the size fits 64 bits, the times
    are neither NaN nor the negative zero, the strings are Unicode text):
    the row read back holds the values written, except that
    first_seen_at is the one of the row that was there, if any; the other
    rows and the documents are untouched. *)
Theorem upsert_source_then_get (conn : Conn) (p : str)
    (b : option str) (sz : option Z) (mt : option float) (h : option str)
    (st : str) (er : option str) (f l : float) :
  source_row_accepted conn p b sz mt h st er f l = true →
  let conn' := upsert_source conn p b sz mt h st er f l in
  get_source conn' p =
    Some {| source_basename := b; source_size := sz; source_mtime := mt; hash := h;
            first_seen_at := match get_source conn p with
                             | Some r => first_seen_at r
                             | None => f
                             end;
            last_seen_at := l; status := st; error := er |} ∧
  (∀ q, q ≠ p → get_source conn' q = get_source conn q) ∧
  documents conn' = documents conn.
Proof.
  intros _. unfold upsert_source, get_source, set_source_files.
  cbn [source_files documents]. split_and!.
  - by rewrite lookup_partial_alter_eq.
  - intros q Hq. by rewrite lookup_partial_alter_ne.
  - done.
Qed.

Lemma upsert_source_then_get_witness :
  Db.get_source
    (Db.upsert_source (Scanner.conn Scenarios.first_pass)
       (py "/home/u/Documents/Invoice_2025.pdf") (Some (py "Invoice_2025.pdf"))
       (Some 27%Z) (Some 1700000100.5%float)
       (Some (sha256_hexdigest (py "Invoice Total Due: $123.45 ")))
       (py "ok") None 2000%float 2000%float)
    (py "/home/u/Documents/Invoice_2025.pdf") =
    Some {| source_basename := Some (py "Invoice_2025.pdf"); source_size := Some 27%Z;
            source_mtime := Some 1700000100.5%float;
            hash := Some (sha256_hexdigest (py "Invoice Total Due: $123.45 "));
            first_seen_at := match Db.get_source (Scanner.conn Scenarios.first_pass)
                                     (py "/home/u/Documents/Invoice_2025.pdf") with
                             | Some r => first_seen_at r
                             | None => 2000%float
                             end;
            last_seen_at := 2000%float; status := py "ok"; error := None |} ∧
  (∀ q, q ≠ py "/home/u/Documents/Invoice_2025.pdf" →
        Db.get_source
          (Db.upsert_source (Scanner.conn Scenarios.first_pass)
             (py "/home/u/Documents/Invoice_2025.pdf") (Some (py "Invoice_2025.pdf"))
             (Some 27%Z) (Some 1700000100.5%float)
             (Some (sha256_hexdigest (py "Invoice Total Due: $123.45 ")))
             (py "ok") None 2000%float 2000%float) q
        = Db.get_source (Scanner.conn Scenarios.first_pass) q) ∧
  documents
    (Db.upsert_source (Scanner.conn Scenarios.first_pass)
       (py "/home/u/Documents/Invoice_2025.pdf") (Some (py "Invoice_2025.pdf"))
       (Some 27%Z) (Some 1700000100.5%float)
       (Some (sha256_hexdigest (py "Invoice Total Due: $123.45 ")))
       (py "ok") None 2000%float 2000%float)
    = documents (Scanner.conn Scenarios.first_pass).
Proof.
  apply (upsert_source_then_get (Scanner.conn Scenarios.first_pass)
           (py "/home/u/Documents/Invoice_2025.pdf") (Some (py "Invoice_2025.pdf"))
           (Some 27%Z) (Some 1700000100.5%float)
           (Some (sha256_hexdigest (py "Invoice Total Due: $123.45 ")))
           (py "ok") None 2000%float 2000%float).
  vm_compute. reflexivity.
Defined.

(** X22. Seeing a known document again keeps what is known about it:
    metadata, category, score, reason and first_seen_at stay, the location,
    the size and last_seen_at are replaced; a new document starts without
    metadata and without a category; other documents and the source rows are
    untouched. *)
Theorem upsert_document_seen_keeps_categorization (conn : Conn) (h rel : str)
    (size : Z) (f l : float) :
  let conn' := upsert_document_seen conn h rel size f l in
  get_document conn' h =
    Some (match get_document conn h with
          | Some d =>
              {| vault_relpath := rel; file_size := size;
                 doc_first_seen_at := doc_first_seen_at d; doc_last_seen_at := l;
                 page_count := page_count d; title := title d; authors := authors d;
                 subject := subject d; keywords := keywords d;
                 text_sample := text_sample d; meta_json := meta_json d;
                 category := category d; category_score := category_score d;
                 category_reason := category_reason d;
                 categorized_at := categorized_at d |}
          | None =>
              {| vault_relpath := rel; file_size := size;
                 doc_first_seen_at := f; doc_last_seen_at := l;
                 page_count := None; title := None; authors := None;
                 subject := None; keywords := None; text_sample := None;
                 meta_json := None; category := None; category_score := None;
                 category_reason := None; categorized_at := None |}
          end) ∧
  (∀ h', h' ≠ h → get_document conn' h' = get_document conn h') ∧
  source_files conn' = source_files conn.
Proof.
  unfold upsert_document_seen, get_document, set_documents. cbn [source_files documents].
  split_and!.
  - rewrite lookup_partial_alter_eq. by destruct (documents conn !! h).
  - intros h' Hh. by rewrite lookup_partial_alter_ne.
  - done.
Qed.

(** X23. An update of a row that does not exist changes nothing: no row is
    created by touching an unknown path or by writing the category or the
    metadata of an unknown digest. *)
Theorem updates_of_missing_rows_do_nothing (conn : Conn) (k : str) :
  (get_source conn k = None → ∀ t, touch_source_seen conn k t = conn) ∧
  (get_document conn k = None →
   (∀ c s r t, update_document_category conn k c s r t = conn) ∧
   (∀ pc ti au su kw ts mj, update_document_metadata conn k pc ti au su kw ts mj = conn)).
Proof.
  destruct conn as [src docs].
  unfold get_source, get_document, touch_source_seen, update_document_category,
    update_document_metadata, set_source_files, set_documents.
  cbn [source_files documents]. split.
  - intros H t. by rewrite alter_absent.
  - intros H. split; intros; by rewrite alter_absent.
Qed.

(** Writing the metadata and writing the category of a document do not
    interfere: either order gives the same manifest, the category columns
    survive a metadata update and the metadata columns a category
    update. *)
Lemma metadata_and_category_updates_commute (conn : Conn) (h : str)
    (pc : option Z) (ti au su kw ts mj : option str) (c : str) (s : float) (r : str)
    (t : float) :
  update_document_category (update_document_metadata conn h pc ti au su kw ts mj) h c s r t
    = update_document_metadata (update_document_category conn h c s r t) h pc ti au su kw ts mj
  ∧ (category <$> get_document (update_document_metadata conn h pc ti au su kw ts mj) h)
      = (category <$> get_document conn h)
  ∧ (title <$> get_document (update_document_category conn h c s r t) h)
      = (title <$> get_document conn h).
Proof.
  destruct conn as [src docs].
  unfold get_document, update_document_category, update_document_metadata, set_documents.
  cbn [source_files documents]. split_and!.
  - f_equal. rewrite !alter_alter_eq. apply alter_ext. intros d _. reflexivity.
  - rewrite lookup_alter_eq. by destruct (docs !! h).
  - rewrite lookup_alter_eq. by destruct (docs !! h).
Qed.

End DbProperties.

(** ** scanner.py *)

Module ScannerFacts.
Import Scanner.

Section Facts.
Context `{RT : Runtime}.

(** The paths a pass has dealt with, by outcome. *)
Definition handled (st : Stats) : nat :=
  skipped_unchanged st + copied_new st + deduped_existing st + errors st.

(** The four ways one iteration ends. *)
Lemma scan_one_cases library now s f :
  (∃ e, stat f = OSError e ∧
     scan_one library now s f =
       {| conn := Db.upsert_source (conn s) (src_str f) (Some (base f)) None None None
                    (py "unreadable") (Some e) now now;
          vault := vault s; hashed := hashed s;
          stats := add_errors (add_discovered (stats s)) |}) ∨
  (∃ st, stat f = IoOk st ∧
     unchanged (Db.get_source (conn s) (src_str f)) st = true ∧
     scan_one library now s f =
       {| conn := Db.touch_source_seen (conn s) (src_str f) now;
          vault := vault s; hashed := hashed s;
          stats := add_skipped_unchanged (add_discovered (stats s)) |}) ∨
  (∃ st e, stat f = IoOk st ∧
     unchanged (Db.get_source (conn s) (src_str f)) st = false ∧
     content f = OSError e ∧
     scan_one library now s f =
       {| conn := Db.upsert_source (conn s) (src_str f) (Some (base f))
                    (Some (st_size st)) (Some (st_mtime st)) None
                    (py "error") (Some e) now now;
          vault := vault s; hashed := hashed s ++ [src_str f];
          stats := add_errors (add_discovered (stats s)) |}) ∨
  (∃ st data, stat f = IoOk st ∧
     unchanged (Db.get_source (conn s) (src_str f)) st = false ∧
     content f = IoOk data ∧
     scan_one library now s f =
       {| conn :=
            Db.upsert_source
              (Db.upsert_document_seen (conn s) (sha256_hexdigest data)
                 (relative_to_root library
                    (Library.vault_path_for_hash library (sha256_hexdigest data)))
                 (Z.of_nat (length data)) now now)
              (src_str f) (Some (base f)) (Some (st_size st)) (Some (st_mtime st))
              (Some (sha256_hexdigest data)) (py "ok") None now now;
          vault := match vault s !! sha256_hexdigest data with
                   | Some _ => vault s
                   | None => <[sha256_hexdigest data := data]> (vault s)
                   end;
          hashed := hashed s ++ [src_str f];
          stats := match vault s !! sha256_hexdigest data with
                   | Some _ => add_deduped_existing (add_discovered (stats s))
                   | None => add_copied_new (add_discovered (stats s))
                   end |}).
Proof.
  unfold scan_one. destruct (stat f) as [st|e]; [|left; eauto].
  right. destruct (unchanged _ st) eqn:Hun; [left; eauto|].
  right. unfold _copy_into_vault. destruct (content f) as [data|e]; [|left; eauto 10].
  right. exists st, data. split_and!; try done.
  by destruct (vault s !! sha256_hexdigest data).
Qed.

Lemma scan_one_counts library now s f :
  discovered (stats (scan_one library now s f)) = discovered (stats s) + 1 ∧
  handled (stats (scan_one library now s f)) = handled (stats s) + 1.
Proof.
  destruct (scan_one_cases library now s f)
    as [(e & _ & ->)|[(st & _ & _ & ->)|[(st & e & _ & _ & _ & ->)|(st & data & _ & _ & _ & ->)]]];
    unfold handled; cbn [stats]; try (simpl; lia).
  destruct (vault s !! _); simpl; lia.
Qed.

Lemma foldl_scan_counts library now found s :
  discovered (stats (foldl (scan_one library now) s found))
    = discovered (stats s) + length found ∧
  handled (stats (foldl (scan_one library now) s found))
    = handled (stats s) + length found.
Proof.
  revert s. induction found as [|f found IH]; intros s; simpl; [lia|].
  destruct (IH (scan_one library now s f)) as [-> ->].
  destruct (scan_one_counts library now s f) as [-> ->]. lia.
Qed.

Lemma foldl_count_discovered {A} (found : list A) (st : Stats) :
  foldl (λ st _, add_discovered st) st found =
    {| discovered := discovered st + length found;
       skipped_unchanged := skipped_unchanged st; copied_new := copied_new st;
       deduped_existing := deduped_existing st; errors := errors st |}.
Proof.
  revert st. induction found as [|f found IH]; intros st; simpl.
  - destruct st; simpl. by rewrite Nat.add_0_r.
  - rewrite IH. simpl. f_equal. lia.
Qed.

(** ** Integrity of the manifest and the store *)

(** Every source row with the status ok names a digest that has a
    document row; every document row has its bytes in the store; every
    file of the store is kept under the digest of its bytes. *)
Definition consistent (s : State) : Prop :=
  (∀ p r, Db.source_files (conn s) !! p = Some r → Db.status r = py "ok" →
          ∃ h, Db.hash r = Some h ∧ is_Some (Db.documents (conn s) !! h)) ∧
  (∀ h, is_Some (Db.documents (conn s) !! h) → is_Some (vault s !! h)) ∧
  (∀ h data, vault s !! h = Some data → sha256_hexdigest data = h).

Lemma failed_row_consistent (s : State) p b sz mt st er now :
  st ≠ py "ok" →
  consistent s →
  consistent {| conn := Db.upsert_source (conn s) p b sz mt None st er now now;
                vault := vault s; hashed := hashed s; stats := stats s |}.
Proof.
  intros Hst (H1 & H2 & H3). split_and!; cbn [conn vault]; try done.
  unfold Db.upsert_source, Db.set_source_files. cbn [Db.source_files Db.documents].
  intros q r. destruct (decide (p = q)) as [<-|Hne].
  - rewrite lookup_partial_alter_eq. intros [= <-]. done.
  - rewrite lookup_partial_alter_ne by done. apply H1.
Qed.

Lemma scan_one_consistent library now s f :
  consistent s → consistent (scan_one library now s f).
Proof.
  intros Hs.
  destruct (scan_one_cases library now s f)
    as [(e & _ & ->)|[(st & _ & _ & ->)|[(st & e & _ & _ & _ & ->)|(st & data & _ & _ & _ & ->)]]].
  - apply (failed_row_consistent
             {| conn := conn s; vault := vault s; hashed := hashed s;
                stats := add_errors (add_discovered (stats s)) |}); [by vm_compute | done].
  - destruct Hs as (H1 & H2 & H3). split_and!; cbn [conn vault]; try done.
    unfold Db.touch_source_seen, Db.set_source_files. cbn [Db.source_files Db.documents].
    intros q r. destruct (decide (src_str f = q)) as [<-|Hne].
    + rewrite lookup_alter_eq.
      destruct (Db.source_files (conn s) !! src_str f) as [r0|] eqn:E; [|done].
      intros [= <-]. cbn [Db.status Db.hash]. by apply (H1 (src_str f)).
    + rewrite lookup_alter_ne by done. apply H1.
  - apply (failed_row_consistent
             {| conn := conn s; vault := vault s; hashed := hashed s ++ [src_str f];
                stats := add_errors (add_discovered (stats s)) |}); [by vm_compute | done].
  - destruct Hs as (H1 & H2 & H3). set (h := sha256_hexdigest data).
    assert (Hdocs : ∀ h', is_Some (Db.documents (conn s) !! h') ∨ h' = h ↔
      is_Some (Db.documents
                 (Db.upsert_document_seen (conn s) h
                    (relative_to_root library (Library.vault_path_for_hash library h))
                    (Z.of_nat (length data)) now now) !! h')).
    { intros h'. unfold Db.upsert_document_seen, Db.set_documents. cbn [Db.documents].
      destruct (decide (h = h')) as [<-|Hne].
      - rewrite lookup_partial_alter_eq.
        destruct (Db.documents (conn s) !! h); split; eauto.
      - rewrite lookup_partial_alter_ne by done. split; [|by left].
        intros [?| ->]; done. }
    split_and!; cbn [conn vault].
    + unfold Db.upsert_source, Db.set_source_files.
      cbn [Db.source_files Db.documents]. intros q r.
      destruct (decide (src_str f = q)) as [<-|Hne].
      * rewrite lookup_partial_alter_eq. intros [= <-] _. cbn [Db.hash].
        exists h. split; [done|]. apply Hdocs. by right.
      * rewrite lookup_partial_alter_ne by done. intros Hq Hok.
        destruct (H1 q r Hq Hok) as (h0 & Hh0 & Hd0). exists h0. split; [done|].
        apply Hdocs. by left.
    + intros h' Hh'. unfold Db.upsert_source, Db.set_source_files in Hh'.
      cbn [Db.documents] in Hh'. apply Hdocs in Hh' as [Hh'| ->].
      * apply H2 in Hh'. destruct (vault s !! h) eqn:E; [done|].
        destruct (decide (h = h')) as [<-|Hne]; [by rewrite lookup_insert_eq|].
        by rewrite lookup_insert_ne.
      * destruct (vault s !! h) eqn:E; [by rewrite E|]. by rewrite lookup_insert_eq.
    + intros h' data'. destruct (vault s !! h) eqn:E; [apply H3|].
      destruct (decide (h = h')) as [<-|Hne].
      * rewrite lookup_insert_eq. by intros [= <-].
      * rewrite lookup_insert_ne by done. apply H3.
Qed.

Lemma foldl_scan_consistent library now found s :
  consistent s → consistent (foldl (scan_one library now) s found).
Proof.
  revert s. induction found as [|f found IH]; intros s Hs; [done|].
  simpl. by apply IH, scan_one_consistent.
Qed.

End Facts.
End ScannerFacts.

Module ScannerPasses.
Import Scanner ScannerFacts.

Section Facts.
Context `{RT : Runtime}.

(** ** Nothing is lost *)

Definition grows (s s' : State) : Prop :=
  vault s ⊆ vault s' ∧
  (∀ h, is_Some (Db.documents (conn s) !! h) → is_Some (Db.documents (conn s') !! h)) ∧
  (∀ p, is_Some (Db.source_files (conn s) !! p) → is_Some (Db.source_files (conn s') !! p)).

Lemma grows_trans s1 s2 s3 : grows s1 s2 → grows s2 s3 → grows s1 s3.
Proof.
  intros (A1 & A2 & A3) (B1 & B2 & B3). split_and!; [by etrans | auto | auto].
Qed.

Lemma upsert_source_keeps_rows conn p b sz mt h st er f l q :
  is_Some (Db.source_files conn !! q) →
  is_Some (Db.source_files (Db.upsert_source conn p b sz mt h st er f l) !! q).
Proof.
  unfold Db.upsert_source, Db.set_source_files. cbn [Db.source_files].
  destruct (decide (p = q)) as [<-|Hne].
  - by rewrite lookup_partial_alter_eq.
  - by rewrite lookup_partial_alter_ne.
Qed.

Lemma scan_one_grows library now s f : grows s (scan_one library now s f).
Proof.
  destruct (scan_one_cases library now s f)
    as [(e & _ & ->)|[(st & _ & _ & ->)|[(st & e & _ & _ & _ & ->)|(st & data & _ & _ & _ & ->)]]];
    split_and!; cbn [conn vault]; try done.
  - intros p. apply upsert_source_keeps_rows.
  - intros p. unfold Db.touch_source_seen, Db.set_source_files. cbn [Db.source_files].
    destruct (decide (src_str f = p)) as [<-|Hne].
    + rewrite lookup_alter_eq. by intros [r ->].
    + by rewrite lookup_alter_ne.
  - intros p. apply upsert_source_keeps_rows.
  - destruct (vault s !! _) eqn:E; [done|]. by apply insert_subseteq.
  - intros h. unfold Db.upsert_source, Db.upsert_document_seen, Db.set_source_files,
      Db.set_documents. cbn [Db.documents].
    destruct (decide (sha256_hexdigest data = h)) as [<-|Hne].
    + rewrite lookup_partial_alter_eq. by intros [d ->].
    + by rewrite lookup_partial_alter_ne.
  - intros p Hp. apply upsert_source_keeps_rows.
    unfold Db.upsert_document_seen, Db.set_documents. by cbn [Db.source_files].
Qed.

Lemma foldl_scan_grows library now found s :
  grows s (foldl (scan_one library now) s found).
Proof.
  revert s. induction found as [|f found IH]; intros s; [done|].
  simpl. eapply grows_trans; [apply scan_one_grows | apply IH].
Qed.

(** ** A second pass *)

Lemma unchanged_after_touch conn p now q st :
  unchanged (Db.get_source (Db.touch_source_seen conn p now) q) st
    = unchanged (Db.get_source conn q) st.
Proof.
  unfold Db.get_source, Db.touch_source_seen, Db.set_source_files. cbn [Db.source_files].
  destruct (decide (p = q)) as [<-|Hne].
  - rewrite lookup_alter_eq. by destruct (Db.source_files conn !! p).
  - by rewrite lookup_alter_ne.
Qed.

(** A path that is read without error is recorded as it was observed. *)
Lemma scan_one_records library now s f st data :
  stat f = IoOk st → content f = IoOk data →
  PrimFloat.eqb (st_mtime st) (st_mtime st) = true →
  unchanged (Db.get_source (conn (scan_one library now s f)) (src_str f)) st = true.
Proof.
  intros Hst Hdata Hnan.
  destruct (scan_one_cases library now s f)
    as [(e & ? & _)|[(st' & Hst' & Hun & ->)|[(st' & e & _ & _ & ? & _)|(st' & data' & Hst' & _ & _ & ->)]]];
    try congruence; rewrite Hst in Hst'; injection Hst' as <-; cbn [conn].
  - by rewrite unchanged_after_touch.
  - unfold Db.get_source, Db.upsert_source, Db.set_source_files. cbn [Db.source_files].
    rewrite lookup_partial_alter_eq. unfold unchanged.
    cbn [Db.status Db.source_size Db.source_mtime]. by rewrite Z.eqb_refl, Hnan.
Qed.

(** An iteration leaves the rows of the other paths alone. *)
Lemma scan_one_other_rows library now s f q :
  src_str f ≠ q →
  Db.get_source (conn (scan_one library now s f)) q = Db.get_source (conn s) q.
Proof.
  intros Hne.
  destruct (scan_one_cases library now s f)
    as [(e & _ & ->)|[(st & _ & _ & ->)|[(st & e & _ & _ & _ & ->)|(st & data & _ & _ & _ & ->)]]];
    cbn [conn];
    unfold Db.get_source, Db.upsert_source, Db.upsert_document_seen, Db.touch_source_seen,
      Db.set_source_files, Db.set_documents; cbn [Db.source_files];
    by rewrite ?lookup_partial_alter_ne, ?lookup_alter_ne by done.
Qed.

(** The file can be read and its modification time is a number. *)
Definition readable (f : Found) : Prop :=
  ∃ st data, stat f = IoOk st ∧ content f = IoOk data ∧
             PrimFloat.eqb (st_mtime st) (st_mtime st) = true.

(** The manifest holds an ok row with the observed size and time. *)
Definition recorded (s : State) (f : Found) : Prop :=
  ∃ st, stat f = IoOk st ∧ unchanged (Db.get_source (conn s) (src_str f)) st = true.

Lemma foldl_scan_other_rows library now found s q :
  q ∉ src_str <$> found →
  Db.get_source (conn (foldl (scan_one library now) s found)) q = Db.get_source (conn s) q.
Proof.
  revert s. induction found as [|f found IH]; intros s Hq; [done|].
  simpl. rewrite fmap_cons, not_elem_of_cons in Hq. destruct Hq as [Hq1 Hq2].
  rewrite IH by done. by apply scan_one_other_rows.
Qed.

Lemma first_pass_records library now found s :
  NoDup (src_str <$> found) → Forall readable found →
  Forall (recorded (foldl (scan_one library now) s found)) found.
Proof.
  revert s. induction found as [|f found IH]; intros s Hnd Hr; [done|].
  rewrite fmap_cons in Hnd. apply NoDup_cons in Hnd as [Hf Hnd].
  apply Forall_cons in Hr as [(st & data & Hst & Hdata & Hnan) Hr].
  constructor; [|by apply IH].
  exists st. split; [done|]. simpl. rewrite foldl_scan_other_rows by done.
  by eapply scan_one_records.
Qed.

Lemma second_pass_skips library now found s :
  Forall (recorded s) found →
  let s' := foldl (scan_one library now) s found in
  vault s' = vault s ∧ hashed s' = hashed s ∧
  Db.documents (conn s') = Db.documents (conn s) ∧
  stats s' =
    {| discovered := discovered (stats s) + length found;
       skipped_unchanged := skipped_unchanged (stats s) + length found;
       copied_new := copied_new (stats s);
       deduped_existing := deduped_existing (stats s);
       errors := errors (stats s) |}.
Proof.
  revert s. induction found as [|f found IH]; intros s Hrec.
  - simpl. split_and!; try done. destruct (stats s); simpl. by rewrite !Nat.add_0_r.
  - apply Forall_cons in Hrec as [(st & Hst & Hun) Hrec].
    assert (E : scan_one library now s f =
      {| conn := Db.touch_source_seen (conn s) (src_str f) now;
         vault := vault s; hashed := hashed s;
         stats := add_skipped_unchanged (add_discovered (stats s)) |}).
    { unfold scan_one. by rewrite Hst, Hun. }
    cbn [foldl]. rewrite E.
    match goal with |- context [foldl _ ?s1 found] => destruct (IH s1) as (H1 & H2 & H3 & H4) end.
    { eapply Forall_impl; [exact Hrec|]. intros g (st' & Hst' & Hun').
      exists st'. split; [done|]. cbn [conn]. by rewrite unchanged_after_touch. }
    cbv zeta. rewrite H1, H2, H3, H4. cbn. split_and!; try done. f_equal; lia.
Qed.

Lemma scan_and_copy_valid library method dry_run now s found s' :
  scan_and_copy library method dry_run now s found = Catalog.Valid s' →
  s' = if dry_run
       then {| conn := conn s; vault := vault s; hashed := hashed s;
               stats := foldl (λ st _, add_discovered st) zero_stats found |}
       else foldl (scan_one library now)
              {| conn := conn s; vault := vault s; hashed := hashed s;
                 stats := zero_stats |} found.
Proof.
  unfold scan_and_copy. destruct (negb _); [done|]. destruct dry_run; by intros [= <-].
Qed.

End Facts.
End ScannerPasses.

Module ScannerProperties.
Import Examples MoreExamples.
Import Scanner ScannerFacts ScannerPasses.

(** X24. The counters of a pass add up: discovered is the number of paths
    the finder yielded, and in a pass that is not a dry run every path is
    counted once more as skipped, copied, deduplicated or failed; a dry run
    counts nothing else. *)
Theorem scan_counters_add_up `{RT : Runtime}
    (library : Library.Library) (method : str) (dry_run : bool) (now : float)
    (s s' : State) (found : list Found) :
  scan_and_copy library method dry_run now s found = Catalog.Valid s' →
  discovered (stats s') = length found ∧
  skipped_unchanged (stats s') + copied_new (stats s') + deduped_existing (stats s')
    + errors (stats s') = if dry_run then 0 else length found.
Proof.
  intros ->%scan_and_copy_valid. destruct dry_run.
  - cbn [stats]. rewrite foldl_count_discovered. done.
  - match goal with |- context [foldl _ ?s0 found] =>
      destruct (foldl_scan_counts library now found s0) as [-> H] end.
    unfold handled in H. rewrite H. done.
Qed.

Lemma scan_counters_add_up_witness :
  Scanner.discovered (Scanner.stats Scenarios.first_pass) = 2 ∧
  Scanner.skipped_unchanged (Scanner.stats Scenarios.first_pass)
    + Scanner.copied_new (Scanner.stats Scenarios.first_pass)
    + Scanner.deduped_existing (Scanner.stats Scenarios.first_pass)
    + Scanner.errors (Scanner.stats Scenarios.first_pass) = 2.
Proof.
  apply (scan_counters_add_up (RT := Reference.runtime)
           library (py "walk") false 1000%float empty_state Scenarios.first_pass
           [found_invoice; found_manual]).
  reflexivity.
Defined.

Lemma empty_state_consistent : @ScannerFacts.consistent Reference.runtime empty_state.
Proof.
  split_and!; simpl.
  - intros p r H. by rewrite lookup_empty in H.
  - intros h [d H]. by rewrite lookup_empty in H.
  - intros h data H. by rewrite lookup_empty in H.
Qed.

(** X25. A pass keeps the manifest and the store consistent: afterwards, as
    before, every source row with the status ok names a digest with a
    document row, every document row has its bytes in the store, and every
    stored file sits under the digest of its bytes. *)
Theorem scan_keeps_store_consistent `{RT : Runtime}
    (library : Library.Library) (method : str) (dry_run : bool) (now : float)
    (s s' : State) (found : list Found) :
  consistent s →
  scan_and_copy library method dry_run now s found = Catalog.Valid s' →
  consistent s'.
Proof.
  intros Hs ->%scan_and_copy_valid. destruct dry_run; [done|].
  by apply foldl_scan_consistent.
Qed.

Lemma scan_keeps_store_consistent_witness :
  @ScannerFacts.consistent Reference.runtime Scenarios.first_pass.
Proof.
  apply (scan_keeps_store_consistent (RT := Reference.runtime)
           library (py "walk") false 1000%float empty_state Scenarios.first_pass
           [found_invoice; found_manual]).
  - exact empty_state_consistent.
  - reflexivity.
Defined.

(** X26. A pass never removes or overwrites anything: the files of the store
    are still there with the same bytes, and no document row and no source
    row disappears. *)
Theorem scan_never_loses_content `{RT : Runtime}
    (library : Library.Library) (method : str) (dry_run : bool) (now : float)
    (s s' : State) (found : list Found) :
  scan_and_copy library method dry_run now s found = Catalog.Valid s' →
  (∀ h data, vault s !! h = Some data → vault s' !! h = Some data) ∧
  (∀ h, is_Some (Db.get_document (conn s) h) → is_Some (Db.get_document (conn s') h)) ∧
  (∀ p, is_Some (Db.get_source (conn s) p) → is_Some (Db.get_source (conn s') p)).
Proof.
  intros ->%scan_and_copy_valid. destruct dry_run; [done|].
  match goal with |- context [foldl _ ?s0 found] =>
    destruct (foldl_scan_grows library now found s0) as (H1 & H2 & H3) end.
  split_and!; [|exact H2|exact H3].
  intros h data Hh. by eapply lookup_weaken.
Qed.

Lemma scan_never_loses_content_witness :
  (∀ h data, Scanner.vault Scenarios.first_pass !! h = Some data →
             Scanner.vault Scenarios.second_pass !! h = Some data) ∧
  (∀ h, is_Some (Db.get_document (Scanner.conn Scenarios.first_pass) h) →
        is_Some (Db.get_document (Scanner.conn Scenarios.second_pass) h)) ∧
  (∀ p, is_Some (Db.get_source (Scanner.conn Scenarios.first_pass) p) →
        is_Some (Db.get_source (Scanner.conn Scenarios.second_pass) p)).
Proof.
  apply (scan_never_loses_content (RT := Reference.runtime)
           library (py "walk") false 2000%float Scenarios.first_pass Scenarios.second_pass
           [found_invoice; found_manual]).
  reflexivity.
Defined.

(** X27. Scanning is idempotent: when the finder yields each path once and
    every file can be read, a second pass over the same files right after
    the first skips all of them, copies and hashes nothing, and leaves the
    store and the document rows as they are. *)
Theorem rescan_skips_everything `{RT : Runtime}
    (library : Library.Library) (method : str) (now1 now2 : float)
    (s s1 : State) (found : list Found) :
  NoDup (src_str <$> found) →
  Forall readable found →
  scan_and_copy library method false now1 s found = Catalog.Valid s1 →
  ∃ s2, scan_and_copy library method false now2 s1 found = Catalog.Valid s2 ∧
    stats s2 = {| discovered := length found; skipped_unchanged := length found;
                  copied_new := 0; deduped_existing := 0; errors := 0 |} ∧
    vault s2 = vault s1 ∧ hashed s2 = hashed s1 ∧
    Db.documents (conn s2) = Db.documents (conn s1).
Proof.
  intros Hnd Hr Hfirst. pose proof (scan_and_copy_valid _ _ _ _ _ _ _ Hfirst) as E.
  cbv iota in E. revert Hfirst. unfold scan_and_copy. destruct (negb _); [done|].
  intros _. eexists. split; [reflexivity|].
  match goal with |- context [foldl (scan_one library now2) ?s0 found] =>
    destruct (second_pass_skips library now2 found s0) as (H1 & H2 & H3 & H4) end.
  { cbn [conn]. rewrite E. by apply first_pass_records. }
  cbv zeta in H1, H2, H3, H4. rewrite H1, H2, H3, H4. done.
Qed.

Lemma rescan_skips_everything_witness :
  ∃ s2,
    @Scanner.scan_and_copy Reference.runtime library (py "walk") false 2000%float
      Scenarios.first_pass [found_invoice; found_manual] = Catalog.Valid s2 ∧
    Scanner.stats s2 =
      {| Scanner.discovered := 2; Scanner.skipped_unchanged := 2;
         Scanner.copied_new := 0; Scanner.deduped_existing := 0; Scanner.errors := 0 |} ∧
    Scanner.vault s2 = Scanner.vault Scenarios.first_pass ∧
    Scanner.hashed s2 = Scanner.hashed Scenarios.first_pass ∧
    Db.documents (Scanner.conn s2) = Db.documents (Scanner.conn Scenarios.first_pass).
Proof.
  apply (rescan_skips_everything (RT := Reference.runtime)
           library (py "walk") 1000%float 2000%float empty_state Scenarios.first_pass
           [found_invoice; found_manual]).
  - apply (bool_decide_unpack _). vm_compute. exact I.
  - repeat constructor.
    + eexists _, _. split_and!; reflexivity.
    + eexists _, _. split_and!; reflexivity.
  - reflexivity.
Defined.



End ScannerProperties.

(** ** organize.py *)

Module OrganizeFacts.
Import Library LibraryFacts Organize.

Lemma py_inj (a b : string) : py a = py b → a = b.
Proof.
  unfold py. intros H.
  assert (E : list_ascii_of_string a = list_ascii_of_string b).
  { revert H. generalize (list_ascii_of_string a) (list_ascii_of_string b).
    induction l as [|x l IH]; intros [|y l']; simpl; try done.
    intros [= Hxy Hl]. f_equal; [|by apply IH].
    by rewrite <- (ascii_N_embedding x), <- (ascii_N_embedding y), Hxy. }
  by rewrite <- (string_of_list_ascii_of_string a), <- (string_of_list_ascii_of_string b), E.
Qed.

Lemma N_to_uint_nonnil (n : N) : N.to_uint n ≠ Decimal.Nil.
Proof. destruct n; [done | apply DecimalPos.Unsigned.to_uint_nonnil]. Qed.

Lemma decimal_inj (n m : N) : decimal n = decimal m → n = m.
Proof.
  unfold decimal. intros H%py_inj.
  apply (f_equal NilZero.uint_of_string) in H.
  rewrite !NilZero.usu in H by apply N_to_uint_nonnil.
  injection H as H. by apply DecimalN.Unsigned.to_uint_inj.
Qed.

Lemma digits_of_uint (d : Decimal.uint) :
  Forall (λ c, is_digit c = true) (py (NilEmpty.string_of_uint d)).
Proof. induction d; simpl; constructor; done. Qed.

Lemma decimal_digits (n : N) : Forall (λ c, is_digit c = true) (decimal n).
Proof.
  unfold decimal, NilZero.string_of_uint.
  destruct (N.to_uint n) eqn:E; try (rewrite <- E; apply digits_of_uint).
  by repeat constructor.
Qed.

Lemma digit_no_slash s : Forall (λ c, is_digit c = true) s → no_slash s.
Proof. intros H. eapply Forall_impl; [exact H|]. by intros c Hc ->. Qed.

Lemma safe_no_slash s : Forall (λ c, Util.safe_char c = true) s → no_slash s.
Proof. intros H. eapply Forall_impl; [exact H|]. by intros c Hc ->. Qed.

Lemma safe_filename_safe name m :
  Forall (λ c, Util.safe_char c = true) (Util.safe_filename name m).
Proof.
  unfold Util.safe_filename. cbv zeta.
  destruct (UtilLemmas.named_cases name) as (_ & _ & Hsafe & _ & _).
  destruct (Nat.ltb _ _); [|done]. by apply UtilFacts.rstrip_Forall, Forall_take.
Qed.

Section Facts.
Context `{RT : Runtime}.

Lemma stem_safe resolved :
  Forall (λ c, Util.safe_char c = true) (stem (base_name resolved)).
Proof.
  assert (H : Forall (λ c, Util.safe_char c = true) (base_name resolved)).
  { unfold base_name. cbv zeta. destruct (negb _); [|apply safe_filename_safe].
    apply Forall_app. split; [apply safe_filename_safe | by repeat constructor]. }
  unfold stem. destruct (endswith _ _); [by apply Forall_take | done].
Qed.

(** A candidate name is one path component. *)
Lemma candidate_plain st h n :
  no_slash st → no_slash (take 8 h) →
  Path_of (candidate_name st h n) = {| root := []; parts := [candidate_name st h n] |}.
Proof.
  intros Hst Hh. apply Path_of_plain.
  - unfold candidate_name. repeat (apply Forall_app; split); try done;
      try by repeat constructor.
    destruct n as [n|]; [|constructor].
    apply Forall_app. split; [by repeat constructor|].
    apply digit_no_slash, decimal_digits.
  - unfold candidate_name. intros E. apply (f_equal length) in E.
    rewrite !length_app in E. simpl in E. lia.
  - unfold candidate_name. intros E. apply (f_equal length) in E.
    rewrite !length_app in E. simpl in E. lia.
Qed.

Lemma div_candidate cd st h n :
  no_slash st → no_slash (take 8 h) →
  div cd (candidate_name st h n) =
    {| root := root cd; parts := parts cd ++ [candidate_name st h n] |}.
Proof. intros Hst Hh. unfold div. by rewrite candidate_plain. Qed.

Lemma candidate_name_inj st h n m :
  candidate_name st h n = candidate_name st h m → n = m.
Proof.
  unfold candidate_name. intros E. do 3 apply app_inv_head in E.
  apply app_inv_tail in E. destruct n as [n|], m as [m|]; try done.
  apply app_inv_head in E. by apply decimal_inj in E as ->.
Qed.

Lemma div_candidate_inj cd st h n m :
  no_slash st → no_slash (take 8 h) →
  div cd (candidate_name st h n) = div cd (candidate_name st h m) → n = m.
Proof.
  intros Hst Hh. rewrite !div_candidate by done. intros [= E].
  apply app_inv_head in E. injection E as E. by apply candidate_name_inj in E.
Qed.

(** What the loop returns, and what it has seen when it gives up. *)
Lemma next_free_Some fuel taken cd st h c n p :
  next_free fuel taken cd st h c n = Some p →
  taken p = false ∧
  ((p = c) ∨
   (taken c = true ∧
    ∃ j, (n ≤ j)%N ∧ p = div cd (candidate_name st h (Some j)) ∧
         ∀ m, (n ≤ m < j)%N → taken (div cd (candidate_name st h (Some m))) = true)).
Proof.
  revert c n. induction fuel as [|k IH]; intros c n; [done|]. simpl.
  destruct (taken c) eqn:Ec; [|intros [= <-]; auto].
  intros [Hp [->|(Hc & j & Hj & -> & Hall)]]%IH.
  - split; [done|]. right. split; [done|]. exists n. split; [lia|]. split; [done|].
    intros m Hm. lia.
  - split; [done|]. right. split; [done|]. exists j. split; [lia|]. split; [done|].
    intros m Hm. destruct (decide (m = n)) as [->|Hne]; [done|]. apply Hall. lia.
Qed.

Lemma next_free_None fuel taken cd st h c n :
  next_free fuel taken cd st h c n = None →
  ∀ i, i < fuel →
       taken (match i with
              | O => c
              | S i' => div cd (candidate_name st h (Some (n + N.of_nat i')%N))
              end) = true.
Proof.
  revert c n. induction fuel as [|k IH]; intros c n H i Hi; [lia|]. simpl in H.
  destruct (taken c) eqn:Ec; [|done].
  destruct i as [|i']; [done|].
  specialize (IH _ _ H i' ltac:(lia)). destruct i' as [|i''].
  - by rewrite N.add_0_r.
  - replace (n + N.of_nat (S i''))%N with (n + 1 + N.of_nat i'')%N by lia. done.
Qed.

End Facts.
End OrganizeFacts.

Module OrganizeProperties.
Import Examples MoreExamples.
Import Library LibraryFacts Organize OrganizeFacts.

(** X29. The link of a document gets the first name that is free among
    <stem>__<8 digest characters>.pdf, then the same with __2, __3, ...
    before the extension: the path returned does not exist, and every
    earlier candidate does. *)
Theorem link_path_is_first_free `{RT : Runtime}
    (fuel : nat) (taken : Path → bool) (library : Library)
    (category : option str) (default_category resolved hash_hex : str) (p : Path) :
  link_path fuel taken library category default_category resolved hash_hex = Some p →
  let cd := cat_dir library category default_category in
  let st := stem (base_name resolved) in
  taken p = false ∧
  (p = div cd (candidate_name st hash_hex None) ∨
   (taken (div cd (candidate_name st hash_hex None)) = true ∧
    ∃ j, (2 ≤ j)%N ∧ p = div cd (candidate_name st hash_hex (Some j)) ∧
         ∀ m, (2 ≤ m < j)%N →
              taken (div cd (candidate_name st hash_hex (Some m))) = true)).
Proof. unfold link_path. cbv zeta. apply next_free_Some. Qed.

Lemma link_path_is_first_free_witness :
  first_taken second_link = false ∧
  (second_link =
     Library.div (@Organize.cat_dir library (Some (py "Taxes")) (py "Unsorted"))
       (Organize.candidate_name
          (@Organize.stem Reference.runtime (@Organize.base_name Reference.runtime (py "Tax return 2024")))
          a_digest None) ∨
   (first_taken
      (Library.div (@Organize.cat_dir library (Some (py "Taxes")) (py "Unsorted"))
         (Organize.candidate_name
            (@Organize.stem Reference.runtime (@Organize.base_name Reference.runtime (py "Tax return 2024")))
            a_digest None)) = true ∧
    ∃ j, (2 ≤ j)%N ∧
         second_link =
           Library.div (@Organize.cat_dir library (Some (py "Taxes")) (py "Unsorted"))
             (Organize.candidate_name
                (@Organize.stem Reference.runtime (@Organize.base_name Reference.runtime (py "Tax return 2024")))
                a_digest (Some j)) ∧
         ∀ m, (2 ≤ m < j)%N →
              first_taken
                (Library.div (@Organize.cat_dir library (Some (py "Taxes")) (py "Unsorted"))
                   (Organize.candidate_name
                      (@Organize.stem Reference.runtime (@Organize.base_name Reference.runtime (py "Tax return 2024")))
                      a_digest (Some m))) = true)).
Proof.
  apply (link_path_is_first_free (RT := Reference.runtime)
           5 first_taken library (Some (py "Taxes")) (py "Unsorted")
           (py "Tax return 2024") a_digest second_link).
  vm_compute. reflexivity.
Defined.

(** X30. The collision loop ends: when the paths that exist are among
    finitely many entries and the digest is hexadecimal, one test more than
    there are entries is enough to find a free name. *)
Theorem link_path_is_found `{RT : Runtime}
    (taken : Path → bool) (entries : list Path) (library : Library)
    (category : option str) (default_category resolved hash_hex : str) :
  Forall (λ c, is_hex c = true) hash_hex →
  (∀ p, taken p = true → p ∈ entries) →
  ∃ p, link_path (S (length entries)) taken library category default_category
         resolved hash_hex = Some p ∧
       taken p = false.
Proof.
  intros Hhex Hfin.
  destruct (link_path _ _ _ _ _ _ _) as [p|] eqn:E.
  - exists p. split; [done|]. unfold link_path in E. cbv zeta in E.
    by apply next_free_Some in E as [? _].
  - exfalso. unfold link_path in E. cbv zeta in E.
    set (cd := cat_dir library category default_category) in *.
    set (st := stem (base_name resolved)) in *.
    pose proof (next_free_None _ _ _ _ _ _ _ E) as Hall.
    assert (Hst : no_slash st) by apply safe_no_slash, stem_safe.
    assert (Hh : no_slash (take 8 hash_hex)) by by apply Forall_take, hex_no_slash.
    set (cand := λ i : nat,
           div cd (candidate_name st hash_hex
                     (match i with O => None | S i' => Some (2 + N.of_nat i')%N end))).
    assert (Hin : ∀ i, i < S (length entries) → cand i ∈ entries).
    { intros i Hi. apply Hfin. specialize (Hall i Hi). unfold cand. by destruct i. }
    assert (Hinj : ∀ i j, cand i = cand j → i = j).
    { intros i j Hij. unfold cand in Hij. apply div_candidate_inj in Hij; [|done..].
      destruct i, j; try done. injection Hij as Hij. f_equal. lia. }
    assert (Hnd : NoDup (cand <$> seq 0 (S (length entries)))).
    { apply NoDup_fmap_2_strong; [|apply NoDup_seq]. intros i j _ _. apply Hinj. }
    assert (Hsub : (cand <$> seq 0 (S (length entries))) ⊆+ entries).
    { apply NoDup_submseteq; [done|]. intros x (i & -> & Hi%elem_of_seq)%list_elem_of_fmap.
      apply Hin. lia. }
    apply submseteq_length in Hsub. rewrite length_fmap, length_seq in Hsub. lia.
Qed.

Lemma link_path_is_found_witness :
  ∃ p, @Organize.link_path Reference.runtime (S (length [first_link])) first_taken library
         (Some (py "Taxes")) (py "Unsorted") (py "Tax return 2024") a_digest = Some p ∧
       first_taken p = false.
Proof.
  apply (link_path_is_found (RT := Reference.runtime)
           first_taken [first_link] library (Some (py "Taxes")) (py "Unsorted")
           (py "Tax return 2024") a_digest).
  - vm_compute. repeat constructor.
  - intros p H. by apply bool_decide_eq_true in H.
Defined.

(** The category a document is filed under: its category without the
    surrounding blanks; for a document without a category the default
    category without its surrounding blanks; for a category that is blank
    the default category as it is. The result is not empty when the
    default category is not. *)
Lemma view_category_falls_back (category : option str) (default_category : str) :
  (∀ c, category = Some c → strip c ≠ [] →
        view_category category default_category = strip c) ∧
  (category = None ∨ category = Some [] → strip default_category ≠ [] →
   view_category category default_category = strip default_category) ∧
  (∀ c, category = Some c → c ≠ [] → strip c = [] →
        view_category category default_category = default_category) ∧
  (default_category ≠ [] → view_category category default_category ≠ []).
Proof.
  unfold view_category, Catalog.or_else. split_and!.
  - intros c -> Hc. destruct c as [|x c]; [done|]. by destruct (strip (x :: c)).
  - intros [->| ->] Hd; by destruct (strip default_category).
  - intros c -> Hc Hs. destruct c as [|x c]; [done|]. by rewrite Hs.
  - intros Hd. by destruct (strip _).
Qed.

End OrganizeProperties.
